(** * EdufleetV2: the subscription entitlement engine

    A shallow embedding of the server's subscription controller
    ([server/controllers/subscriptionController.ts]), of the persona
    access checks, of the creation gates of the job and vehicle
    controllers, of the data-delay helper of the user controller, and of
    the application status handlers of
    [server/controllers/jobController.ts].

    Conventions of the embedding:
    - a MongoDB collection is a finite map from document ids to documents;
      the change-request collection is a list kept in insertion order;
    - a JavaScript [Date] is its number of milliseconds since the epoch;
      the handlers read the clock once, so [now] is an explicit argument;
      [setDate(getDate() + d)] is taken on a clock without daylight-saving
      shifts, where it adds [d] days of 86,400,000 ms; a time more than
      8.64e15 ms away from the epoch makes the [Date] invalid, and a
      document that carries an invalid [Date] is refused by [save()];
    - [subscription] is a nested path of the user schema, so a handler
      always reads an object there: the stored fields, or the schema's
      defaults where the stored document has none;
    - numbers stored by the schemas are integers ([Z]);
    - an Express handler becomes a function from the database to the new
      database and the reply it sends. *)

From Stdlib Require Import ZArith List Bool Lia Ascii String.
From stdpp Require Import base option gmap strings pretty.
Import ListNotations.

Local Open Scope string_scope.
Local Open Scope Z_scope.

(** ** JavaScript helpers *)

Module JS.

(** [x || 0] on a number. *)
Definition or_zero (x : Z) : Z := if Z.eqb x 0 then 0 else x.

(** [Math.max(0, x)]. *)
Definition max0 (x : Z) : Z := Z.max 0 x.

Definition msPerDay : Z := 1000 * 60 * 60 * 24.

(** The time value [d.setDate(d.getDate() + days)] computes. *)
Definition addDays (d days : Z) : Z := d + days * msPerDay.

(** The largest time value of a [Date]. *)
Definition maxTime : Z := 8640000000000000.

(** [TimeClip]: a time value out of range leaves an invalid [Date]. *)
Definition validTime (t : Z) : bool := (- maxTime <=? t) && (t <=? maxTime).

End JS.

(** ** Data model (models/SubscriptionPlan.ts, models/User.ts,
       models/SubscriptionRequest.ts) *)

Definition PlanId := nat.
Definition UserId := nat.
Definition RequestId := nat.

Inductive PlanType := pt_teacher | pt_institute | pt_vendor.

Record Features := mkFeatures {
  maxListings : Z;
  maxJobPosts : Z;
  maxBrowsesPerMonth : Z;
  dataDelayDays : Z;
  teacherDataDelayDays : Z;
  canAdvertiseVehicles : bool;
  instantVehicleAlerts : bool;
  instantJobAlerts : bool;
  priorityListings : bool;
  analytics : bool
}.

Record Plan := mkPlan {
  name : string;
  displayName : string;
  planType : PlanType;
  price : Z;
  duration : Z;
  features : Features;
  isActive : bool
}.

Inductive SubStatus := active | inactive | suspended | expired.
Inductive PaymentStatus := pay_pending | pay_completed | pay_failed.

Definition status_string (s : SubStatus) : string :=
  match s with
  | active => "active"
  | inactive => "inactive"
  | suspended => "suspended"
  | expired => "expired"
  end.

Definition status_eqb (a b : SubStatus) : bool :=
  match a, b with
  | active, active | inactive, inactive
  | suspended, suspended | expired, expired => true
  | _, _ => false
  end.

Record Subscription := mkSubscription {
  planId : option PlanId;
  status : SubStatus;
  paymentStatus : PaymentStatus;
  startDate : option Z;
  endDate : option Z;
  listingsUsed : Z;
  listingsLimit : Z;
  jobPostsUsed : Z;
  jobPostsLimit : Z;
  browseCount : Z;
  browseCountLimit : Z;
  lastBrowseReset : option Z;
  notes : string
}.

Inductive Role := guest | institute | admin | teacher.

Record User := mkUser {
  role : Role;
  subscription : option Subscription
}.

Inductive RequestType := upgrade | downgrade | renewal.
Inductive RequestStatus := req_pending | req_approved | req_rejected.

Record SubscriptionRequest := mkRequest {
  req_id : RequestId;
  req_userId : UserId;
  currentPlanId : PlanId;
  requestedPlanId : PlanId;
  requestType : RequestType;
  req_status : RequestStatus;
  adminNotes : option string;
  userNotes : option string;
  req_updatedAt : option Z
}.

(** The three collections. *)
Record Db := mkDb {
  plans : gmap PlanId Plan;
  users : gmap UserId User;
  requests : list SubscriptionRequest
}.

(** What a handler sends: [res.json(body)] (with its status code) or
    [res.status(code).json({ error })]. *)
Inductive Reply (A : Type) : Type :=
| Json (code : nat) (body : A)
| Fail (code : nat) (error : string).
Arguments Json {A} code body.
Arguments Fail {A} code error.

(** *** Field updates of the embedded subscription document *)

Definition set_status (st : SubStatus) (s : Subscription) : Subscription :=
  mkSubscription (planId s) st (paymentStatus s) (startDate s) (endDate s)
    (listingsUsed s) (listingsLimit s) (jobPostsUsed s) (jobPostsLimit s)
    (browseCount s) (browseCountLimit s) (lastBrowseReset s) (notes s).

Definition set_listingsUsed (n : Z) (s : Subscription) : Subscription :=
  mkSubscription (planId s) (status s) (paymentStatus s) (startDate s) (endDate s)
    n (listingsLimit s) (jobPostsUsed s) (jobPostsLimit s)
    (browseCount s) (browseCountLimit s) (lastBrowseReset s) (notes s).

Definition set_jobPostsUsed (n : Z) (s : Subscription) : Subscription :=
  mkSubscription (planId s) (status s) (paymentStatus s) (startDate s) (endDate s)
    (listingsUsed s) (listingsLimit s) n (jobPostsLimit s)
    (browseCount s) (browseCountLimit s) (lastBrowseReset s) (notes s).

Definition set_browseCount (n : Z) (s : Subscription) : Subscription :=
  mkSubscription (planId s) (status s) (paymentStatus s) (startDate s) (endDate s)
    (listingsUsed s) (listingsLimit s) (jobPostsUsed s) (jobPostsLimit s)
    n (browseCountLimit s) (lastBrowseReset s) (notes s).

Definition set_lastBrowseReset (d : Z) (s : Subscription) : Subscription :=
  mkSubscription (planId s) (status s) (paymentStatus s) (startDate s) (endDate s)
    (listingsUsed s) (listingsLimit s) (jobPostsUsed s) (jobPostsLimit s)
    (browseCount s) (browseCountLimit s) (Some d) (notes s).

Definition set_limits (l j b : Z) (s : Subscription) : Subscription :=
  mkSubscription (planId s) (status s) (paymentStatus s) (startDate s) (endDate s)
    (listingsUsed s) l (jobPostsUsed s) j
    (browseCount s) b (lastBrowseReset s) (notes s).

Definition set_endDate (d : option Z) (s : Subscription) : Subscription :=
  mkSubscription (planId s) (status s) (paymentStatus s) (startDate s) d
    (listingsUsed s) (listingsLimit s) (jobPostsUsed s) (jobPostsLimit s)
    (browseCount s) (browseCountLimit s) (lastBrowseReset s) (notes s).

Definition set_paymentStatus (p : PaymentStatus) (s : Subscription) : Subscription :=
  mkSubscription (planId s) (status s) p (startDate s) (endDate s)
    (listingsUsed s) (listingsLimit s) (jobPostsUsed s) (jobPostsLimit s)
    (browseCount s) (browseCountLimit s) (lastBrowseReset s) (notes s).

Definition set_notes (n : string) (s : Subscription) : Subscription :=
  mkSubscription (planId s) (status s) (paymentStatus s) (startDate s) (endDate s)
    (listingsUsed s) (listingsLimit s) (jobPostsUsed s) (jobPostsLimit s)
    (browseCount s) (browseCountLimit s) (lastBrowseReset s) n.

Definition set_subscription (o : option Subscription) (u : User) : User :=
  mkUser (role u) o.

(** *** Database access *)

(** [User.findById(id)]. *)
Definition findUser (db : Db) (id : UserId) : option User := users db !! id.

(** [SubscriptionPlan.findById(id)]. *)
Definition findPlan (db : Db) (id : PlanId) : option Plan := plans db !! id.

(** [user.save()]. *)
Definition saveUser (id : UserId) (u : User) (db : Db) : Db :=
  mkDb (plans db) (<[id := u]> (users db)) (requests db).

(** [.populate('subscription.planId')]: the plan document the user's
    subscription refers to; a missing reference or a dangling one yields
    null. *)
Definition populatedPlan (db : Db) (s : Subscription) : option Plan :=
  match planId s with
  | Some pid => findPlan db pid
  | None => None
  end.

(** *** The subscription a handler reads

    [subscription] is a nested path of the user schema, not a
    subdocument: on every document [findById] returns,
    [user.subscription] is an object, the fields the stored document
    lacks taking the defaults of the schema.  So [!user.subscription] is
    never true, and a user whose stored document has no subscription
    (never assigned, or unset by [cancelSubscription]) is read as
    [defaults].  A guard [!user.subscription || c] is written below as a
    match on the stored field whose [None] branch is the branch [c]
    takes on [defaults]; a guard [!user.subscription] alone selects
    nothing, and the handler goes on with [hydrated user]. *)
Definition defaults : Subscription :=
  mkSubscription None inactive pay_completed None None 0 0 0 0 0 0 None EmptyString.

Definition hydrated (user : User) : Subscription :=
  default defaults (subscription user).

(** The error [user.save()] throws on a document that carries an invalid
    [Date]; the text is the head of Mongoose's message. *)
Definition castError : string := "User validation failed".

(** ** Subscription enforcement endpoints (subscriptionController.ts) *)

(** Body of the three limit checks. *)
Record LimitCheck := mkLimitCheck {
  allowed : bool;
  remaining : Z;
  limitReached : bool;
  lc_subscription : option Subscription;
  message : option string
}.

(** Body of the counter mutations; [counter] is sent under the counter's
    own name ([browseCount], [listingsUsed], [jobPostsUsed]) and is absent
    from the refusals. *)
Record CounterReply := mkCounterReply {
  success : bool;
  counter : option Z;
  cr_message : string
}.

(** [checkAndResetBillingPeriod(user)]: the user document after the call,
    the database after the call and the returned flag. *)
Definition checkAndResetBillingPeriod (now : Z) (uid : UserId) (user : User) (db : Db)
  : User * Db * bool :=
  match subscription user with
  | None => (user, db, false)
  | Some s =>
    match lastBrowseReset s with
    | None => (user, db, false)
    | Some lastReset =>
      let daysSinceReset := (now - lastReset) / JS.msPerDay in
      if 30 <=? daysSinceReset then
        let user' :=
          set_subscription (Some (set_lastBrowseReset now (set_browseCount 0 s))) user in
        (user', saveUser uid user' db, true)
      else (user, db, false)
    end
  end.

Definition checkBrowseLimit (now : Z) (userId : option UserId) (db : Db)
  : Db * Reply LimitCheck :=
  match userId with
  | None => (db, Fail 401 "User ID not found")
  | Some uid =>
    match findUser db uid with
    | None => (db, Fail 404 "User not found")
    | Some user0 =>
      let '(user, db1, _) := checkAndResetBillingPeriod now uid user0 db in
      let fallback :=
        (db1, Json 200 (mkLimitCheck true 10 false None (Some "Using free plan limits"))) in
      match subscription user with
      | None => fallback
      | Some s =>
        match populatedPlan db s with
        | None => fallback
        | Some plan =>
          if negb (status_eqb (status s) active) then
            (db1, Json 200 (mkLimitCheck false 0 true (Some s)
                     (Some ("Subscription is " ++ status_string (status s)))))
          else
            let endD := default now (endDate s) in
            if endD <? now then
              let s' := set_status expired s in
              (saveUser uid (set_subscription (Some s') user) db1,
               Json 200 (mkLimitCheck false 0 true (Some s')
                     (Some "Subscription has expired")))
            else
              let maxBrowses := JS.or_zero (maxBrowsesPerMonth (features plan)) in
              let browseCountUsed := JS.or_zero (browseCount s) in
              let remaining := JS.max0 (maxBrowses - browseCountUsed) in
              let limitReached := remaining <=? 0 in
              (db1, Json 200 (mkLimitCheck (negb limitReached) remaining limitReached (Some s)
                     (if limitReached
                      then Some ("Browse limit reached (" ++ pretty maxBrowses ++ ")")
                      else None)))
        end
      end
    end
  end.

Definition incrementBrowseCount (now : Z) (userId : option UserId) (db : Db)
  : Db * Reply CounterReply :=
  match userId with
  | None => (db, Fail 401 "User ID not found")
  | Some uid =>
    match findUser db uid with
    | None => (db, Fail 404 "User not found")
    | Some user0 =>
      let '(user, db1, _) := checkAndResetBillingPeriod now uid user0 db in
      let refuse := (db1, Json 200 (mkCounterReply false None "No active subscription")) in
      match subscription user with
      | None => refuse
      | Some s =>
        if negb (status_eqb (status s) active) then refuse
        else
          let s' := set_browseCount (JS.or_zero (browseCount s) + 1) s in
          (saveUser uid (set_subscription (Some s') user) db1,
           Json 200 (mkCounterReply true (Some (browseCount s')) "Browse count incremented"))
      end
    end
  end.

Definition checkListingLimit (now : Z) (userId : option UserId) (db : Db)
  : Db * Reply LimitCheck :=
  match userId with
  | None => (db, Fail 401 "User ID not found")
  | Some uid =>
    match findUser db uid with
    | None => (db, Fail 404 "User not found")
    | Some user =>
      let fallback :=
        (db, Json 200 (mkLimitCheck false 2 true None
               (Some "No active subscription. Listing creation not allowed."))) in
      match subscription user with
      | None => fallback
      | Some s =>
        match populatedPlan db s with
        | None => fallback
        | Some plan =>
          if negb (status_eqb (status s) active) then
            (db, Json 200 (mkLimitCheck false 0 true (Some s)
                    (Some ("Subscription is " ++ status_string (status s)
                           ++ ". Cannot create listings."))))
          else
            let endD := default now (endDate s) in
            if endD <? now then
              let s' := set_status expired s in
              (saveUser uid (set_subscription (Some s') user) db,
               Json 200 (mkLimitCheck false 0 true (Some s')
                     (Some "Subscription has expired. Cannot create listings.")))
            else
              let maxListings := JS.or_zero (maxListings (features plan)) in
              let listingsUsed := JS.or_zero (listingsUsed s) in
              let remaining := JS.max0 (maxListings - listingsUsed) in
              let limitReached := remaining <=? 0 in
              (db, Json 200 (mkLimitCheck (negb limitReached) remaining limitReached (Some s)
                    (if limitReached
                     then Some ("Listing limit reached (" ++ pretty maxListings
                                ++ "). Please upgrade.")
                     else None)))
        end
      end
    end
  end.

Definition incrementListingCount (userId : option UserId) (db : Db)
  : Db * Reply CounterReply :=
  match userId with
  | None => (db, Fail 401 "User ID not found")
  | Some uid =>
    match findUser db uid with
    | None => (db, Fail 404 "User not found")
    | Some user =>
      let refuse := (db, Json 200 (mkCounterReply false None "No active subscription")) in
      match subscription user with
      | None => refuse
      | Some s =>
        if negb (status_eqb (status s) active) then refuse
        else
          let s' := set_listingsUsed (JS.or_zero (listingsUsed s) + 1) s in
          (saveUser uid (set_subscription (Some s') user) db,
           Json 200 (mkCounterReply true (Some (listingsUsed s')) "Listing count incremented"))
      end
    end
  end.

Definition decrementListingCount (userId : option UserId) (db : Db)
  : Db * Reply CounterReply :=
  match userId with
  | None => (db, Fail 401 "User ID not found")
  | Some uid =>
    match findUser db uid with
    | None => (db, Fail 404 "User not found")
    | Some user =>
      let s := hydrated user in
      if 0 <? JS.or_zero (listingsUsed s) then
        let s' := set_listingsUsed (JS.or_zero (listingsUsed s) - 1) s in
        (saveUser uid (set_subscription (Some s') user) db,
         Json 200 (mkCounterReply true (Some (listingsUsed s')) "Listing count decremented"))
      else
        (db, Json 200 (mkCounterReply true (Some (listingsUsed s)) "Listing count decremented"))
    end
  end.

Definition checkJobPostLimit (now : Z) (userId : option UserId) (db : Db)
  : Db * Reply LimitCheck :=
  match userId with
  | None => (db, Fail 401 "User ID not found")
  | Some uid =>
    match findUser db uid with
    | None => (db, Fail 404 "User not found")
    | Some user =>
      let fallback :=
        (db, Json 200 (mkLimitCheck false 0 true None
               (Some "No active subscription. Job posting not allowed."))) in
      match subscription user with
      | None => fallback
      | Some s =>
        match populatedPlan db s with
        | None => fallback
        | Some plan =>
          if negb (status_eqb (status s) active) then
            (db, Json 200 (mkLimitCheck false 0 true (Some s)
                    (Some ("Subscription is " ++ status_string (status s)
                           ++ ". Cannot post jobs."))))
          else
            let endD := default now (endDate s) in
            if endD <? now then
              let s' := set_status expired s in
              (saveUser uid (set_subscription (Some s') user) db,
               Json 200 (mkLimitCheck false 0 true (Some s')
                     (Some "Subscription has expired. Cannot post jobs.")))
            else
              let maxJobPosts := JS.or_zero (maxJobPosts (features plan)) in
              let jobPostsUsed := JS.or_zero (jobPostsUsed s) in
              let remaining := JS.max0 (maxJobPosts - jobPostsUsed) in
              let limitReached := remaining <=? 0 in
              (db, Json 200 (mkLimitCheck (negb limitReached) remaining limitReached (Some s)
                    (if limitReached
                     then Some ("Job post limit reached (" ++ pretty maxJobPosts
                                ++ "). Please upgrade.")
                     else None)))
        end
      end
    end
  end.

Definition incrementJobPostCount (userId : option UserId) (db : Db)
  : Db * Reply CounterReply :=
  match userId with
  | None => (db, Fail 401 "User ID not found")
  | Some uid =>
    match findUser db uid with
    | None => (db, Fail 404 "User not found")
    | Some user =>
      let refuse := (db, Json 200 (mkCounterReply false None "No active subscription")) in
      match subscription user with
      | None => refuse
      | Some s =>
        if negb (status_eqb (status s) active) then refuse
        else
          let s' := set_jobPostsUsed (JS.or_zero (jobPostsUsed s) + 1) s in
          (saveUser uid (set_subscription (Some s') user) db,
           Json 200 (mkCounterReply true (Some (jobPostsUsed s')) "Job post count incremented"))
      end
    end
  end.

(** ** Plan catalog and subscription management (subscriptionController.ts) *)

(** The fields of a plan an update document may set; [features] is
    replaced as a whole, as a nested object in the update document is. *)
Record PlanPatch := mkPlanPatch {
  p_displayName : option string;
  p_price : option Z;
  p_duration : option Z;
  p_features : option Features;
  p_isActive : option bool
}.

Definition applyPatch (p : PlanPatch) (pl : Plan) : Plan :=
  mkPlan (name pl)
    (default (displayName pl) (p_displayName p))
    (planType pl)
    (default (price pl) (p_price p))
    (default (duration pl) (p_duration p))
    (default (features pl) (p_features p))
    (default (isActive pl) (p_isActive p)).

(** The [min] validators of the plan schema, run on the fields an update
    sets ([runValidators: true]). *)
Definition validPatch (p : PlanPatch) : bool :=
  match p_price p with Some x => 0 <=? x | None => true end
  && match p_duration p with Some x => 1 <=? x | None => true end
  && match p_features p with
     | Some f => (0 <=? maxListings f) && (0 <=? maxBrowsesPerMonth f)
     | None => true
     end.

Definition updatePlan (id : PlanId) (patch : PlanPatch) (db : Db) : Db * Reply Plan :=
  if validPatch patch then
    match findPlan db id with
    | None => (db, Fail 404 "Subscription plan not found")
    | Some pl =>
      let pl' := applyPatch patch pl in
      (mkDb (<[id := pl']> (plans db)) (users db) (requests db), Json 200 pl')
    end
  else (db, Fail 400 "Validation failed").

(** [s || d] on an optional string: undefined and the empty string are
    falsy. *)
Definition str_or (s : option string) (d : string) : string :=
  match s with
  | Some x => if String.eqb x EmptyString then d else x
  | None => d
  end.

(** [n || d] on an optional number. *)
Definition num_or (n : option Z) (d : Z) : Z :=
  match n with
  | Some x => if Z.eqb x 0 then d else x
  | None => d
  end.

Definition paymentFor (plan : Plan) : PaymentStatus :=
  if 0 <? price plan then pay_pending else pay_completed.

Definition assignSubscription (now : Z) (userId : UserId) (pid : PlanId) (days : Z)
    (customListingsLimit customBrowseLimit : option Z) (notes : option string) (db : Db)
  : Db * Reply Subscription :=
  match findUser db userId with
  | None => (db, Fail 404 "User not found")
  | Some user =>
    match findPlan db pid with
    | None => (db, Fail 404 "Subscription plan not found")
    | Some plan =>
      let startDate := now in
      let endDate := JS.addDays startDate days in
      let s := mkSubscription (Some pid) active (paymentFor plan)
                 (Some startDate) (Some endDate)
                 0 (num_or customListingsLimit (maxListings (features plan)))
                 0 (maxJobPosts (features plan))
                 0 (num_or customBrowseLimit (maxBrowsesPerMonth (features plan)))
                 (Some startDate) (str_or notes EmptyString) in
      if negb (JS.validTime endDate) then (db, Fail 400 castError)
      else (saveUser userId (set_subscription (Some s) user) db, Json 201 s)
    end
  end.

Definition extendSubscription (userId : UserId) (newEndDate : option Z)
    (notes : option string) (payment : option PaymentStatus) (db : Db)
  : Db * Reply Subscription :=
  match findUser db userId with
  | None => (db, Fail 404 "User subscription not found")
  | Some user =>
    let s := hydrated user in
    let s1 := match newEndDate with Some d => set_endDate (Some d) s | None => s end in
    let s2 := set_status active s1 in
    let s3 := match payment with Some p => set_paymentStatus p s2 | None => s2 end in
    let s4 := match notes with
              | Some n => if String.eqb n EmptyString then s3 else set_notes n s3
              | None => s3
              end in
    (saveUser userId (set_subscription (Some s4) user) db, Json 200 s4)
  end.

Definition changePlan (now : Z) (userId : UserId) (pid : PlanId) (notes : option string)
    (db : Db) : Db * Reply Subscription :=
  match findUser db userId with
  | None => (db, Fail 404 "User or subscription not found")
  | Some user =>
    let s := hydrated user in
    match findPlan db pid with
    | None => (db, Fail 404 "Subscription plan not found")
    | Some plan =>
      let startDate := now in
      let endDate := JS.addDays startDate (duration plan) in
      let s' :=
        mkSubscription (Some pid) active (paymentFor plan)
          (Some startDate) (Some endDate)
          (listingsUsed s) (maxListings (features plan))
          (jobPostsUsed s) (maxJobPosts (features plan))
          (browseCount s) (maxBrowsesPerMonth (features plan))
          (lastBrowseReset s)
          (str_or notes ("Plan changed by admin to " ++ displayName plan)) in
      if negb (JS.validTime endDate) then (db, Fail 400 castError)
      else (saveUser userId (set_subscription (Some s') user) db, Json 200 s')
    end
  end.

Definition continueOwnSubscription (userId : option UserId) (newEndDate : option Z)
    (notes : option string) (db : Db) : Db * Reply Subscription :=
  match userId with
  | None => (db, Fail 401 "User ID not found")
  | Some uid =>
    match findUser db uid with
    | None => (db, Fail 404 "User subscription not found")
    | Some user =>
      let s := hydrated user in
      let s1 := set_status active (set_endDate newEndDate s) in
      let s2 := match notes with
                | Some n => if String.eqb n EmptyString then s1 else set_notes n s1
                | None => s1
                end in
      (saveUser uid (set_subscription (Some s2) user) db, Json 200 s2)
    end
  end.

(** ** Subscription change requests (subscriptionController.ts) *)

Definition requestType_of_string (s : string) : option RequestType :=
  if String.eqb s "upgrade" then Some upgrade
  else if String.eqb s "downgrade" then Some downgrade
  else if String.eqb s "renewal" then Some renewal
  else None.

Definition requestType_string (t : RequestType) : string :=
  match t with
  | upgrade => "upgrade"
  | downgrade => "downgrade"
  | renewal => "renewal"
  end.

Definition requestStatus_of_string (s : string) : option RequestStatus :=
  if String.eqb s "pending" then Some req_pending
  else if String.eqb s "approved" then Some req_approved
  else if String.eqb s "rejected" then Some req_rejected
  else None.

Definition is_pending (r : SubscriptionRequest) : bool :=
  match req_status r with req_pending => true | _ => false end.

(** [SubscriptionRequest.findOne({ userId, status: 'pending' })]. *)
Definition findPending (db : Db) (uid : UserId) : option SubscriptionRequest :=
  find (fun r => Nat.eqb (req_userId r) uid && is_pending r) (requests db).

(** A fresh document id. *)
Definition freshRequestId (rs : list SubscriptionRequest) : RequestId :=
  S (list_max (map req_id rs)).

Definition createSubscriptionRequest (userId : option UserId) (requested : PlanId)
    (reqType : string) (notes : option string) (db : Db)
  : Db * Reply SubscriptionRequest :=
  match userId with
  | None => (db, Fail 401 "User ID not found")
  | Some uid =>
    match findUser db uid with
    | None => (db, Fail 404 "User not found")
    | Some user =>
      match findPlan db requested with
      | None => (db, Fail 404 "Requested subscription plan not found")
      | Some _ =>
        match findPending db uid with
        | Some _ => (db, Fail 400 "You already have a pending subscription request")
        | None =>
          let currentPlan := match subscription user with
                             | Some s => planId s
                             | None => None
                             end in
          match requestType_of_string reqType with
          | None => (db, Fail 400 "SubscriptionRequest validation failed")
          | Some t =>
            let request :=
              mkRequest (freshRequestId (requests db)) uid
                (default requested currentPlan) requested t req_pending None notes None in
            (mkDb (plans db) (users db) (requests db ++ [request]), Json 201 request)
          end
        end
      end
    end
  end.

(** [request.save()]: the stored document with that id is replaced. *)
Definition saveRequest (r : SubscriptionRequest) (db : Db) : Db :=
  mkDb (plans db) (users db)
    (map (fun r0 => if Nat.eqb (req_id r0) (req_id r) then r else r0) (requests db)).

Definition findRequest (db : Db) (id : RequestId) : option SubscriptionRequest :=
  find (fun r => Nat.eqb (req_id r) id) (requests db).

Definition updateSubscriptionRequest (now : Z) (id : RequestId) (newStatus : string)
    (notes : option string) (db : Db) : Db * Reply SubscriptionRequest :=
  match findRequest db id with
  | None => (db, Fail 404 "Subscription request not found")
  | Some request =>
    if negb (is_pending request) then (db, Fail 400 "Request has already been processed")
    else
      let applied : option Db :=
        if String.eqb newStatus "approved" then
          match findUser db (req_userId request), findPlan db (requestedPlanId request) with
          | Some user, Some plan =>
            let startDate := now in
            let endDate := JS.addDays startDate (duration plan) in
            let s' :=
              mkSubscription (Some (requestedPlanId request)) active (paymentFor plan)
                (Some startDate) (Some endDate)
                0 (maxListings (features plan))
                0 (maxJobPosts (features plan))
                0 (maxBrowsesPerMonth (features plan))
                (Some startDate)
                ("Plan changed via request: " ++ requestType_string (requestType request)
                 ++ ". " ++ str_or notes EmptyString) in
            if negb (JS.validTime endDate) then None
            else Some (saveUser (req_userId request) (set_subscription (Some s') user) db)
          | _, _ => Some db
          end
        else Some db in
      match applied with
      | None => (db, Fail 400 castError)
      | Some db1 =>
        match requestStatus_of_string newStatus with
        | None => (db1, Fail 400 "SubscriptionRequest validation failed")
        | Some st =>
          let request' :=
            mkRequest (req_id request) (req_userId request) (currentPlanId request)
              (requestedPlanId request) (requestType request) st notes
              (userNotes request) (Some now) in
          (saveRequest request' db1, Json 200 request')
        end
      end
  end.

(** ** Visibility delay *)

(** Body of [checkListingVisibility]; [availableAt] is kept as a time in
    milliseconds (the handler prints it in ISO form).  The handler's
    [listingCreatedAt] is the date the request carries, given here by the
    time [new Date(listingCreatedAt).getTime()] it parses to. *)
Record Visibility := mkVisibility {
  visible : bool;
  delayHours : Z;
  availableAt : Z;
  v_subscription : option Subscription
}.

Definition checkListingVisibility (now : Z) (listingCreatedAt : option Z)
    (userId : option UserId) (db : Db) : Reply Visibility :=
  match listingCreatedAt, userId with
  | Some created, Some uid =>
    match findUser db uid with
    | None => Fail 404 "User not found"
    | Some user =>
      let delayHours := 168 in
      let unsubscribed :=
        let createdTime := created in
        let availableTime := createdTime + delayHours * 60 * 60 * 1000 in
        Json 200 (mkVisibility (availableTime <=? now) delayHours availableTime None) in
      match subscription user with
      | None => unsubscribed
      | Some s =>
        match populatedPlan db s with
        | None => unsubscribed
        | Some plan =>
          if negb (status_eqb (status s) active) then
            Json 200 (mkVisibility false 168 (now + 168 * 60 * 60 * 1000) (Some s))
          else
            let delayHours :=
              if Z.eqb (dataDelayDays (features plan)) 0 then 0
              else dataDelayDays (features plan) * 24 in
            let createdTime := created in
            let availableTime := createdTime + delayHours * 60 * 60 * 1000 in
            Json 200 (mkVisibility (availableTime <=? now) delayHours availableTime (Some s))
        end
      end
    end
  | _, _ => Fail 400 "Missing required fields"
  end.

(** [req.user]: the authenticated user document with its plan populated
    by the [authenticate] middleware. *)
Record ReqUser := mkReqUser {
  ru_id : UserId;
  ru_role : Role;
  ru_plan : option Plan
}.

Definition is_admin (r : Role) : bool :=
  match r with admin => true | _ => false end.

(** [getTeacherDataDelayDate] of the user controller. *)
Definition getTeacherDataDelayDate (now : Z) (user : option ReqUser) : option Z :=
  match user with
  | None => None
  | Some u =>
    if is_admin (ru_role u) then None
    else
      let delayDays := match ru_plan u with
                       | Some plan => teacherDataDelayDays (features plan)
                       | None => 15
                       end in
      if Z.eqb delayDays 0 then None
      else Some (JS.addDays now (- delayDays))
  end.

(** The filter [getUsers] adds to a teacher search: a profile created at
    [createdAt] matches [{ createdAt: { $lte: delayDate } }]. *)
Definition teacherListed (now : Z) (user : option ReqUser) (createdAt : Z) : bool :=
  match getTeacherDataDelayDate now user with
  | Some delayDate => createdAt <=? delayDate
  | None => true
  end.

(** ** Application status validator (jobController.ts) *)

Module Application.

Record Validation := mkValidation {
  valid : bool;
  error : option string
}.

Definition allStatuses : list string :=
  ["pending"; "reviewed"; "shortlisted"; "interview_scheduled"; "accepted"; "rejected"].

(** [list.includes(s)]. *)
Definition includes (l : list string) (s : string) : bool :=
  existsb (String.eqb s) l.

(** The double-quote character of the error text. *)
Definition dquote : string := String "034"%char EmptyString.

(** [list.join(', ')]. *)
Definition join (l : list string) : string := String.concat ", " l.

Definition invalidTransitions : gmap string (list string) :=
  {[ "accepted" := ["pending"; "reviewed"; "shortlisted"; "interview_scheduled"] ]}.

Definition validateStatusTransition (currentStatus newStatus : string) : Validation :=
  if negb (includes allStatuses newStatus) then
    mkValidation false
      (Some ("Invalid status: " ++ newStatus ++ ". Valid statuses: " ++ join allStatuses))
  else if String.eqb currentStatus newStatus then
    mkValidation true None
  else
    match invalidTransitions !! currentStatus with
    | Some blocked =>
      if includes blocked newStatus then
        let allowedFromAccepted :=
          List.filter (fun s => negb (includes (default [] (invalidTransitions !! "accepted")) s)
                           && negb (String.eqb s "accepted")) allStatuses in
        mkValidation false
          (Some ("Cannot change from " ++ dquote ++ currentStatus ++ dquote ++ " to "
                 ++ dquote ++ newStatus ++ dquote
                 ++ ". From accepted status, you can only change to: "
                 ++ join allowedFromAccepted))
      else mkValidation true None
    | None => mkValidation true None
    end.

End Application.

(** ** The job-post gate of [createJob] (jobController.ts)

    The job document itself is not modelled: the handler is followed up to
    the limit gate and the counter update, the payload being taken as one
    the Job schema accepts. *)

Definition createJob (userId : UserId) (db : Db) : Db * Reply unit :=
  match findUser db userId with
  | None => (db, Fail 404 "User not found")
  | Some user =>
    let s := hydrated user in
    let plan := populatedPlan db s in
    let maxJobPosts := match plan with
                       | Some p => maxJobPosts (features p)
                       | None => 0
                       end in
    let used := jobPostsUsed s in
    if negb (is_admin (role user)) && negb (Z.eqb maxJobPosts (-1))
       && (maxJobPosts <=? used)
    then (db, Fail 403 ("You have reached your job post limit (" ++ pretty maxJobPosts
                        ++ "). Please upgrade your plan."))
    else
      let s' := set_jobPostsUsed (JS.or_zero (jobPostsUsed s) + 1) s in
      (saveUser userId (set_subscription (Some s') user) db, Json 201 tt)
  end.

(** ** Sequences of requests *)

(** A request to one of the enforcement endpoints, with the authenticated
    user id and, where the handler reads it, the clock. *)
Inductive Call :=
| CheckBrowse (now : Z) (userId : option UserId)
| IncrementBrowse (now : Z) (userId : option UserId)
| CheckListing (now : Z) (userId : option UserId)
| IncrementListing (userId : option UserId)
| DecrementListing (userId : option UserId)
| CheckJobPost (now : Z) (userId : option UserId)
| IncrementJobPost (userId : option UserId).

Definition run_call (c : Call) (db : Db) : Db :=
  match c with
  | CheckBrowse now uid => fst (checkBrowseLimit now uid db)
  | IncrementBrowse now uid => fst (incrementBrowseCount now uid db)
  | CheckListing now uid => fst (checkListingLimit now uid db)
  | IncrementListing uid => fst (incrementListingCount uid db)
  | DecrementListing uid => fst (decrementListingCount uid db)
  | CheckJobPost now uid => fst (checkJobPostLimit now uid db)
  | IncrementJobPost uid => fst (incrementJobPostCount uid db)
  end.

Definition run_calls (cs : list Call) (db : Db) : Db :=
  fold_left (fun d c => run_call c d) cs db.

(** The stored subscription of a user, if any. *)
Definition subscriptionOf (db : Db) (uid : UserId) : option Subscription :=
  match findUser db uid with
  | Some u => subscription u
  | None => None
  end.

(** All three usage counters of the user's subscription are at least 0. *)
Definition counters_nonneg (db : Db) (uid : UserId) : bool :=
  match subscriptionOf db uid with
  | Some s => (0 <=? listingsUsed s) && (0 <=? jobPostsUsed s) && (0 <=? browseCount s)
  | None => true
  end.

(** The outcome of a limit check: [(allowed, remaining)]. *)
Definition outcome (r : Reply LimitCheck) : option (bool * Z) :=
  match r with
  | Json _ body => Some (allowed body, remaining body)
  | Fail _ _ => None
  end.

(** Requests to the change-request workflow. *)
Inductive WorkflowCall :=
| CreateRequest (userId : option UserId) (requested : PlanId) (reqType : string)
    (notes : option string)
| UpdateRequest (now : Z) (id : RequestId) (newStatus : string) (notes : option string).

Definition run_workflow_call (c : WorkflowCall) (db : Db) : Db :=
  match c with
  | CreateRequest uid p t n => fst (createSubscriptionRequest uid p t n db)
  | UpdateRequest now id st n => fst (updateSubscriptionRequest now id st n db)
  end.

Definition run_workflow (cs : list WorkflowCall) (db : Db) : Db :=
  fold_left (fun d c => run_workflow_call c d) cs db.

(** Number of pending requests of a user. *)
Definition pendingCount (db : Db) (uid : UserId) : nat :=
  length (List.filter (fun r => Nat.eqb (req_userId r) uid && is_pending r) (requests db)).

(** Document ids are unique and no user has two pending requests. *)
Definition one_pending (db : Db) : Prop :=
  NoDup (map req_id (requests db)) /\ forall uid, (pendingCount db uid <= 1)%nat.

(** ** Fixtures: plans of the seed data (scripts/seedAdmin.ts) *)

Module Fixtures.

Definition instituteFree : Plan :=
  mkPlan "institute-free" "Institute Basic (Free)" pt_institute 0 365
    (mkFeatures 0 1 10 10 15 false false false false false) true.

Definition instituteSilver : Plan :=
  mkPlan "institute-silver" "Institute Professional" pt_institute 999 30
    (mkFeatures 5 5 50 5 7 true false false false true) true.

Definition instituteElite : Plan :=
  mkPlan "institute-elite" "Institute Elite" pt_institute 4999 30
    (mkFeatures 100 100 1000 0 0 true true true true true) true.

(** A plan an administrator creates with unlimited job posts; the schema
    puts no [min] on [maxJobPosts]. *)
Definition unlimitedJobs : Plan :=
  mkPlan "institute-unlimited" "Institute Unlimited" pt_institute 9999 30
    (mkFeatures 100 (-1) 1000 0 0 true true true true true) true.

Definition day : Z := JS.msPerDay.

(** A subscription to plan [pid] started at time 0 for 30 days. *)
Definition sub (pid : PlanId) (st : SubStatus) (l j b : Z) : Subscription :=
  mkSubscription (Some pid) st pay_completed (Some 0) (Some (30 * day))
    l 5 j 5 b 50 (Some 0) "seed".

Definition catalog : gmap PlanId Plan :=
  {[ 1%nat := instituteFree; 2%nat := instituteSilver;
     3%nat := instituteElite; 4%nat := unlimitedJobs ]}.

(** User 7 holds [s]; user 8 has no subscription; user 9 is an admin
    without a subscription. *)
Definition dbWith (s : Subscription) : Db :=
  mkDb catalog
    {[ 7%nat := mkUser institute (Some s); 8%nat := mkUser institute None;
       9%nat := mkUser admin None ]}
    [].

Definition pendingRequest : SubscriptionRequest :=
  mkRequest 1%nat 7%nat 1%nat 2%nat upgrade req_pending None None None.

(** User 7 holds [s] and has the pending request. *)
Definition dbRequested (s : Subscription) : Db :=
  mkDb catalog {[ 7%nat := mkUser institute (Some s) ]} [pendingRequest].

Definition dbPending : Db :=
  mkDb catalog {[ 7%nat := mkUser institute (Some (sub 1%nat active 0 0 0)) ]}
    [pendingRequest].

(** User 7 has no stored subscription and has the pending request. *)
Definition dbRequestedNoRecord : Db :=
  mkDb catalog {[ 7%nat := mkUser institute None ]} [pendingRequest].

End Fixtures.

(** ** Vocabulary of the properties *)

(** The rollover of the browse counter. *)
Definition rollover (now : Z) (s : Subscription) : Subscription :=
  set_lastBrowseReset now (set_browseCount 0 s).

(** What one request can do to a stored subscription. *)
Inductive ledger_step : Subscription -> Subscription -> Prop :=
| step_none s : ledger_step s s
| step_expire s : status s = active -> ledger_step s (set_status expired s)
| step_rollover now s : ledger_step s (rollover now s)
| step_inc_listing s :
    status s = active -> ledger_step s (set_listingsUsed (listingsUsed s + 1) s)
| step_dec_listing s :
    0 < listingsUsed s -> ledger_step s (set_listingsUsed (listingsUsed s - 1) s)
| step_inc_jobPost s :
    status s = active -> ledger_step s (set_jobPostsUsed (jobPostsUsed s + 1) s)
| step_inc_browse s :
    status s = active -> ledger_step s (set_browseCount (browseCount s + 1) s)
| step_then s1 s2 s3 : ledger_step s1 s2 -> ledger_step s2 s3 -> ledger_step s1 s3.

Definition nonneg (s : Subscription) : Prop :=
  0 <= listingsUsed s /\ 0 <= jobPostsUsed s /\ 0 <= browseCount s.

Definition statusOf (db : Db) (uid : UserId) : option SubStatus :=
  option_map status (subscriptionOf db uid).

(** A limit check that answers 200 with [allowed: false]. *)
Definition denied (r : Reply LimitCheck) : Prop :=
  exists body, r = Json 200 body /\ allowed body = false.

(** The subscription as [checkAndResetBillingPeriod] leaves it. *)
Definition rolled (now : Z) (s : Subscription) : Subscription :=
  match lastBrowseReset s with
  | Some lastReset =>
    if 30 <=? (now - lastReset) / JS.msPerDay then rollover now s else s
  | None => s
  end.

(** [endDate] has not passed at [now]. *)
Definition unexpired (now : Z) (s : Subscription) : Prop :=
  forall e, endDate s = Some e -> now <= e.

(** The user has no subscription record, or one without a plan reference
    that resolves. *)
Definition unsubscribed (db : Db) (u : User) : Prop :=
  subscription u = None \/
  exists s, subscription u = Some s /\ populatedPlan db s = None.

(** The user has no subscription, or one whose status is not 'active'. *)
Definition inactive_record (u : User) : Prop :=
  subscription u = None \/ exists s, subscription u = Some s /\ status s <> active.

Definition refusal : CounterReply := mkCounterReply false None "No active subscription".

Definition usage (s : Subscription) : Z * Z * Z :=
  (listingsUsed s, jobPostsUsed s, browseCount s).

Definition limits (s : Subscription) : Z * Z * Z :=
  (listingsLimit s, jobPostsLimit s, browseCountLimit s).

Definition planLimits (p : Plan) : Z * Z * Z :=
  (maxListings (features p), maxJobPosts (features p), maxBrowsesPerMonth (features p)).

(** The subscription [s] as a change to plan [pid] at time [now] stamps
    it, usage counters apart. *)
Definition changedTo (plan : Plan) (pid : PlanId) (now : Z) (s : Subscription) : Prop :=
  planId s = Some pid /\ limits s = planLimits plan /\
  startDate s = Some now /\ endDate s = Some (JS.addDays now (duration plan)) /\
  status s = active /\
  paymentStatus s = (if 0 <? price plan then pay_pending else pay_completed).

(** The stored snapshot fields of a user's subscription replaced. *)
Definition withLimits (l j b : Z) (uid : UserId) (u : User) (s : Subscription) (db : Db)
  : Db :=
  saveUser uid (set_subscription (Some (set_limits l j b s)) u) db.

(** The delay in days that the teacher search of the user controller
    applies to a signed-in viewer who is not an admin. *)
Definition teacherDelayDays (u : ReqUser) : Z :=
  match ru_plan u with
  | Some plan => teacherDataDelayDays (features plan)
  | None => 15
  end.

(** ** Further subscription management (subscriptionController.ts) *)

Definition togglePlanStatus (id : PlanId) (db : Db) : Db * Reply Plan :=
  match findPlan db id with
  | None => (db, Fail 404 "Subscription plan not found")
  | Some pl =>
    let pl' := mkPlan (name pl) (displayName pl) (planType pl) (price pl) (duration pl)
                 (features pl) (negb (isActive pl)) in
    (mkDb (<[id := pl']> (plans db)) (users db) (requests db), Json 200 pl')
  end.

Definition resetBrowseCount (now : Z) (userId : UserId) (db : Db)
  : Db * Reply Subscription :=
  match findUser db userId with
  | None => (db, Fail 404 "User subscription not found")
  | Some user =>
    let s := hydrated user in
    let s' := set_lastBrowseReset now (set_browseCount 0 s) in
    (saveUser userId (set_subscription (Some s') user) db, Json 200 s')
  end.

Definition suspendSubscription (userId : UserId) (reason : option string) (db : Db)
  : Db * Reply Subscription :=
  match findUser db userId with
  | None => (db, Fail 404 "User subscription not found")
  | Some user =>
    let s := hydrated user in
    let s' := set_notes (str_or reason (notes s)) (set_status suspended s) in
    (saveUser userId (set_subscription (Some s') user) db, Json 200 s')
  end.

(** [now > endDate] on the stored [endDate]; [new Date(undefined)] is an
    invalid date, with which every comparison is false. *)
Definition pastEnd (now : Z) (s : Subscription) : bool :=
  match endDate s with
  | Some e => e <? now
  | None => false
  end.

Definition reactivateSubscription (now : Z) (userId : UserId) (db : Db)
  : Db * Reply Subscription :=
  match findUser db userId with
  | None => (db, Fail 404 "User subscription not found")
  | Some user =>
    let s := hydrated user in
    if pastEnd now s then
      (db, Fail 400
             "Cannot reactivate expired subscription. Please extend the subscription first.")
    else
      let s' := set_status active s in
      (saveUser userId (set_subscription (Some s') user) db, Json 200 s')
  end.

Definition cancelSubscription (userId : UserId) (db : Db) : Db * Reply string :=
  match findUser db userId with
  | None => (db, Fail 404 "User subscription not found")
  | Some user =>
    (saveUser userId (set_subscription None user) db,
     Json 200 "Subscription cancelled successfully")
  end.

(** Body of [checkNotificationPermission]. *)
Record NotificationPermission := mkNotificationPermission {
  np_allowed : bool;
  np_subscription : option Subscription
}.

Definition checkNotificationPermission (userId : option UserId) (db : Db)
  : Reply NotificationPermission :=
  match userId with
  | None => Fail 401 "User ID not found"
  | Some uid =>
    match findUser db uid with
    | None => Fail 404 "User not found"
    | Some user =>
      let s := hydrated user in
      if negb (status_eqb (status s) active) then
        Json 200 (mkNotificationPermission false (Some s))
      else
        let notificationsEnabled :=
          match populatedPlan db s with
          | Some plan =>
            instantVehicleAlerts (features plan) || instantJobAlerts (features plan)
          | None => false
          end in
        Json 200 (mkNotificationPermission notificationsEnabled (Some s))
    end
  end.

(** *** Lazy assignment of the free plan ([getUserSubscription]) *)

Definition planType_eqb (a b : PlanType) : bool :=
  match a, b with
  | pt_teacher, pt_teacher | pt_institute, pt_institute | pt_vendor, pt_vendor => true
  | _, _ => false
  end.

Definition role_string (r : Role) : string :=
  match r with
  | guest => "guest"
  | institute => "institute"
  | admin => "admin"
  | teacher => "teacher"
  end.

(** The plan type looked for: 'teacher' for a teacher, 'vendor' for the
    role strings 'supplier' and 'vendor', 'institute' otherwise. *)
Definition planTypeFor (r : Role) : PlanType :=
  let roleStr := role_string r in
  if String.eqb roleStr "teacher" then pt_teacher
  else if String.eqb roleStr "supplier" || String.eqb roleStr "vendor" then pt_vendor
  else pt_institute.

(** [SubscriptionPlan.findOne({ planType, price: 0, isActive: true })]: a
    plan that matches, taken in the order the map lists its documents (the
    query has no sort, so which of several matching plans comes back is
    left to the store). *)
Definition findFreePlan (db : Db) (pt : PlanType) : option (PlanId * Plan) :=
  find (fun ip => planType_eqb (planType (snd ip)) pt
                  && Z.eqb (price (snd ip)) 0 && isActive (snd ip))
       (map_to_list (plans db)).

(** Body of [getUserSubscription]: the subscription's fields with the
    plan's display name. *)
Record SubscriptionView := mkSubscriptionView {
  sv_subscription : Subscription;
  planName : string
}.

Definition planNameOf (plan : option Plan) : string :=
  match plan with
  | Some p =>
    if String.eqb (displayName p) EmptyString then
      (if String.eqb (name p) EmptyString then "Unknown Plan" else name p)
    else displayName p
  | None => "Unknown Plan"
  end.

(** The reply [res.json(null)] of the handler stands under
    [!user.subscription], which selects nothing: every user found is
    answered with a view of the subscription the handler reads. *)
Definition getUserSubscription (now : Z) (userId : UserId) (db : Db)
  : Db * Reply SubscriptionView :=
  match findUser db userId with
  | None => (db, Fail 404 "User not found")
  | Some user0 =>
    let unassigned :=
      match populatedPlan db (hydrated user0) with None => true | Some _ => false end in
    let assigned : option (User * Db) :=
      if unassigned then
        match findFreePlan db (planTypeFor (role user0)) with
        | Some (pid, freePlan) =>
          let startDate := now in
          let endDate := JS.addDays now (duration freePlan) in
          let s := mkSubscription (Some pid) active pay_completed
                     (Some startDate) (Some endDate)
                     0 (maxListings (features freePlan))
                     0 (maxJobPosts (features freePlan))
                     0 (maxBrowsesPerMonth (features freePlan))
                     (Some startDate) "Free plan assigned automatically" in
          let user' := set_subscription (Some s) user0 in
          if negb (JS.validTime endDate) then None
          else Some (user', saveUser userId user' db)
        | None => Some (user0, db)
        end
      else Some (user0, db) in
    match assigned with
    | None => (db, Fail 500 castError)
    | Some (user, db1) =>
      let s := hydrated user in
      (db1, Json 200 (mkSubscriptionView s (planNameOf (populatedPlan db1 s))))
    end
  end.

(** ** Persona access checks (middleware/personaAccessControl.ts) *)

Module Persona.

Record AccessResult := mkAccessResult {
  allowed : bool;
  reason : option string;
  limitReached : option bool;
  remaining : option Z;
  requiresUpgrade : option bool;
  suggestedAction : option string
}.

(** [plan?.features?.maxVehicleListings], [maxProductListings],
    [maxJobApplications] and [canAccessJobBoard]: the plan schema has no
    such fields, so a stored plan never carries them and the expression
    is undefined. *)
Definition absentLimit : option Z := None.
Definition absentFlag : option bool := None.

Definition noActiveSubscription (action : string) : AccessResult :=
  mkAccessResult false (Some "No active subscription") None None (Some true) (Some action).

Definition checkVehicleListingAccess (userId : UserId) (db : Db) : AccessResult :=
  match findUser db userId with
  | None => mkAccessResult false (Some "User not found") None None None None
  | Some user =>
    if negb (String.eqb (role_string (role user)) "institute") then
      mkAccessResult false (Some "Only institutes can create vehicle listings") None None None
        (Some "Switch to an institute account to list vehicles")
    else
      match subscription user with
      | None => noActiveSubscription "Subscribe to a plan to create vehicle listings"
      | Some s =>
        if negb (status_eqb (status s) active) then
          noActiveSubscription "Subscribe to a plan to create vehicle listings"
        else
          let maxListings := num_or absentLimit (JS.or_zero (listingsLimit s)) in
          let usedListings := JS.or_zero (listingsUsed s) in
          let remaining := JS.max0 (maxListings - usedListings) in
          if remaining <=? 0 then
            mkAccessResult false (Some "Vehicle listing limit reached") (Some true) (Some 0)
              (Some true) (Some "Upgrade your plan to create more vehicle listings")
          else mkAccessResult true None None (Some remaining) None None
      end
  end.

Definition checkJobPostAccess (userId : UserId) (db : Db) : AccessResult :=
  match findUser db userId with
  | None => mkAccessResult false (Some "User not found") None None None None
  | Some user =>
    if negb (String.eqb (role_string (role user)) "institute") then
      mkAccessResult false (Some "Only institutes can create job posts") None None None
        (Some "Switch to an institute account to post jobs")
    else
      match subscription user with
      | None => noActiveSubscription "Subscribe to a plan to post jobs"
      | Some s =>
        if negb (status_eqb (status s) active) then
          noActiveSubscription "Subscribe to a plan to post jobs"
        else
          let maxJobPosts :=
            num_or (option_map (fun p => maxJobPosts (features p)) (populatedPlan db s))
                   (JS.or_zero (jobPostsLimit s)) in
          let usedJobPosts := JS.or_zero (jobPostsUsed s) in
          let remaining := JS.max0 (maxJobPosts - usedJobPosts) in
          if remaining <=? 0 then
            mkAccessResult false (Some "Job post limit reached") (Some true) (Some 0)
              (Some true) (Some "Upgrade your plan to post more jobs")
          else mkAccessResult true None None (Some remaining) None None
      end
  end.

Definition checkJobApplicationAccess (userId : UserId) (db : Db) : AccessResult :=
  match findUser db userId with
  | None => mkAccessResult false (Some "User not found") None None None None
  | Some user =>
    if negb (String.eqb (role_string (role user)) "teacher") then
      mkAccessResult false (Some "Only teachers can apply to jobs") None None None
        (Some "Switch to a teacher account to apply for jobs")
    else
      match subscription user with
      | None => noActiveSubscription "Subscribe to a plan to apply for jobs"
      | Some s =>
        if negb (status_eqb (status s) active) then
          noActiveSubscription "Subscribe to a plan to apply for jobs"
        else
          let maxApplications := num_or absentLimit 5 in
          let canAccessJobBoard :=
            match absentFlag with Some false => false | _ => true end in
          if negb canAccessJobBoard then
            mkAccessResult false (Some "Your plan does not include job board access") None None
              (Some true) (Some "Upgrade your plan to access the job board")
          else mkAccessResult true None None (Some maxApplications) None None
      end
  end.

Definition checkProductListingAccess (userId : UserId) (db : Db) : AccessResult :=
  match findUser db userId with
  | None => mkAccessResult false (Some "User not found") None None None None
  | Some user =>
    if negb (String.eqb (role_string (role user)) "vendor") then
      mkAccessResult false (Some "Only vendors can create product listings") None None None
        (Some "Switch to a vendor account to list products")
    else
      match subscription user with
      | None => noActiveSubscription "Subscribe to a plan to create product listings"
      | Some s =>
        if negb (status_eqb (status s) active) then
          noActiveSubscription "Subscribe to a plan to create product listings"
        else
          let maxListings := num_or absentLimit (JS.or_zero (listingsLimit s)) in
          let usedListings := JS.or_zero (listingsUsed s) in
          let remaining := JS.max0 (maxListings - usedListings) in
          if remaining <=? 0 then
            mkAccessResult false (Some "Product listing limit reached") (Some true) (Some 0)
              (Some true) (Some "Upgrade your plan to create more product listings")
          else mkAccessResult true None None (Some remaining) None None
      end
  end.

(** The [require...Access] middlewares: [None] when the request goes on to
    the handler ([next()]), the 401 or 403 reply otherwise. *)
Definition requireAccess (check : UserId -> Db -> AccessResult)
    (userId : option UserId) (db : Db) : option (Reply AccessResult) :=
  match userId with
  | None => Some (Fail 401 "Authentication required")
  | Some uid =>
    let accessResult := check uid db in
    if negb (allowed accessResult) then Some (Json 403 accessResult) else None
  end.

Definition requireVehicleListingAccess := requireAccess checkVehicleListingAccess.
Definition requireJobPostAccess := requireAccess checkJobPostAccess.
Definition requireJobApplicationAccess := requireAccess checkJobApplicationAccess.
Definition requireProductListingAccess := requireAccess checkProductListingAccess.

End Persona.

(** ** The listing gate of [createVehicle] (vehicleController.ts)

    As for [createJob], the vehicle document is not modelled; [req.user]
    is the stored user document the [authenticate] middleware loaded. *)

Definition createVehicle (userId : option UserId) (db : Db) : Db * Reply unit :=
  match userId with
  | None => (db, Fail 401 "Authentication required")
  | Some uid =>
    match findUser db uid with
    | None => (db, Fail 401 "Authentication required")
    | Some user =>
      let s := hydrated user in
      let plan := populatedPlan db s in
      let restricted :=
        match plan with
        | Some p => negb (canAdvertiseVehicles (features p))
        | None => false
        end in
      let maxListings := match plan with
                         | Some p => maxListings (features p)
                         | None => 0
                         end in
      let used := listingsUsed s in
      if negb (is_admin (role user)) && restricted then
        (db, Fail 403 ("Your current plan does not allow advertising vehicles. "
                       ++ "Please upgrade to a Professional or higher plan."))
      else if negb (is_admin (role user)) && negb (Z.eqb maxListings (-1))
              && (maxListings <=? used) then
        (db, Fail 403 ("You have reached your listing limit (" ++ pretty maxListings
                       ++ "). Please upgrade your plan."))
      else
        let s' := set_listingsUsed (JS.or_zero (listingsUsed s) + 1) s in
        (saveUser uid (set_subscription (Some s') user) db, Json 201 tt)
    end
  end.

(** ** The teacher-profile gate of [getUserById] (user controller)

    [true] when the profile of a user with role [target], created at
    [createdAt], is served; [false] when the handler answers 403
    SUBSCRIPTION_REQUIRED. *)
Definition teacherProfileServed (now : Z) (user : option ReqUser) (target : Role)
    (createdAt : Z) : bool :=
  let gated :=
    String.eqb (role_string target) "teacher"
    && match user with
       | None => true
       | Some u => negb (is_admin (ru_role u))
       end in
  if gated then
    match getTeacherDataDelayDate now user with
    | Some delayDate => negb (delayDate <? createdAt)
    | None => true
    end
  else true.

(** ** Application status updates (jobController.ts, models/Application.ts) *)

Module Applications.

Definition ApplicationId := nat.

(** The interview details a request carries; [mode] is checked against
    the schema's enum when the document that received them is saved. *)
Record InterviewDetails := mkInterviewDetails {
  scheduledDate : option string;
  scheduledTime : option string;
  interviewDuration : option string;
  mode : option string;
  interviewLocation : option string;
  meetingLink : option string;
  interviewNotes : option string
}.

Record Interview := mkInterview {
  details : InterviewDetails;
  scheduledAt : Z
}.

Record HistoryEntry := mkHistoryEntry {
  h_status : string;
  changedAt : Z;
  changedBy : UserId
}.

(** The fields of an application the status handlers read or write. *)
Record Application := mkApplication {
  teacherId : UserId;
  app_instituteId : UserId;
  instituteName : string;
  app_status : string;
  reviewedAt : option Z;
  shortlistedAt : option Z;
  interviewScheduled : option Interview;
  rejectedAt : option Z;
  acceptedAt : option Z;
  statusHistory : list HistoryEntry
}.

Record Notification := mkNotification {
  n_userId : UserId;
  n_type : string;
  n_title : string;
  n_message : string
}.

(** A failed request, with its status code and error code. *)
Inductive Outcome :=
| Updated (app : Application) (sent : list Notification)
| Refused (code : nat) (errorCode : string).

Definition set_app_status (st : string) (a : Application) : Application :=
  mkApplication (teacherId a) (app_instituteId a) (instituteName a) st
    (reviewedAt a) (shortlistedAt a) (interviewScheduled a) (rejectedAt a) (acceptedAt a)
    (statusHistory a).

Definition set_interview (i : option Interview) (a : Application) : Application :=
  mkApplication (teacherId a) (app_instituteId a) (instituteName a) (app_status a)
    (reviewedAt a) (shortlistedAt a) i (rejectedAt a) (acceptedAt a) (statusHistory a).

Definition push_history (e : HistoryEntry) (a : Application) : Application :=
  mkApplication (teacherId a) (app_instituteId a) (instituteName a) (app_status a)
    (reviewedAt a) (shortlistedAt a) (interviewScheduled a) (rejectedAt a) (acceptedAt a)
    (statusHistory a ++ [e]).

(** The [switch (status)] that stamps the change. *)
Definition stamp (now : Z) (st : string) (a : Application) : Application :=
  if String.eqb st "reviewed" then
    mkApplication (teacherId a) (app_instituteId a) (instituteName a) (app_status a)
      (Some now) (shortlistedAt a) (interviewScheduled a) (rejectedAt a) (acceptedAt a)
      (statusHistory a)
  else if String.eqb st "shortlisted" then
    mkApplication (teacherId a) (app_instituteId a) (instituteName a) (app_status a)
      (reviewedAt a) (Some now) (interviewScheduled a) (rejectedAt a) (acceptedAt a)
      (statusHistory a)
  else if String.eqb st "rejected" then
    mkApplication (teacherId a) (app_instituteId a) (instituteName a) (app_status a)
      (reviewedAt a) (shortlistedAt a) None (Some now) (acceptedAt a)
      (statusHistory a)
  else if String.eqb st "accepted" then
    mkApplication (teacherId a) (app_instituteId a) (instituteName a) (app_status a)
      (reviewedAt a) (shortlistedAt a) (interviewScheduled a) (rejectedAt a) (Some now)
      (statusHistory a)
  else a.

(** The enum validator of [interviewScheduled.mode]. *)
Definition validMode (m : option string) : bool :=
  match m with
  | Some x => Application.includes ["video"; "phone"; "in-person"] x
  | None => true
  end.

Definition truthy (s : option string) : option string :=
  match s with
  | Some x => if String.eqb x EmptyString then None else Some x
  | None => None
  end.

(** The notification sent to the teacher for the requested status. *)
Definition statusNotification (a : Application) (st : string) : list Notification :=
  let message :=
    if String.eqb st "reviewed" then
      "Your application for " ++ instituteName a ++ " has been reviewed"
    else if String.eqb st "shortlisted" then
      "You have been shortlisted for " ++ instituteName a
    else if String.eqb st "accepted" then
      "Congratulations! Your application has been accepted by " ++ instituteName a
    else if String.eqb st "rejected" then
      "Your application for " ++ instituteName a ++ " was not successful"
    else EmptyString in
  if String.eqb message EmptyString then []
  else [mkNotification (teacherId a)
          (if String.eqb st "accepted" then "success"
           else if String.eqb st "rejected" then "error" else "info")
          "Application Status Update" message].

(** [updateApplicationStatus] on the application found by id; [apps] is
    the Application collection, [db] gives the teacher lookup made before
    the status notification. *)
Definition updateApplicationStatus (now : Z) (userId : UserId) (userRole : Role)
    (applicationId : ApplicationId) (status : option string)
    (interview : option InterviewDetails) (db : Db)
    (apps : gmap ApplicationId Application)
  : gmap ApplicationId Application * Outcome :=
  match apps !! applicationId with
  | None => (apps, Refused 404 "APPLICATION_NOT_FOUND")
  | Some application =>
    if negb (is_admin userRole) && negb (Nat.eqb (app_instituteId application) userId) then
      (apps, Refused 403 "UNAUTHORIZED")
    else
      let changed :=
        match truthy status with
        | Some st =>
          if negb (String.eqb st (app_status application)) then
            let validation := Application.validateStatusTransition (app_status application) st in
            if negb (Application.valid validation) then None
            else Some (push_history (mkHistoryEntry st now userId)
                         (stamp now st (set_app_status st application)))
          else Some application
        | None => Some application
        end in
      match changed with
      | None => (apps, Refused 400 "INVALID_STATUS_TRANSITION")
      | Some a1 =>
        let scheduled :=
          match interview with
          | Some d =>
            if Application.includes ["rejected"; "accepted"] (app_status a1) then None
            else
              let a2 := set_interview (Some (mkInterview d now)) a1 in
              if negb (String.eqb (app_status a2) "interview_scheduled") then
                Some (push_history (mkHistoryEntry "interview_scheduled" now userId)
                        (set_app_status "interview_scheduled" a2))
              else Some a2
          | None => Some a1
          end in
        match scheduled with
        | None => (apps, Refused 400 "INVALID_STATE_FOR_INTERVIEW")
        | Some a3 =>
          if negb (match interview with
                   | Some d => validMode (mode d)
                   | None => true
                   end) then
            (apps, Refused 500 "UPDATE_APPLICATION_FAILED")
          else
            let statusNote :=
              match truthy status with
              | Some st =>
                match findUser db (teacherId a3) with
                | Some _ => statusNotification a3 st
                | None => []
                end
              | None => []
              end in
            let interviewNote :=
              match interview with
              | Some _ =>
                [mkNotification (teacherId a3) "info" "Interview Scheduled"
                   ("Interview scheduled for " ++ instituteName a3)]
              | None => []
              end in
            (<[applicationId := a3]> apps, Updated a3 (statusNote ++ interviewNote))
        end
      end
  end.

(** [interviewScheduled] is a nested path of the application schema, so
    the handler always reads an object there: the second test of the
    guard, [!application.interviewScheduled], selects nothing, and the
    guard is the test of the status. *)
Definition rescheduleInterview (now : Z) (userId : UserId) (userRole : Role)
    (applicationId : ApplicationId) (interview : option InterviewDetails)
    (apps : gmap ApplicationId Application)
  : gmap ApplicationId Application * Outcome :=
  match interview with
  | None => (apps, Refused 400 "INTERVIEW_DETAILS_REQUIRED")
  | Some d =>
    match apps !! applicationId with
    | None => (apps, Refused 404 "APPLICATION_NOT_FOUND")
    | Some application =>
      if negb (is_admin userRole) && negb (Nat.eqb (app_instituteId application) userId) then
        (apps, Refused 403 "UNAUTHORIZED")
      else if negb (String.eqb (app_status application) "interview_scheduled")
      then (apps, Refused 400 "INTERVIEW_NOT_SCHEDULED")
      else
        let a1 := push_history (mkHistoryEntry "interview_rescheduled" now userId)
                    (set_interview (Some (mkInterview d now)) application) in
        if negb (validMode (mode d)) then (apps, Refused 500 "RESCHEDULE_INTERVIEW_FAILED")
        else
          (<[applicationId := a1]> apps,
           Updated a1 [mkNotification (teacherId a1) "warning" "Interview Rescheduled"
                         ("Your interview with " ++ instituteName a1
                          ++ " has been rescheduled")])
    end
  end.

(** Requests to the two handlers. *)
Inductive Request :=
| UpdateStatus (now : Z) (userId : UserId) (userRole : Role) (id : ApplicationId)
    (status : option string) (interview : option InterviewDetails)
| Reschedule (now : Z) (userId : UserId) (userRole : Role) (id : ApplicationId)
    (interview : option InterviewDetails).

Definition run_request (db : Db) (r : Request) (apps : gmap ApplicationId Application)
  : gmap ApplicationId Application :=
  match r with
  | UpdateStatus now u role id st i => fst (updateApplicationStatus now u role id st i db apps)
  | Reschedule now u role id i => fst (rescheduleInterview now u role id i apps)
  end.

Definition run_requests (db : Db) (rs : list Request)
    (apps : gmap ApplicationId Application) : gmap ApplicationId Application :=
  fold_left (fun a r => run_request db r a) rs apps.

End Applications.

(** ** Usage statistics ([getUsageStats], subscriptionController.ts) *)

Module Stats.

(** [(used / limit) * 100], kept as the two integers it is computed
    from; [PctZero] is the literal 0 of a limit that is not positive. *)
Inductive Percentage :=
| PctZero
| PctOf (used limit : Z).

Record Usage := mkUsage {
  used : Z;
  allowed : Z;
  remaining : Z;
  percentage : Percentage
}.

Record UsageStats := mkUsageStats {
  planName : string;
  statusName : string;
  paymentName : string;
  daysRemaining : Z;
  u_browseCount : Usage;
  u_listingCount : Usage;
  u_jobPostsCount : Usage;
  u_startDate : option Z;
  u_endDate : option Z;
  u_lastBrowseReset : option Z;
  isExpired : bool;
  isExpiringSoon : bool
}.

Definition payment_string (p : PaymentStatus) : string :=
  match p with
  | pay_pending => "pending"
  | pay_completed => "completed"
  | pay_failed => "failed"
  end.

(** [Math.ceil(a / b)] for integers [a] and a positive [b], the quotient
    being far from the precision of a double. *)
Definition ceilDiv (a b : Z) : Z := - ((- a) / b).

(** [a || b || 0] on a stored number and an optional one. *)
Definition limitOf (snapshot : Z) (planLimit : option Z) : Z :=
  if Z.eqb snapshot 0 then num_or planLimit 0 else snapshot.

Definition usageOf (count limit : Z) : Usage :=
  mkUsage (JS.or_zero count) limit (JS.max0 (limit - JS.or_zero count))
    (if 0 <? limit then PctOf count limit else PctZero).

(** The reply for a user without subscription ('None', [isExpired:
    true]) stands under [!user.subscription], which selects nothing;
    the statistics are computed from the subscription the handler
    reads. *)
Definition getUsageStats (now : Z) (userId : UserId) (db : Db) : Reply UsageStats :=
  match findUser db userId with
  | None => Fail 404 "User not found"
  | Some user =>
    let s := hydrated user in
    let endD := default now (endDate s) in
    let daysRemaining := JS.max0 (ceilDiv (endD - now) JS.msPerDay) in
    let plan := populatedPlan db s in
    let listingsLimit :=
      limitOf (listingsLimit s) (option_map (fun p => maxListings (features p)) plan) in
    let browseCountLimit :=
      limitOf (browseCountLimit s)
        (option_map (fun p => maxBrowsesPerMonth (features p)) plan) in
    let jobPostsLimit :=
      limitOf (jobPostsLimit s) (option_map (fun p => maxJobPosts (features p)) plan) in
    Json 200
      (mkUsageStats
         (match plan with
          | Some p =>
            if String.eqb (displayName p) EmptyString then
              (if String.eqb (name p) EmptyString then "Unknown" else name p)
            else displayName p
          | None => "Unknown"
          end)
         (status_string (status s)) (payment_string (paymentStatus s))
         daysRemaining
         (usageOf (browseCount s) browseCountLimit)
         (usageOf (listingsUsed s) listingsLimit)
         (usageOf (jobPostsUsed s) jobPostsLimit)
         (startDate s) (endDate s) (lastBrowseReset s)
         (endD <? now)
         ((daysRemaining <=? 7) && (0 <? daysRemaining)))
  end.

End Stats.

(** ** Vocabulary of the further properties *)

(** The outcomes of the listing, job-post and browse checks. *)
Definition outcomes (now : Z) (uid : UserId) (db : Db)
  : option (bool * Z) * option (bool * Z) * option (bool * Z) :=
  (outcome (snd (checkListingLimit now (Some uid) db)),
   outcome (snd (checkJobPostLimit now (Some uid) db)),
   outcome (snd (checkBrowseLimit now (Some uid) db))).

(** The outcomes computed from a stored record and a plan. *)
Definition metered (now : Z) (plan : Plan) (s : Subscription)
  : option (bool * Z) * option (bool * Z) * option (bool * Z) :=
  let rl := JS.max0 (maxListings (features plan) - listingsUsed s) in
  let rj := JS.max0 (maxJobPosts (features plan) - jobPostsUsed s) in
  let rb := JS.max0 (maxBrowsesPerMonth (features plan) - browseCount (rolled now s)) in
  (Some (0 <? rl, rl), Some (0 <? rj, rj), Some (0 <? rb, rb)).

(** The subscription the lazy assignment of [getUserSubscription] and the
    signup grant: free plan [pid], fresh counters. *)
Definition freeSubscription (now : Z) (pid : PlanId) (plan : Plan) : Subscription :=
  mkSubscription (Some pid) active pay_completed (Some now)
    (Some (JS.addDays now (duration plan)))
    0 (maxListings (features plan)) 0 (maxJobPosts (features plan))
    0 (maxBrowsesPerMonth (features plan)) (Some now) "Free plan assigned automatically".

(** The outcomes of the three checks on a plan with nothing used. *)
Definition fullQuota (plan : Plan) : option (bool * Z) * option (bool * Z) * option (bool * Z) :=
  let l := JS.max0 (maxListings (features plan)) in
  let j := JS.max0 (maxJobPosts (features plan)) in
  let b := JS.max0 (maxBrowsesPerMonth (features plan)) in
  (Some (0 <? l, l), Some (0 <? j, j), Some (0 <? b, b)).

(** ** Vocabulary of the application properties *)

(** The stored status is one of the six the schema admits. *)
Definition knownStatus (a : Applications.Application) : bool :=
  Application.includes Application.allStatuses (Applications.app_status a).

(** The caller passes the authorisation test of the two handlers: an
    admin, or the institute the application was sent to. *)
Definition authorised (userId : UserId) (userRole : Role)
    (a : Applications.Application) : bool :=
  is_admin userRole || Nat.eqb (Applications.app_instituteId a) userId.

(** What requests may do to a stored application: the parties stay the
    same, the history is only extended, and a status among the six stays
    among the six. *)
Definition evolves (a a' : Applications.Application) : Prop :=
  Applications.teacherId a' = Applications.teacherId a /\
  Applications.app_instituteId a' = Applications.app_instituteId a /\
  Applications.instituteName a' = Applications.instituteName a /\
  (exists more, Applications.statusHistory a' = (Applications.statusHistory a ++ more)%list) /\
  (knownStatus a = true -> knownStatus a' = true).

(** The entries a request of [userId] at [now] may add to a history. *)
Definition entryOf (now : Z) (userId : UserId) (e : Applications.HistoryEntry) : Prop :=
  Applications.changedAt e = now /\ Applications.changedBy e = userId.

(** What one call of a status handler may do to the collection: a
    refusal leaves it as it was; an update is made by an authorised
    caller, rewrites the one application addressed, and notifies nobody
    but its teacher. *)
Definition lawful (userId : UserId) (userRole : Role) (id : Applications.ApplicationId)
    (apps : gmap Applications.ApplicationId Applications.Application)
    (res : gmap Applications.ApplicationId Applications.Application * Applications.Outcome)
  : Prop :=
  match snd res with
  | Applications.Refused _ _ => fst res = apps
  | Applications.Updated a' sent =>
    exists a, apps !! id = Some a /\ authorised userId userRole a = true /\
      fst res = <[id := a']> apps /\
      Forall (fun n => Applications.n_userId n = Applications.teacherId a) sent
  end.

(** Sample applications of teacher 5 to institute 8. *)
Definition applicationIn (st : string) : Applications.Application :=
  Applications.mkApplication 5%nat 8%nat "Hill School" st None None None None None [].

Definition videoCall : Applications.InterviewDetails :=
  Applications.mkInterviewDetails (Some "2026-01-10") (Some "10:00") (Some "30 min")
    (Some "video") None None None.

(** Teacher 5, institute 8 and admin 9, none of them subscribed. *)
Definition staffDb : Db :=
  mkDb Fixtures.catalog
    {[ 5%nat := mkUser teacher None; 8%nat := mkUser institute None;
       9%nat := mkUser admin None ]}
    [].

(** A collection holding one application, under id 1. *)
Definition applicationsWith (st : string)
  : gmap Applications.ApplicationId Applications.Application :=
  {[ 1%nat := applicationIn st ]}.

(** An approval of request [r] at [now] can stamp its end date: [now]
    plus the duration of the requested plan is a valid [Date]. *)
Definition approvable (now : Z) (db : Db) (r : SubscriptionRequest) : Prop :=
  forall plan, findPlan db (requestedPlanId r) = Some plan ->
    JS.validTime (JS.addDays now (duration plan)) = true.

(** * Properties *)

(** ** Basic facts *)

Lemma hydrated_Some u s : subscription u = Some s -> hydrated u = s.
Proof. intros H. unfold hydrated. rewrite H. reflexivity. Qed.

Lemma or_zero_id x : JS.or_zero x = x.
Proof. unfold JS.or_zero. destruct (Z.eqb_spec x 0); congruence. Qed.

Lemma status_eqb_spec a b : reflect (a = b) (status_eqb a b).
Proof. destruct a, b; constructor; congruence. Qed.

Lemma status_not_active s : negb (status_eqb s active) = true <-> s <> active.
Proof. destruct s; simpl; split; intros; congruence. Qed.

Lemma findUser_saveUser id u db uid :
  findUser (saveUser id u db) uid = if decide (id = uid) then Some u else findUser db uid.
Proof. unfold findUser, saveUser. simpl. apply lookup_insert. Qed.

Lemma findUser_saveUser_eq id u db : findUser (saveUser id u db) id = Some u.
Proof. rewrite findUser_saveUser. case_decide; congruence. Qed.

Lemma findUser_saveUser_ne id u db uid :
  id <> uid -> findUser (saveUser id u db) uid = findUser db uid.
Proof. intros. rewrite findUser_saveUser. case_decide; congruence. Qed.

Lemma populatedPlan_saveUser id u db s :
  populatedPlan (saveUser id u db) s = populatedPlan db s.
Proof. reflexivity. Qed.

(** ** Application status transitions *)

Module ApplicationFacts.
Import Application.

Lemma includes_In l s : includes l s = true <-> In s l.
Proof.
  unfold includes. rewrite existsb_exists. split.
  - intros [x [Hin Heq]]. apply String.eqb_eq in Heq. congruence.
  - intros Hin. exists s. split; [assumption | apply String.eqb_refl].
Qed.

Lemma includes_not_In l s : includes l s = false <-> ~ In s l.
Proof.
  rewrite <- includes_In. destruct (includes l s); split; intros; congruence.
Qed.

Ltac each_status H :=
  repeat (destruct H as [H | H]; [symmetry in H; subst |]); try contradiction.

(** C10. For a stored status [currentStatus] (one of the six the schema
    admits), [validateStatusTransition] accepts [newStatus] exactly when
    [newStatus] is one of the six statuses and either it equals the
    current one, or the current one is not "accepted", or the target is
    "rejected".  So a target outside the six is always refused, staying in
    the same status is always valid, and the only move out of "accepted"
    is to "rejected". *)
Theorem validateStatusTransition_policy (currentStatus newStatus : string) :
  In currentStatus allStatuses ->
  valid (validateStatusTransition currentStatus newStatus) = true <->
  In newStatus allStatuses /\
  (currentStatus = newStatus \/ currentStatus <> "accepted" \/ newStatus = "rejected").
Proof.
  intros Hcur.
  destruct (includes allStatuses newStatus) eqn:Hnew.
  - apply includes_In in Hnew. unfold allStatuses in Hcur, Hnew. simpl in Hcur, Hnew.
    each_status Hcur; each_status Hnew;
      (split;
       [ intros Hv; split;
         [ unfold allStatuses; simpl; tauto
         | first [ left; reflexivity
                 | right; left; discriminate
                 | right; right; reflexivity
                 | vm_compute in Hv; discriminate Hv ] ]
       | intros [_ [Heq | [Hne | Heq]]];
         first [ reflexivity | discriminate Heq | exfalso; apply Hne; reflexivity ] ]).
  - unfold validateStatusTransition. rewrite Hnew. simpl.
    apply includes_not_In in Hnew.
    split; [discriminate | intros [Hin _]; exfalso; apply Hnew; exact Hin].
Qed.

Lemma validateStatusTransition_policy_witness :
  valid (validateStatusTransition "accepted" "rejected") = true /\
  valid (validateStatusTransition "accepted" "pending") = false /\
  valid (validateStatusTransition "pending" "accepted") = true /\
  valid (validateStatusTransition "reviewed" "reviewed") = true /\
  valid (validateStatusTransition "pending" "archived") = false.
Proof.
  assert (Hacc : In "accepted" allStatuses) by (simpl; tauto).
  assert (Hpen : In "pending" allStatuses) by (simpl; tauto).
  assert (Hrev : In "reviewed" allStatuses) by (simpl; tauto).
  split; [| split; [| split; [| split]]].
  - apply (validateStatusTransition_policy "accepted" "rejected" Hacc).
    split; [simpl; tauto | right; right; reflexivity].
  - destruct (valid (validateStatusTransition "accepted" "pending")) eqn:E; [| reflexivity].
    apply (validateStatusTransition_policy "accepted" "pending" Hacc) in E.
    destruct E as [_ [E | [E | E]]]; [discriminate E | exfalso; apply E; reflexivity | discriminate E].
  - apply (validateStatusTransition_policy "pending" "accepted" Hpen).
    split; [simpl; tauto | right; left; discriminate].
  - apply (validateStatusTransition_policy "reviewed" "reviewed" Hrev).
    split; [simpl; tauto | left; reflexivity].
  - destruct (valid (validateStatusTransition "pending" "archived")) eqn:E; [| reflexivity].
    apply (validateStatusTransition_policy "pending" "archived" Hpen) in E.
    destruct E as [E _]. simpl in E.
    repeat (destruct E as [E | E]; [discriminate E |]). contradiction.
Defined.

End ApplicationFacts.

(** ** Effects of the enforcement endpoints on a stored subscription *)

Lemma subscriptionOf_saveUser id u db uid :
  subscriptionOf (saveUser id u db) uid =
  if decide (id = uid) then subscription u else subscriptionOf db uid.
Proof. unfold subscriptionOf. rewrite findUser_saveUser. case_decide; reflexivity. Qed.

Lemma checkAndResetBillingPeriod_cases now uid user db :
  checkAndResetBillingPeriod now uid user db = (user, db, false) \/
  exists s, subscription user = Some s /\
    checkAndResetBillingPeriod now uid user db =
      (set_subscription (Some (rollover now s)) user,
       saveUser uid (set_subscription (Some (rollover now s)) user) db, true).
Proof.
  unfold checkAndResetBillingPeriod.
  destruct (subscription user) as [s |] eqn:Hs; [| left; reflexivity].
  destruct (lastBrowseReset s) as [lastReset |]; [| left; reflexivity].
  destruct (30 <=? (now - lastReset) / JS.msPerDay); [| left; reflexivity].
  right. exists s. split; reflexivity.
Qed.

Create HintDb ledger.
#[local] Hint Constructors ledger_step : ledger.

Ltac save_cases uid :=
  repeat rewrite subscriptionOf_saveUser;
  repeat match goal with
         | |- context [decide (?a = uid)] => destruct (decide (a = uid)); subst
         end.

Ltac split_status s :=
  let E := fresh "Est" in
  destruct (status_eqb_spec (status s) active) as [E | E]; simpl.

Ltac unchanged uid :=
  solve [simpl; destruct (subscriptionOf _ uid) eqn:?; eauto with ledger].

Lemma checkBrowseLimit_step now userId db uid :
  match subscriptionOf db uid with
  | Some s => exists s', subscriptionOf (fst (checkBrowseLimit now userId db)) uid = Some s'
                         /\ ledger_step s s'
  | None => subscriptionOf (fst (checkBrowseLimit now userId db)) uid = None
  end.
Proof.
  unfold checkBrowseLimit.
  destruct userId as [id |]; [| unchanged uid].
  destruct (findUser db id) as [user0 |] eqn:Hu;
    [| unchanged uid].
  destruct (checkAndResetBillingPeriod_cases now id user0 db) as [-> | [s0 [Hs0 ->]]]; simpl.
  - destruct (subscription user0) as [s |] eqn:Hs;
      [| unchanged uid].
    destruct (populatedPlan db s) as [plan |];
      [| unchanged uid].
    split_status s; [| unchanged uid].
    destruct (default now (endDate s) <? now); simpl;
      [| unchanged uid].
    save_cases uid; [| unchanged uid].
    unfold subscriptionOf. rewrite Hu, Hs. simpl. eauto with ledger.
  - assert (Hroll : match subscriptionOf db uid with
                    | Some s => exists s',
                        subscriptionOf
                          (saveUser id (set_subscription (Some (rollover now s0)) user0) db) uid
                        = Some s' /\ ledger_step s s'
                    | None =>
                        subscriptionOf
                          (saveUser id (set_subscription (Some (rollover now s0)) user0) db) uid
                        = None
                    end).
    { save_cases uid; [| unchanged uid].
      unfold subscriptionOf. rewrite Hu, Hs0. simpl. eauto with ledger. }
    destruct (populatedPlan db (rollover now s0)) as [plan |]; [| exact Hroll].
    split_status s0; [| exact Hroll].
    destruct (default now (endDate s0) <? now); simpl; [| exact Hroll].
    save_cases uid.
    + unfold subscriptionOf. rewrite Hu, Hs0. simpl.
      eexists. split; [reflexivity |].
      eapply step_then; [apply (step_rollover now) | apply step_expire; exact Est].
    + unchanged uid.
Qed.

Ltac own_record Hu Hs :=
  unfold subscriptionOf; rewrite Hu, Hs; simpl; rewrite ?or_zero_id;
  eauto with ledger.

Lemma incrementBrowseCount_step now userId db uid :
  match subscriptionOf db uid with
  | Some s => exists s', subscriptionOf (fst (incrementBrowseCount now userId db)) uid = Some s'
                         /\ ledger_step s s'
  | None => subscriptionOf (fst (incrementBrowseCount now userId db)) uid = None
  end.
Proof.
  unfold incrementBrowseCount.
  destruct userId as [id |]; [| unchanged uid].
  destruct (findUser db id) as [user0 |] eqn:Hu; [| unchanged uid].
  destruct (checkAndResetBillingPeriod_cases now id user0 db) as [-> | [s0 [Hs0 ->]]]; simpl.
  - destruct (subscription user0) as [s |] eqn:Hs; [| unchanged uid].
    split_status s; [| unchanged uid].
    save_cases uid; [| unchanged uid].
    own_record Hu Hs.
  - split_status s0; save_cases uid; try (unchanged uid).
    + unfold subscriptionOf. rewrite Hu, Hs0. simpl. rewrite or_zero_id.
      eexists. split; [reflexivity |].
      eapply step_then; [apply (step_rollover now) |].
      apply (step_inc_browse (rollover now s0)). exact Est.
    + own_record Hu Hs0.
Qed.

Lemma checkListingLimit_step now userId db uid :
  match subscriptionOf db uid with
  | Some s => exists s', subscriptionOf (fst (checkListingLimit now userId db)) uid = Some s'
                         /\ ledger_step s s'
  | None => subscriptionOf (fst (checkListingLimit now userId db)) uid = None
  end.
Proof.
  unfold checkListingLimit.
  destruct userId as [id |]; [| unchanged uid].
  destruct (findUser db id) as [user |] eqn:Hu; [| unchanged uid].
  destruct (subscription user) as [s |] eqn:Hs; [| unchanged uid].
  destruct (populatedPlan db s) as [plan |]; [| unchanged uid].
  split_status s; [| unchanged uid].
  destruct (default now (endDate s) <? now); simpl; [| unchanged uid].
  save_cases uid; [| unchanged uid].
  own_record Hu Hs.
Qed.

Lemma checkJobPostLimit_step now userId db uid :
  match subscriptionOf db uid with
  | Some s => exists s', subscriptionOf (fst (checkJobPostLimit now userId db)) uid = Some s'
                         /\ ledger_step s s'
  | None => subscriptionOf (fst (checkJobPostLimit now userId db)) uid = None
  end.
Proof.
  unfold checkJobPostLimit.
  destruct userId as [id |]; [| unchanged uid].
  destruct (findUser db id) as [user |] eqn:Hu; [| unchanged uid].
  destruct (subscription user) as [s |] eqn:Hs; [| unchanged uid].
  destruct (populatedPlan db s) as [plan |]; [| unchanged uid].
  split_status s; [| unchanged uid].
  destruct (default now (endDate s) <? now); simpl; [| unchanged uid].
  save_cases uid; [| unchanged uid].
  own_record Hu Hs.
Qed.

Lemma incrementListingCount_step userId db uid :
  match subscriptionOf db uid with
  | Some s => exists s', subscriptionOf (fst (incrementListingCount userId db)) uid = Some s'
                         /\ ledger_step s s'
  | None => subscriptionOf (fst (incrementListingCount userId db)) uid = None
  end.
Proof.
  unfold incrementListingCount.
  destruct userId as [id |]; [| unchanged uid].
  destruct (findUser db id) as [user |] eqn:Hu; [| unchanged uid].
  destruct (subscription user) as [s |] eqn:Hs; [| unchanged uid].
  split_status s; [| unchanged uid].
  save_cases uid; [| unchanged uid].
  own_record Hu Hs.
Qed.

Lemma incrementJobPostCount_step userId db uid :
  match subscriptionOf db uid with
  | Some s => exists s', subscriptionOf (fst (incrementJobPostCount userId db)) uid = Some s'
                         /\ ledger_step s s'
  | None => subscriptionOf (fst (incrementJobPostCount userId db)) uid = None
  end.
Proof.
  unfold incrementJobPostCount.
  destruct userId as [id |]; [| unchanged uid].
  destruct (findUser db id) as [user |] eqn:Hu; [| unchanged uid].
  destruct (subscription user) as [s |] eqn:Hs; [| unchanged uid].
  split_status s; [| unchanged uid].
  save_cases uid; [| unchanged uid].
  own_record Hu Hs.
Qed.

Lemma decrementListingCount_step userId db uid :
  match subscriptionOf db uid with
  | Some s => exists s', subscriptionOf (fst (decrementListingCount userId db)) uid = Some s'
                         /\ ledger_step s s'
  | None => subscriptionOf (fst (decrementListingCount userId db)) uid = None
  end.
Proof.
  unfold decrementListingCount, hydrated.
  destruct userId as [id |]; [| unchanged uid].
  destruct (findUser db id) as [user |] eqn:Hu; [| unchanged uid].
  destruct (subscription user) as [s |] eqn:Hs; simpl; [| unchanged uid].
  rewrite or_zero_id.
  destruct (Z.ltb_spec 0 (listingsUsed s)); simpl; [| unchanged uid].
  save_cases uid; [| unchanged uid].
  own_record Hu Hs.
Qed.

Lemma run_call_step c db uid :
  match subscriptionOf db uid with
  | Some s => exists s', subscriptionOf (run_call c db) uid = Some s' /\ ledger_step s s'
  | None => subscriptionOf (run_call c db) uid = None
  end.
Proof.
  destruct c; simpl.
  - apply checkBrowseLimit_step.
  - apply incrementBrowseCount_step.
  - apply checkListingLimit_step.
  - apply incrementListingCount_step.
  - apply decrementListingCount_step.
  - apply checkJobPostLimit_step.
  - apply incrementJobPostCount_step.
Qed.

Lemma run_calls_step cs : forall db uid,
  match subscriptionOf db uid with
  | Some s => exists s', subscriptionOf (run_calls cs db) uid = Some s' /\ ledger_step s s'
  | None => subscriptionOf (run_calls cs db) uid = None
  end.
Proof.
  induction cs as [| c cs IH]; intros db uid; simpl.
  - destruct (subscriptionOf db uid); eauto with ledger.
  - specialize (IH (run_call c db) uid).
    pose proof (run_call_step c db uid) as Hc.
    destruct (subscriptionOf db uid) as [s |].
    + destruct Hc as [s1 [Hs1 Hstep1]]. rewrite Hs1 in IH.
      destruct IH as [s2 [Hs2 Hstep2]]. exists s2. split; [exact Hs2 |].
      eapply step_then; eassumption.
    + rewrite Hc in IH. exact IH.
Qed.

(** Invariants of [ledger_step]. *)

Lemma ledger_step_nonneg s s' : ledger_step s s' -> nonneg s -> nonneg s'.
Proof.
  unfold nonneg. induction 1; simpl; intros; try tauto; try lia.
Qed.

Lemma ledger_step_status s s' :
  ledger_step s s' -> status s <> active -> status s' = status s.
Proof.
  induction 1; simpl; intros Hna; try reflexivity; try contradiction.
  rewrite IHledger_step2; rewrite IHledger_step1; congruence.
Qed.

Lemma counters_nonneg_spec db uid :
  counters_nonneg db uid = true <->
  forall s, subscriptionOf db uid = Some s -> nonneg s.
Proof.
  unfold counters_nonneg, nonneg. destruct (subscriptionOf db uid) as [s |].
  - rewrite !andb_true_iff, !Z.leb_le. split.
    + intros H s' [= <-]. tauto.
    + intros H. specialize (H s eq_refl). tauto.
  - split; [discriminate | reflexivity].
Qed.

(** ** Usage ledger *)

(** C2. Whatever requests reach the enforcement endpoints (increments,
    the decrement and the limit checks, by any users, at any times), a
    user's three usage counters stay at 0 or more once they are; and
    [decrementListingCount] on a counter at 0 leaves the database as it
    is and still answers [success: true] with the counter at 0. *)
Theorem usage_counters_never_negative (cs : list Call) (db : Db) (uid : UserId) :
  counters_nonneg db uid = true ->
  counters_nonneg (run_calls cs db) uid = true /\
  (forall s, subscriptionOf db uid = Some s -> listingsUsed s = 0 ->
     decrementListingCount (Some uid) db =
       (db, Json 200 (mkCounterReply true (Some 0) "Listing count decremented"))).
Proof.
  intros Hnn. split.
  - apply counters_nonneg_spec. intros s' Hs'.
    pose proof (run_calls_step cs db uid) as Hstep.
    destruct (subscriptionOf db uid) as [s |] eqn:Hs.
    + destruct Hstep as [s1 [Hs1 Hst]]. rewrite Hs1 in Hs'. injection Hs' as <-.
      apply (ledger_step_nonneg s s1 Hst).
      apply (proj1 (counters_nonneg_spec db uid) Hnn). exact Hs.
    + congruence.
  - intros s Hs Hzero. unfold subscriptionOf in Hs. unfold decrementListingCount, hydrated.
    destruct (findUser db uid) as [u |]; [| discriminate].
    rewrite Hs. simpl. rewrite or_zero_id, Hzero. reflexivity.
Qed.

Lemma usage_counters_never_negative_witness :
  let db := Fixtures.dbWith (Fixtures.sub 2%nat active 0 0 0) in
  counters_nonneg
    (run_calls [DecrementListing (Some 7%nat); IncrementListing (Some 7%nat);
                DecrementListing (Some 7%nat); DecrementListing (Some 7%nat);
                IncrementBrowse 5 (Some 7%nat); CheckBrowse (40 * Fixtures.day) (Some 7%nat)]
       db) 7%nat = true /\
  decrementListingCount (Some 7%nat) db =
    (db, Json 200 (mkCounterReply true (Some 0) "Listing count decremented")).
Proof.
  intros db.
  destruct (usage_counters_never_negative
              [DecrementListing (Some 7%nat); IncrementListing (Some 7%nat);
               DecrementListing (Some 7%nat); DecrementListing (Some 7%nat);
               IncrementBrowse 5 (Some 7%nat); CheckBrowse (40 * Fixtures.day) (Some 7%nat)]
              db 7%nat eq_refl) as [Hinv Hdec].
  split; [exact Hinv |].
  apply (Hdec (Fixtures.sub 2%nat active 0 0 0)); reflexivity.
Defined.

(** ** Expiry *)

Lemma statusOf_run_calls cs db uid st :
  statusOf db uid = Some st -> st <> active -> statusOf (run_calls cs db) uid = Some st.
Proof.
  unfold statusOf. intros Hst Hna.
  pose proof (run_calls_step cs db uid) as Hstep.
  destruct (subscriptionOf db uid) as [s |]; [| discriminate].
  destruct Hstep as [s' [-> Hs']]. simpl in *. injection Hst as <-.
  f_equal. apply ledger_step_status; assumption.
Qed.

Lemma checkBrowseLimit_expired now db uid u s plan e :
  findUser db uid = Some u -> subscription u = Some s ->
  populatedPlan db s = Some plan -> status s = active ->
  endDate s = Some e -> e < now ->
  exists s',
    checkBrowseLimit now (Some uid) db =
      (saveUser uid (set_subscription (Some (set_status expired s')) u)
         (snd (fst (checkAndResetBillingPeriod now uid u db))),
       Json 200 (mkLimitCheck false 0 true (Some (set_status expired s'))
                   (Some "Subscription has expired"))).
Proof.
  intros Hu Hs Hp Hst He Hlt.
  assert (Hexp : (e <? now) = true) by (apply Z.ltb_lt; exact Hlt).
  unfold checkBrowseLimit. rewrite Hu.
  destruct (checkAndResetBillingPeriod_cases now uid u db) as [-> | [s0 [Hs0 ->]]]; simpl.
  - rewrite Hs, Hp, Hst, He. simpl. rewrite Hexp. exists s. reflexivity.
  - assert (s0 = s) by congruence. subst s0.
    change (populatedPlan db (rollover now s)) with (populatedPlan db s).
    rewrite Hp, Hst, He. simpl. rewrite Hexp.
    exists (rollover now s). reflexivity.
Qed.

(** C3. For a subscription (with its plan reference) whose status is
    'active' and whose [endDate] lies before [now], [checkBrowseLimit]
    stores the status 'expired' and answers [allowed: false] with the
    message "Subscription has expired"; [checkListingLimit] and
    [checkJobPostLimit] store 'expired' and deny in the same way; and
    after any of the three, the stored status stays 'expired' under every
    further sequence of requests to the enforcement endpoints. *)
Theorem expiry_detected_on_first_decision now db uid u s plan e :
  findUser db uid = Some u -> subscription u = Some s ->
  populatedPlan db s = Some plan -> status s = active ->
  endDate s = Some e -> e < now ->
  (exists body, snd (checkBrowseLimit now (Some uid) db) = Json 200 body /\
                allowed body = false /\
                message body = Some "Subscription has expired") /\
  denied (snd (checkListingLimit now (Some uid) db)) /\
  denied (snd (checkJobPostLimit now (Some uid) db)) /\
  forall db',
    db' = fst (checkBrowseLimit now (Some uid) db) \/
    db' = fst (checkListingLimit now (Some uid) db) \/
    db' = fst (checkJobPostLimit now (Some uid) db) ->
    statusOf db' uid = Some expired /\
    forall cs, statusOf (run_calls cs db') uid = Some expired.
Proof.
  intros Hu Hs Hp Hst He Hlt.
  assert (Hexp : (e <? now) = true) by (apply Z.ltb_lt; exact Hlt).
  destruct (checkBrowseLimit_expired now db uid u s plan e Hu Hs Hp Hst He Hlt)
    as [sb Hb].
  assert (Hl : checkListingLimit now (Some uid) db =
               (saveUser uid (set_subscription (Some (set_status expired s)) u) db,
                Json 200 (mkLimitCheck false 0 true (Some (set_status expired s))
                            (Some "Subscription has expired. Cannot create listings.")))).
  { unfold checkListingLimit. rewrite Hu, Hs, Hp, Hst, He. simpl. rewrite Hexp. reflexivity. }
  assert (Hj : checkJobPostLimit now (Some uid) db =
               (saveUser uid (set_subscription (Some (set_status expired s)) u) db,
                Json 200 (mkLimitCheck false 0 true (Some (set_status expired s))
                            (Some "Subscription has expired. Cannot post jobs.")))).
  { unfold checkJobPostLimit. rewrite Hu, Hs, Hp, Hst, He. simpl. rewrite Hexp. reflexivity. }
  rewrite Hb, Hl, Hj. simpl.
  split; [eexists; split; [reflexivity | split; reflexivity] |].
  split; [eexists; split; reflexivity |].
  split; [eexists; split; reflexivity |].
  intros db' Hdb'.
  assert (Hexpired : statusOf db' uid = Some expired).
  { destruct Hdb' as [-> | [-> | ->]]; unfold statusOf; simpl;
      rewrite subscriptionOf_saveUser; case_decide; solve [reflexivity | congruence]. }
  split; [exact Hexpired |].
  intros cs. apply statusOf_run_calls; [exact Hexpired | discriminate].
Qed.

Lemma expiry_detected_on_first_decision_witness :
  let db := Fixtures.dbWith (Fixtures.sub 2%nat active 3 1 4) in
  let now := 31 * Fixtures.day in
  (exists body, snd (checkBrowseLimit now (Some 7%nat) db) = Json 200 body /\
                allowed body = false /\
                message body = Some "Subscription has expired") /\
  statusOf (fst (checkBrowseLimit now (Some 7%nat) db)) 7%nat = Some expired /\
  statusOf (run_calls [CheckListing now (Some 7%nat); IncrementBrowse now (Some 7%nat);
                       CheckBrowse (now + 1) (Some 7%nat)]
              (fst (checkBrowseLimit now (Some 7%nat) db))) 7%nat = Some expired.
Proof.
  intros db now.
  assert (Hlt : 30 * Fixtures.day < now) by (vm_compute; reflexivity).
  destruct (expiry_detected_on_first_decision now db 7%nat
              (mkUser institute (Some (Fixtures.sub 2%nat active 3 1 4)))
              (Fixtures.sub 2%nat active 3 1 4) Fixtures.instituteSilver (30 * Fixtures.day)
              eq_refl eq_refl eq_refl eq_refl eq_refl Hlt)
    as [Hbrowse [_ [_ Hafter]]].
  destruct (Hafter (fst (checkBrowseLimit now (Some 7%nat) db)) (or_introl eq_refl))
    as [Hst Hstay].
  split; [exact Hbrowse |]. split; [exact Hst |]. apply Hstay.
Defined.

(** ** Metered limit checks *)

Lemma populatedPlan_rollover db now s :
  populatedPlan db (set_lastBrowseReset now (set_browseCount 0 s)) = populatedPlan db s.
Proof. reflexivity. Qed.

Lemma unexpired_ltb now s : unexpired now s -> (default now (endDate s) <? now) = false.
Proof.
  intros H. apply Z.ltb_ge. destruct (endDate s) as [e |] eqn:He; simpl; [| lia].
  apply H. exact He.
Qed.

Lemma checkListingLimit_metered now db uid u s plan :
  findUser db uid = Some u -> subscription u = Some s ->
  populatedPlan db s = Some plan -> status s = active -> unexpired now s ->
  let r := JS.max0 (maxListings (features plan) - listingsUsed s) in
  exists msg, checkListingLimit now (Some uid) db =
    (db, Json 200 (mkLimitCheck (0 <? r) r (r <=? 0) (Some s) msg)).
Proof.
  intros Hu Hs Hp Hst He r. unfold checkListingLimit.
  rewrite Hu, Hs, Hp, Hst. simpl. rewrite (unexpired_ltb now s He), !or_zero_id.
  fold r. rewrite (Z.ltb_antisym r 0). eexists. reflexivity.
Qed.

Lemma checkJobPostLimit_metered now db uid u s plan :
  findUser db uid = Some u -> subscription u = Some s ->
  populatedPlan db s = Some plan -> status s = active -> unexpired now s ->
  let r := JS.max0 (maxJobPosts (features plan) - jobPostsUsed s) in
  exists msg, checkJobPostLimit now (Some uid) db =
    (db, Json 200 (mkLimitCheck (0 <? r) r (r <=? 0) (Some s) msg)).
Proof.
  intros Hu Hs Hp Hst He r. unfold checkJobPostLimit.
  rewrite Hu, Hs, Hp, Hst. simpl. rewrite (unexpired_ltb now s He), !or_zero_id.
  fold r. rewrite (Z.ltb_antisym r 0). eexists. reflexivity.
Qed.

Lemma checkBrowseLimit_metered now db uid u s plan :
  findUser db uid = Some u -> subscription u = Some s ->
  populatedPlan db s = Some plan -> status s = active -> unexpired now s ->
  let r := JS.max0 (maxBrowsesPerMonth (features plan) - browseCount (rolled now s)) in
  exists msg, checkBrowseLimit now (Some uid) db =
    (snd (fst (checkAndResetBillingPeriod now uid u db)),
     Json 200 (mkLimitCheck (0 <? r) r (r <=? 0) (Some (rolled now s)) msg)).
Proof.
  intros Hu Hs Hp Hst He r. subst r.
  pose proof (unexpired_ltb now s He) as Hlt.
  unfold checkBrowseLimit, checkAndResetBillingPeriod, rolled.
  rewrite Hu, Hs.
  destruct (lastBrowseReset s) as [lastReset |]; simpl;
    [destruct (30 <=? (now - lastReset) / JS.msPerDay); simpl |];
    rewrite ?Hs;
    rewrite ?populatedPlan_rollover;
    rewrite Hp, Hst; simpl; rewrite Hlt, !or_zero_id;
    match goal with
    | |- context [negb (?x <=? 0)] => rewrite <- (Z.ltb_antisym x 0)
    end; eexists; reflexivity.
Qed.

(** C1. On a subscription to a plan whose [maxJobPosts] is the sentinel
    -1, active and not yet past its [endDate], [checkJobPostLimit] answers
    [allowed: false] with [remaining: 0] and the message
    "Job post limit reached (-1). Please upgrade.", although [createJob],
    which treats -1 as unlimited, accepts the job on the same database. *)
Theorem checkJobPostLimit_denies_unlimited_plan :
  let db := Fixtures.dbWith (Fixtures.sub 4%nat active 0 0 0) in
  checkJobPostLimit Fixtures.day (Some 7%nat) db =
    (db, Json 200 (mkLimitCheck false 0 true (Some (Fixtures.sub 4%nat active 0 0 0))
                     (Some "Job post limit reached (-1). Please upgrade."))) /\
  snd (createJob 7%nat db) = Json 201 tt.
Proof. split; vm_compute; reflexivity. Qed.

(** ** Fallback quotas *)

(** C4 (as the code has it). For a user with no subscription record or no
    plan reference, [checkBrowseLimit] answers the fallback
    [{allowed: true, remaining: 10, limitReached: false}] and
    [checkListingLimit] answers
    [{allowed: false, remaining: 2, limitReached: true}] without touching
    the database. *)
Theorem fallback_quotas now db uid u :
  findUser db uid = Some u -> unsubscribed db u ->
  snd (checkBrowseLimit now (Some uid) db) =
    Json 200 (mkLimitCheck true 10 false None (Some "Using free plan limits")) /\
  checkListingLimit now (Some uid) db =
    (db, Json 200 (mkLimitCheck false 2 true None
                     (Some "No active subscription. Listing creation not allowed."))).
Proof.
  intros Hu [Hnone | [s [Hs Hp]]]; split.
  - unfold checkBrowseLimit, checkAndResetBillingPeriod. rewrite Hu, Hnone. simpl.
    rewrite Hnone. reflexivity.
  - unfold checkListingLimit. rewrite Hu, Hnone. reflexivity.
  - unfold checkBrowseLimit, checkAndResetBillingPeriod. rewrite Hu, Hs.
    destruct (lastBrowseReset s) as [lastReset |]; simpl;
      [destruct (30 <=? (now - lastReset) / JS.msPerDay); simpl |];
      rewrite ?Hs;
      rewrite ?populatedPlan_rollover;
      rewrite Hp; reflexivity.
  - unfold checkListingLimit. rewrite Hu, Hs, Hp. reflexivity.
Qed.

Lemma fallback_quotas_witness :
  let db := Fixtures.dbWith (Fixtures.sub 1%nat active 0 0 0) in
  snd (checkBrowseLimit 0 (Some 8%nat) db) =
    Json 200 (mkLimitCheck true 10 false None (Some "Using free plan limits")) /\
  checkListingLimit 0 (Some 8%nat) db =
    (db, Json 200 (mkLimitCheck false 2 true None
                     (Some "No active subscription. Listing creation not allowed."))).
Proof.
  intros db.
  apply (fallback_quotas 0 db 8%nat (mkUser institute None) eq_refl).
  left. reflexivity.
Defined.

(** C4, counterexample. User 8 has no subscription, and the answer of
    [checkListingLimit] is not [{allowed: false, remaining: 0,
    limitReached: true}]: its [remaining] is 2. *)
Lemma checkListingLimit_fallback_remaining_is_2 :
  let db := Fixtures.dbWith (Fixtures.sub 1%nat active 0 0 0) in
  findUser db 8%nat = Some (mkUser institute None) /\
  ~ (exists body, snd (checkListingLimit 0 (Some 8%nat) db) = Json 200 body /\
                  allowed body = false /\ remaining body = 0 /\ limitReached body = true).
Proof.
  intros db. split; [reflexivity |].
  intros [body [Hbody [_ [Hrem _]]]].
  vm_compute in Hbody. injection Hbody as <-. discriminate Hrem.
Qed.

(** ** Gating of the counter mutations *)

(** C6 (as the code has it). With no subscription or a status other than
    'active', every increment answers [{success: false, message}] and adds
    nothing: [incrementListingCount] and [incrementJobPostCount] leave the
    database as it is, [incrementBrowseCount] leaves it as the 30-day
    rollover, which runs before the status is looked at, leaves it.
    [decrementListingCount] is not gated at all: for a user without
    subscription it answers [success: true] with [listingsUsed: 0] and
    changes nothing; for a subscription of any status it answers
    [success: true] and takes 1 off a positive [listingsUsed]. *)
Theorem counter_mutations_gating now db uid u :
  findUser db uid = Some u ->
  (inactive_record u ->
     incrementListingCount (Some uid) db = (db, Json 200 refusal) /\
     incrementJobPostCount (Some uid) db = (db, Json 200 refusal) /\
     incrementBrowseCount now (Some uid) db =
       (snd (fst (checkAndResetBillingPeriod now uid u db)), Json 200 refusal)) /\
  (subscription u = None ->
     decrementListingCount (Some uid) db =
       (db, Json 200 (mkCounterReply true (Some 0) "Listing count decremented"))) /\
  (forall s, subscription u = Some s ->
     let used := if 0 <? listingsUsed s then listingsUsed s - 1 else listingsUsed s in
     snd (decrementListingCount (Some uid) db) =
       Json 200 (mkCounterReply true (Some used) "Listing count decremented") /\
     subscriptionOf (fst (decrementListingCount (Some uid) db)) uid =
       Some (set_listingsUsed used s)).
Proof.
  intros Hu. split; [| split].
  - intros [Hnone | [s [Hs Hst]]].
    + unfold incrementListingCount, incrementJobPostCount, incrementBrowseCount,
        checkAndResetBillingPeriod.
      rewrite Hu, Hnone. simpl. rewrite Hnone. repeat split; reflexivity.
    + apply status_not_active in Hst.
      unfold incrementListingCount, incrementJobPostCount, incrementBrowseCount,
        checkAndResetBillingPeriod.
      rewrite Hu, Hs, Hst.
      split; [reflexivity | split; [reflexivity |]].
      destruct (lastBrowseReset s) as [lastReset |]; simpl;
        [destruct (30 <=? (now - lastReset) / JS.msPerDay); simpl |];
        rewrite ?Hs, ?Hst; reflexivity.
  - intros Hnone. unfold decrementListingCount, hydrated. rewrite Hu, Hnone. reflexivity.
  - intros s Hs used. subst used. unfold decrementListingCount, hydrated.
    rewrite Hu, Hs. simpl. rewrite or_zero_id.
    destruct (0 <? listingsUsed s); simpl.
    + rewrite subscriptionOf_saveUser. case_decide; [| congruence]. split; reflexivity.
    + split; [reflexivity |]. unfold subscriptionOf. rewrite Hu, Hs.
      destruct s; reflexivity.
Qed.

Lemma counter_mutations_gating_witness :
  let s := Fixtures.sub 2%nat suspended 2 0 0 in
  let db := Fixtures.dbWith s in
  incrementListingCount (Some 7%nat) db = (db, Json 200 refusal) /\
  decrementListingCount (Some 8%nat) db =
    (db, Json 200 (mkCounterReply true (Some 0) "Listing count decremented")) /\
  snd (decrementListingCount (Some 7%nat) db) =
    Json 200 (mkCounterReply true (Some 1) "Listing count decremented").
Proof.
  intros s db.
  destruct (counter_mutations_gating 0 db 7%nat (mkUser institute (Some s)) eq_refl)
    as [Hinc [_ Hdec]].
  destruct (counter_mutations_gating 0 db 8%nat (mkUser institute None) eq_refl)
    as [_ [Hnone _]].
  split; [| split].
  - apply Hinc. right. exists s. split; [reflexivity | discriminate].
  - apply Hnone. reflexivity.
  - apply (Hdec s eq_refl).
Defined.

(** C6, counterexample. User 7's subscription is suspended with two
    listings used; [decrementListingCount] answers [success: true] and
    stores [listingsUsed = 1]. *)
Lemma decrementListingCount_ignores_status :
  let db := Fixtures.dbWith (Fixtures.sub 2%nat suspended 2 0 0) in
  statusOf db 7%nat = Some suspended /\
  option_map listingsUsed (subscriptionOf db 7%nat) = Some 2 /\
  snd (decrementListingCount (Some 7%nat) db) =
    Json 200 (mkCounterReply true (Some 1) "Listing count decremented") /\
  option_map listingsUsed
    (subscriptionOf (fst (decrementListingCount (Some 7%nat) db)) 7%nat) = Some 1.
Proof. repeat split; vm_compute; reflexivity. Qed.

(** ** Plan changes *)

Lemma approval_changes_plan now id notes db request user plan :
  findRequest db id = Some request -> is_pending request = true ->
  findUser db (req_userId request) = Some user ->
  findPlan db (requestedPlanId request) = Some plan ->
  JS.validTime (JS.addDays now (duration plan)) = true ->
  exists s',
    subscriptionOf (fst (updateSubscriptionRequest now id "approved" notes db))
      (req_userId request) = Some s' /\
    changedTo plan (requestedPlanId request) now s' /\
    usage s' = (0, 0, 0) /\ lastBrowseReset s' = Some now.
Proof.
  intros Hr Hpend Hu Hp Hfit. unfold updateSubscriptionRequest.
  rewrite Hr, Hpend. simpl. rewrite Hu, Hp, Hfit. simpl.
  eexists. split.
  - unfold subscriptionOf, findUser, saveRequest, saveUser. simpl.
    rewrite lookup_insert_eq. reflexivity.
  - unfold changedTo. repeat split.
Qed.

Lemma approval_refused now id notes db request user plan :
  findRequest db id = Some request -> is_pending request = true ->
  findUser db (req_userId request) = Some user ->
  findPlan db (requestedPlanId request) = Some plan ->
  JS.validTime (JS.addDays now (duration plan)) = false ->
  updateSubscriptionRequest now id "approved" notes db = (db, Fail 400 castError).
Proof.
  intros Hr Hpend Hu Hp Hfit. unfold updateSubscriptionRequest.
  rewrite Hr, Hpend. simpl. rewrite Hu, Hp, Hfit. reflexivity.
Qed.

Lemma changePlan_effect now uid pid notes db user plan :
  findUser db uid = Some user -> findPlan db pid = Some plan ->
  JS.validTime (JS.addDays now (duration plan)) = true ->
  exists s',
    subscriptionOf (fst (changePlan now uid pid notes db)) uid = Some s' /\
    changedTo plan pid now s' /\
    usage s' = usage (hydrated user) /\
    lastBrowseReset s' = lastBrowseReset (hydrated user).
Proof.
  intros Hu Hp Hfit. unfold changePlan. rewrite Hu, Hp. simpl. rewrite Hfit. simpl.
  eexists. split.
  - rewrite subscriptionOf_saveUser. case_decide; [reflexivity | congruence].
  - unfold changedTo. repeat split.
Qed.

Lemma changePlan_refused now uid pid notes db user plan :
  findUser db uid = Some user -> findPlan db pid = Some plan ->
  JS.validTime (JS.addDays now (duration plan)) = false ->
  changePlan now uid pid notes db = (db, Fail 400 castError).
Proof.
  intros Hu Hp Hfit. unfold changePlan. rewrite Hu, Hp. simpl. rewrite Hfit. reflexivity.
Qed.

(** C5 (as the code has it). Both change-plan transitions, when [now]
    plus the plan's duration is still a valid [Date], point the
    subscription at the new Plan, re-snapshot the three limit fields from
    it, stamp [startDate = now] and [endDate = now + duration] days, set
    the status to 'active' and the payment status to 'pending' when the
    plan's price is above 0 and to 'completed' otherwise.  Approving a
    pending request also resets the three usage counters to 0 and
    [lastBrowseReset] to [now]; the administrator's [changePlan] leaves
    the usage counters and [lastBrowseReset] as the handler reads them,
    which for a user without stored subscription is 0 and unset.  When
    the end date would leave the range of a [Date] the save fails: the
    request is answered 400 and nothing changes. *)
Theorem change_plan_transitions now db plan :
  (forall id notes request user,
     findRequest db id = Some request -> is_pending request = true ->
     findUser db (req_userId request) = Some user ->
     findPlan db (requestedPlanId request) = Some plan ->
     (JS.validTime (JS.addDays now (duration plan)) = true ->
      exists s',
        subscriptionOf (fst (updateSubscriptionRequest now id "approved" notes db))
          (req_userId request) = Some s' /\
        changedTo plan (requestedPlanId request) now s' /\
        usage s' = (0, 0, 0) /\ lastBrowseReset s' = Some now) /\
     (JS.validTime (JS.addDays now (duration plan)) = false ->
      exists e, updateSubscriptionRequest now id "approved" notes db = (db, Fail 400 e))) /\
  (forall uid pid notes user,
     findUser db uid = Some user -> findPlan db pid = Some plan ->
     (JS.validTime (JS.addDays now (duration plan)) = true ->
      exists s',
        subscriptionOf (fst (changePlan now uid pid notes db)) uid = Some s' /\
        changedTo plan pid now s' /\
        usage s' = usage (hydrated user) /\
        lastBrowseReset s' = lastBrowseReset (hydrated user)) /\
     (JS.validTime (JS.addDays now (duration plan)) = false ->
      exists e, changePlan now uid pid notes db = (db, Fail 400 e))).
Proof.
  split.
  - intros id notes request user Hr Hpend Hu Hp. split; intros Hfit.
    + exact (approval_changes_plan now id notes db request user plan Hr Hpend Hu Hp Hfit).
    + eexists. exact (approval_refused now id notes db request user plan Hr Hpend Hu Hp Hfit).
  - intros uid pid notes user Hu Hp. split; intros Hfit.
    + exact (changePlan_effect now uid pid notes db user plan Hu Hp Hfit).
    + eexists. exact (changePlan_refused now uid pid notes db user plan Hu Hp Hfit).
Qed.

Lemma change_plan_transitions_witness :
  let s := Fixtures.sub 1%nat active 3 2 7 in
  let now := 10 * Fixtures.day in
  (exists s',
     subscriptionOf
       (fst (updateSubscriptionRequest now 1%nat "approved" None (Fixtures.dbRequested s)))
       7%nat = Some s' /\
     changedTo Fixtures.instituteSilver 2%nat now s' /\ usage s' = (0, 0, 0) /\
     lastBrowseReset s' = Some now) /\
  (exists s',
     subscriptionOf (fst (changePlan now 7%nat 2%nat None (Fixtures.dbRequested s))) 7%nat
     = Some s' /\
     changedTo Fixtures.instituteSilver 2%nat now s' /\ usage s' = (3, 2, 7) /\
     lastBrowseReset s' = Some 0) /\
  (exists s',
     subscriptionOf
       (fst (updateSubscriptionRequest now 1%nat "approved" None Fixtures.dbRequestedNoRecord))
       7%nat = Some s' /\
     changedTo Fixtures.instituteSilver 2%nat now s' /\ usage s' = (0, 0, 0)) /\
  (exists s',
     subscriptionOf (fst (changePlan now 7%nat 2%nat None Fixtures.dbRequestedNoRecord)) 7%nat
     = Some s' /\
     changedTo Fixtures.instituteSilver 2%nat now s' /\ usage s' = (0, 0, 0)).
Proof.
  intros s now.
  destruct (change_plan_transitions now (Fixtures.dbRequested s) Fixtures.instituteSilver)
    as [Happroved Hdirect].
  destruct (change_plan_transitions now Fixtures.dbRequestedNoRecord Fixtures.instituteSilver)
    as [Happroved0 Hdirect0].
  split; [| split; [| split]].
  - exact (proj1 (Happroved 1%nat None Fixtures.pendingRequest (mkUser institute (Some s))
                    eq_refl eq_refl eq_refl eq_refl) eq_refl).
  - exact (proj1 (Hdirect 7%nat 2%nat None (mkUser institute (Some s)) eq_refl eq_refl)
             eq_refl).
  - destruct (proj1 (Happroved0 1%nat None Fixtures.pendingRequest (mkUser institute None)
                       eq_refl eq_refl eq_refl eq_refl) eq_refl) as [s' [H1 [H2 [H3 _]]]].
    exists s'. split; [exact H1 |]. split; [exact H2 | exact H3].
  - destruct (proj1 (Hdirect0 7%nat 2%nat None (mkUser institute None) eq_refl eq_refl)
                eq_refl) as [s' [H1 [H2 [H3 _]]]].
    exists s'. split; [exact H1 |]. split; [exact H2 | exact H3].
Defined.

(** C5, counterexample. On a subscription with 3 listings, 2 job posts
    and 7 browses used, the administrator's [changePlan] to
    institute-silver re-snapshots the limits and re-stamps dates, status
    and payment status, and the three usage counters are still (3, 2, 7);
    approving the pending request for the same plan resets them to
    (0, 0, 0). *)
Lemma changePlan_keeps_usage_counters :
  let db := Fixtures.dbRequested (Fixtures.sub 1%nat active 3 2 7) in
  let now := 10 * Fixtures.day in
  let direct := subscriptionOf (fst (changePlan now 7%nat 2%nat None db)) 7%nat in
  let approved :=
    subscriptionOf (fst (updateSubscriptionRequest now 1%nat "approved" None db)) 7%nat in
  option_map usage direct = Some (3, 2, 7) /\
  option_map limits direct = Some (5, 5, 50) /\
  option_map status direct = Some active /\
  option_map paymentStatus direct = Some pay_pending /\
  option_map endDate direct = Some (Some (40 * Fixtures.day)) /\
  option_map usage approved = Some (0, 0, 0) /\
  option_map limits approved = Some (5, 5, 50).
Proof. repeat split; vm_compute; reflexivity. Qed.

(** ** Limit checks and plan edits *)

Lemma checkListingLimit_ignores_snapshot now db uid u s l j b :
  findUser db uid = Some u -> subscription u = Some s ->
  outcome (snd (checkListingLimit now (Some uid) (withLimits l j b uid u s db))) =
  outcome (snd (checkListingLimit now (Some uid) db)).
Proof.
  intros Hu Hs. unfold checkListingLimit, withLimits.
  rewrite findUser_saveUser_eq, Hu, Hs. simpl.
  change (populatedPlan (saveUser uid (set_subscription (Some (set_limits l j b s)) u) db)
            (set_limits l j b s)) with (populatedPlan db s).
  destruct (populatedPlan db s); [| reflexivity].
  destruct (negb (status_eqb (status s) active)); [reflexivity |].
  destruct (default now (endDate s) <? now); reflexivity.
Qed.

Lemma checkJobPostLimit_ignores_snapshot now db uid u s l j b :
  findUser db uid = Some u -> subscription u = Some s ->
  outcome (snd (checkJobPostLimit now (Some uid) (withLimits l j b uid u s db))) =
  outcome (snd (checkJobPostLimit now (Some uid) db)).
Proof.
  intros Hu Hs. unfold checkJobPostLimit, withLimits.
  rewrite findUser_saveUser_eq, Hu, Hs. simpl.
  change (populatedPlan (saveUser uid (set_subscription (Some (set_limits l j b s)) u) db)
            (set_limits l j b s)) with (populatedPlan db s).
  destruct (populatedPlan db s); [| reflexivity].
  destruct (negb (status_eqb (status s) active)); [reflexivity |].
  destruct (default now (endDate s) <? now); reflexivity.
Qed.

Lemma checkBrowseLimit_ignores_snapshot now db uid u s l j b :
  findUser db uid = Some u -> subscription u = Some s ->
  outcome (snd (checkBrowseLimit now (Some uid) (withLimits l j b uid u s db))) =
  outcome (snd (checkBrowseLimit now (Some uid) db)).
Proof.
  intros Hu Hs. unfold checkBrowseLimit, checkAndResetBillingPeriod, withLimits.
  rewrite findUser_saveUser_eq, Hu, Hs. simpl.
  destruct (lastBrowseReset s) as [lastReset |]; simpl;
    [destruct (30 <=? (now - lastReset) / JS.msPerDay); simpl |];
    rewrite ?Hs;
    repeat match goal with
           | |- context [populatedPlan ?d ?x] =>
             progress change (populatedPlan d x) with (populatedPlan db s)
           end;
    (destruct (populatedPlan db s); [| reflexivity]);
    (destruct (negb (status_eqb (status s) active)); [reflexivity |]);
    destruct (default now (endDate s) <? now); reflexivity.
Qed.

Lemma updatePlan_effect pid patch db plan :
  findPlan db pid = Some plan -> validPatch patch = true ->
  findPlan (fst (updatePlan pid patch db)) pid = Some (applyPatch patch plan) /\
  users (fst (updatePlan pid patch db)) = users db.
Proof.
  intros Hp Hv. unfold updatePlan. rewrite Hv, Hp. simpl. split; [| reflexivity].
  unfold findPlan. simpl. apply lookup_insert_eq.
Qed.

(** C7 (as the code has it). For a user with a live subscription (plan
    reference, status 'active', [endDate] not passed) the three limit
    checks meter against the referenced Plan as it is stored when the
    check runs: replacing the snapshot fields [listingsLimit],
    [jobPostsLimit], [browseCountLimit] by any values leaves every
    outcome (allowed, remaining) as it was, and after an [updatePlan] that
    passes validation the outcome is the one computed from the edited
    plan's [maxListings], [maxJobPosts] and [maxBrowsesPerMonth]. *)
Theorem limit_checks_meter_live_plan now db uid u s pid plan :
  findUser db uid = Some u -> subscription u = Some s ->
  planId s = Some pid -> findPlan db pid = Some plan ->
  status s = active -> unexpired now s ->
  (forall l j b,
     let db' := withLimits l j b uid u s db in
     outcome (snd (checkListingLimit now (Some uid) db')) =
       outcome (snd (checkListingLimit now (Some uid) db)) /\
     outcome (snd (checkJobPostLimit now (Some uid) db')) =
       outcome (snd (checkJobPostLimit now (Some uid) db)) /\
     outcome (snd (checkBrowseLimit now (Some uid) db')) =
       outcome (snd (checkBrowseLimit now (Some uid) db))) /\
  (forall patch, validPatch patch = true ->
     let db' := fst (updatePlan pid patch db) in
     let f := features (applyPatch patch plan) in
     let rl := JS.max0 (maxListings f - listingsUsed s) in
     let rj := JS.max0 (maxJobPosts f - jobPostsUsed s) in
     let rb := JS.max0 (maxBrowsesPerMonth f - browseCount (rolled now s)) in
     outcome (snd (checkListingLimit now (Some uid) db')) = Some (0 <? rl, rl) /\
     outcome (snd (checkJobPostLimit now (Some uid) db')) = Some (0 <? rj, rj) /\
     outcome (snd (checkBrowseLimit now (Some uid) db')) = Some (0 <? rb, rb)).
Proof.
  intros Hu Hs Hpid Hp Hst He. split.
  - intros l j b db'. subst db'. split; [| split].
    + apply checkListingLimit_ignores_snapshot; assumption.
    + apply checkJobPostLimit_ignores_snapshot; assumption.
    + apply checkBrowseLimit_ignores_snapshot; assumption.
  - intros patch Hv db' f rl rj rb.
    destruct (updatePlan_effect pid patch db plan Hp Hv) as [Hp' Husers].
    fold db' in Hp', Husers.
    assert (Hu' : findUser db' uid = Some u).
    { unfold findUser. rewrite Husers. exact Hu. }
    assert (Hpop : populatedPlan db' s = Some (applyPatch patch plan)).
    { unfold populatedPlan. rewrite Hpid. exact Hp'. }
    destruct (checkListingLimit_metered now db' uid u s _ Hu' Hs Hpop Hst He) as [ml Hl].
    destruct (checkJobPostLimit_metered now db' uid u s _ Hu' Hs Hpop Hst He) as [mj Hj].
    destruct (checkBrowseLimit_metered now db' uid u s _ Hu' Hs Hpop Hst He) as [mb Hb].
    rewrite Hl, Hj, Hb. repeat split.
Qed.

Lemma limit_checks_meter_live_plan_witness :
  let s := Fixtures.sub 2%nat active 5 0 0 in
  let db := Fixtures.dbWith s in
  let patch := mkPlanPatch None None None
                 (Some (mkFeatures 10 5 50 5 7 true false false false true)) None in
  outcome (snd (checkListingLimit Fixtures.day (Some 7%nat)
                  (withLimits 99 99 99 7%nat (mkUser institute (Some s)) s db))) =
    outcome (snd (checkListingLimit Fixtures.day (Some 7%nat) db)) /\
  outcome (snd (checkListingLimit Fixtures.day (Some 7%nat) (fst (updatePlan 2%nat patch db))))
    = Some (true, 5).
Proof.
  intros s db patch.
  assert (He : unexpired Fixtures.day s).
  { intros e [= <-]. vm_compute. discriminate. }
  destruct (limit_checks_meter_live_plan Fixtures.day db 7%nat (mkUser institute (Some s)) s
              2%nat Fixtures.instituteSilver eq_refl eq_refl eq_refl eq_refl eq_refl He)
    as [Hsnap Hlive].
  split.
  - apply (Hsnap 99 99 99).
  - apply (Hlive patch eq_refl).
Defined.

(** C7, counterexample. User 7 has used the 5 listings of
    institute-silver; the check denies.  The administrator raises the
    plan's [maxListings] to 10 with [updatePlan], the user's record is not
    touched, and the same check now allows with 5 remaining. *)
Lemma plan_edit_changes_second_check :
  let db := Fixtures.dbWith (Fixtures.sub 2%nat active 5 0 0) in
  let patch := mkPlanPatch None None None
                 (Some (mkFeatures 10 5 50 5 7 true false false false true)) None in
  let db' := fst (updatePlan 2%nat patch db) in
  outcome (snd (checkListingLimit Fixtures.day (Some 7%nat) db)) = Some (false, 0) /\
  fst (checkListingLimit Fixtures.day (Some 7%nat) db) = db /\
  users db' = users db /\
  outcome (snd (checkListingLimit Fixtures.day (Some 7%nat) db')) = Some (true, 5).
Proof. repeat split; vm_compute; reflexivity. Qed.

(** ** Change requests *)

Lemma find_none_filter {A} (f : A -> bool) (l : list A) :
  find f l = None -> List.filter f l = [].
Proof.
  induction l as [| x l IH]; simpl; [reflexivity |].
  destruct (f x); [discriminate | exact IH].
Qed.

Lemma filter_length_map_le {A} (f : A -> bool) (h : A -> A) (l : list A) :
  (forall x, In x l -> f (h x) = true -> f x = true) ->
  (length (List.filter f (map h l)) <= length (List.filter f l))%nat.
Proof.
  induction l as [| x l IH]; simpl; intros Hmono; [lia |].
  assert (IH' := IH (fun y Hy => Hmono y (or_intror Hy))).
  destruct (f (h x)) eqn:Efh.
  - rewrite (Hmono x (or_introl eq_refl) Efh). simpl. lia.
  - destruct (f x); simpl; lia.
Qed.

Lemma NoDup_ids_inj (l : list SubscriptionRequest) x y :
  NoDup (map req_id l) -> In x l -> In y l -> req_id x = req_id y -> x = y.
Proof.
  induction l as [| z l IH]; simpl; intros Hnd Hx Hy Hid; [contradiction |].
  inversion Hnd as [| ? ? Hnotin Hnd']; subst.
  destruct Hx as [-> | Hx], Hy as [-> | Hy].
  - reflexivity.
  - exfalso. apply Hnotin. apply list_elem_of_In. rewrite Hid. apply in_map. exact Hy.
  - exfalso. apply Hnotin. apply list_elem_of_In. rewrite <- Hid. apply in_map. exact Hx.
  - apply IH; assumption.
Qed.

Lemma freshRequestId_notin rs : ~ In (freshRequestId rs) (map req_id rs).
Proof.
  unfold freshRequestId. intros Hin.
  assert (Hle : Forall (fun k => (k <= list_max (map req_id rs))%nat) (map req_id rs)).
  { apply list_max_le. lia. }
  rewrite Forall_forall in Hle. apply list_elem_of_In in Hin.
  specialize (Hle _ Hin). lia.
Qed.

Lemma createSubscriptionRequest_one_pending userId requested reqType notes db :
  one_pending db ->
  one_pending (fst (createSubscriptionRequest userId requested reqType notes db)).
Proof.
  intros [Hnd Hcnt]. unfold createSubscriptionRequest.
  destruct userId as [uid |]; [| split; assumption].
  destruct (findUser db uid) as [user |]; [| split; assumption].
  destruct (findPlan db requested); [| split; assumption].
  destruct (findPending db uid) eqn:Hpend; [split; assumption |].
  destruct (requestType_of_string reqType) as [t |]; [| split; assumption].
  simpl. split.
  - simpl. rewrite map_app. simpl. apply NoDup_app. split; [exact Hnd |].
    split; [| apply NoDup_singleton].
    intros x Hx Hin. apply list_elem_of_In in Hx.
    apply list_elem_of_In in Hin. simpl in Hin. destruct Hin as [<- | []].
    exact (freshRequestId_notin _ Hx).
  - intros uid'. unfold pendingCount. simpl. rewrite List.filter_app, length_app. simpl.
    destruct (Nat.eqb_spec uid uid') as [<- | Hne]; simpl.
    + unfold findPending in Hpend. rewrite (find_none_filter _ _ Hpend). simpl. lia.
    + specialize (Hcnt uid'). unfold pendingCount in Hcnt. lia.
Qed.

(** The two ways an update of a pending request ends: the save of the
    user fails and nothing changes, or the request is saved on a database
    in which at most the requester's subscription has been replaced. *)
Lemma update_cases now id newStatus notes db request :
  findRequest db id = Some request -> is_pending request = true ->
  updateSubscriptionRequest now id newStatus notes db = (db, Fail 400 castError) \/
  exists db1,
    requests db1 = requests db /\ plans db1 = plans db /\
    (db1 = db \/
     exists user s', newStatus = "approved" /\
       findUser db (req_userId request) = Some user /\
       db1 = saveUser (req_userId request) (set_subscription (Some s') user) db) /\
    updateSubscriptionRequest now id newStatus notes db =
      match requestStatus_of_string newStatus with
      | None => (db1, Fail 400 "SubscriptionRequest validation failed")
      | Some st =>
        let request' :=
          mkRequest (req_id request) (req_userId request) (currentPlanId request)
            (requestedPlanId request) (requestType request) st notes
            (userNotes request) (Some now) in
        (saveRequest request' db1, Json 200 request')
      end.
Proof.
  intros Hfind Hpend. unfold updateSubscriptionRequest. rewrite Hfind, Hpend. simpl.
  destruct (String.eqb_spec newStatus "approved") as [Happ | Happ];
    [| right; exists db; repeat split; left; reflexivity].
  destruct (findUser db (req_userId request)) as [user |] eqn:Hu;
    [| right; exists db; repeat split; left; reflexivity].
  destruct (findPlan db (requestedPlanId request)) as [plan |];
    [| right; exists db; repeat split; left; reflexivity].
  destruct (JS.validTime (JS.addDays now (duration plan))); simpl; [| left; reflexivity].
  right. eexists. split; [| split; [| split; [| reflexivity]]];
    [reflexivity | reflexivity |].
  right. eexists. eexists. split; [exact Happ |]. split; reflexivity.
Qed.

Lemma updateSubscriptionRequest_one_pending now id newStatus notes db :
  one_pending db ->
  one_pending (fst (updateSubscriptionRequest now id newStatus notes db)).
Proof.
  intros [Hnd Hcnt].
  destruct (findRequest db id) as [request |] eqn:Hfind;
    [| unfold updateSubscriptionRequest; rewrite Hfind; split; assumption].
  destruct (is_pending request) eqn:Hpend;
    [| unfold updateSubscriptionRequest; rewrite Hfind, Hpend; split; assumption].
  destruct (update_cases now id newStatus notes db request Hfind Hpend)
    as [-> | [db1 [Hreqs [_ [_ ->]]]]]; [split; assumption |].
  destruct (requestStatus_of_string newStatus) as [st |]; simpl;
    [| unfold one_pending, pendingCount; rewrite Hreqs; split; assumption].
  unfold findRequest in Hfind. apply find_some in Hfind. destruct Hfind as [Hin Hid].
  apply Nat.eqb_eq in Hid.
  unfold one_pending, pendingCount. simpl. rewrite Hreqs. split.
  - rewrite map_map.
    replace (map _ (requests db)) with (map req_id (requests db)); [exact Hnd |].
    apply map_ext. intros r0. destruct (Nat.eqb_spec (req_id r0) (req_id request)); simpl; congruence.
  - intros uid. etransitivity; [| apply (Hcnt uid)].
    unfold pendingCount. apply filter_length_map_le.
    intros r0 Hr0. destruct (Nat.eqb_spec (req_id r0) (req_id request)) as [Heq | Hne];
      [| tauto].
    assert (r0 = request) by (apply (NoDup_ids_inj (requests db)); assumption).
    subst r0. simpl. rewrite Hpend, !andb_true_iff. tauto.
Qed.

Lemma run_workflow_one_pending cs : forall db,
  one_pending db -> one_pending (run_workflow cs db).
Proof.
  induction cs as [| c cs IH]; intros db Hdb; simpl; [exact Hdb |].
  apply IH. destruct c; simpl.
  - apply createSubscriptionRequest_one_pending. exact Hdb.
  - apply updateSubscriptionRequest_one_pending. exact Hdb.
Qed.

(** C8. When a user already has a pending change request, every further
    [createSubscriptionRequest] by that user fails and leaves the
    database as it is, whatever plan and request type it asks for, and,
    the user and the requested plan being found, the failure is the
    duplicate-request error (400, "You already have a pending
    subscription request").  Hence the workflow keeps the invariant that
    no user has two pending requests: every sequence of create and update
    requests preserves it. *)
Theorem duplicate_request_rejected db uid r :
  In r (requests db) -> req_userId r = uid -> req_status r = req_pending ->
  (forall requested reqType notes,
     exists code msg,
       createSubscriptionRequest (Some uid) requested reqType notes db
       = (db, Fail code msg)) /\
  (forall u plan requested reqType notes,
     findUser db uid = Some u -> findPlan db requested = Some plan ->
     createSubscriptionRequest (Some uid) requested reqType notes db
     = (db, Fail 400 "You already have a pending subscription request")) /\
  (forall db0 cs, one_pending db0 -> one_pending (run_workflow cs db0)).
Proof.
  intros Hin Huid Hst.
  assert (Hpend : exists r', findPending db uid = Some r').
  { unfold findPending. destruct (find _ (requests db)) as [r' |] eqn:Hf; [eauto |].
    exfalso. pose proof (find_none _ _ Hf r Hin) as Hr. simpl in Hr.
    unfold is_pending in Hr. rewrite Huid, Hst, Nat.eqb_refl in Hr. discriminate. }
  destruct Hpend as [r' Hr']. split; [| split].
  - intros requested reqType notes. unfold createSubscriptionRequest.
    destruct (findUser db uid); [| eauto].
    destruct (findPlan db requested); [| eauto].
    rewrite Hr'. eauto.
  - intros u plan requested reqType notes Hu Hp. unfold createSubscriptionRequest.
    rewrite Hu, Hp, Hr'. reflexivity.
  - intros db0 cs. apply run_workflow_one_pending.
Qed.

Lemma duplicate_request_rejected_witness :
  createSubscriptionRequest (Some 7%nat) 3%nat "upgrade" None Fixtures.dbPending
  = (Fixtures.dbPending, Fail 400 "You already have a pending subscription request") /\
  one_pending
    (run_workflow [CreateRequest (Some 7%nat) 2%nat "upgrade" None;
                   CreateRequest (Some 7%nat) 3%nat "renewal" None;
                   UpdateRequest 5 1%nat "rejected" None;
                   CreateRequest (Some 7%nat) 3%nat "upgrade" None]
       (mkDb Fixtures.catalog (users Fixtures.dbPending) [])).
Proof.
  destruct (duplicate_request_rejected Fixtures.dbPending 7%nat Fixtures.pendingRequest
              (or_introl eq_refl) eq_refl eq_refl) as [_ [Hdup Hinv]].
  split.
  - apply (Hdup (mkUser institute (Some (Fixtures.sub 1%nat active 0 0 0)))
             Fixtures.instituteElite); reflexivity.
  - apply Hinv. split; [apply NoDup_nil_2 | intros uid; unfold pendingCount; simpl; lia].
Defined.

(** ** Visibility delay *)

Lemma getTeacherDataDelayDate_admin now u :
  is_admin (ru_role u) = true -> getTeacherDataDelayDate now (Some u) = None.
Proof. intros H. unfold getTeacherDataDelayDate. rewrite H. reflexivity. Qed.

Lemma teacherListed_delay now u created :
  is_admin (ru_role u) = false -> created <= now ->
  teacherListed now (Some u) created = true <->
  created + teacherDelayDays u * JS.msPerDay <= now.
Proof.
  intros Hadm Hpast. unfold teacherListed, getTeacherDataDelayDate, teacherDelayDays.
  rewrite Hadm.
  set (d := match ru_plan u with
            | Some plan => teacherDataDelayDays (features plan)
            | None => 15
            end).
  destruct (Z.eqb_spec d 0) as [-> | Hd].
  - split; [lia | reflexivity].
  - unfold JS.addDays. rewrite Z.leb_le. lia.
Qed.




(** * Further properties of the subscription engine *)

(** ** Subscription lifecycle *)

Lemma checks_deny_inactive now db uid u s plan :
  findUser db uid = Some u -> subscription u = Some s ->
  populatedPlan db s = Some plan -> status s <> active ->
  outcome (snd (checkBrowseLimit now (Some uid) db)) = Some (false, 0) /\
  outcome (snd (checkListingLimit now (Some uid) db)) = Some (false, 0) /\
  outcome (snd (checkJobPostLimit now (Some uid) db)) = Some (false, 0).
Proof.
  intros Hu Hs Hp Hst. apply status_not_active in Hst. split; [| split].
  - unfold checkBrowseLimit, checkAndResetBillingPeriod. rewrite Hu, Hs.
    destruct (lastBrowseReset s) as [lastReset |]; simpl;
      [destruct (30 <=? (now - lastReset) / JS.msPerDay); simpl |];
      rewrite ?Hs, ?populatedPlan_rollover, Hp, Hst; reflexivity.
  - unfold checkListingLimit. rewrite Hu, Hs, Hp, Hst. reflexivity.
  - unfold checkJobPostLimit. rewrite Hu, Hs, Hp, Hst. reflexivity.
Qed.

Lemma increments_refuse_inactive now db uid u :
  findUser db uid = Some u -> inactive_record u ->
  snd (incrementListingCount (Some uid) db) = Json 200 refusal /\
  snd (incrementJobPostCount (Some uid) db) = Json 200 refusal /\
  snd (incrementBrowseCount now (Some uid) db) = Json 200 refusal.
Proof.
  intros Hu [Hnone | [s [Hs Hst]]].
  - unfold incrementListingCount, incrementJobPostCount, incrementBrowseCount,
      checkAndResetBillingPeriod.
    rewrite Hu, Hnone. simpl. rewrite Hnone. repeat split; reflexivity.
  - apply status_not_active in Hst.
    unfold incrementListingCount, incrementJobPostCount, incrementBrowseCount,
      checkAndResetBillingPeriod.
    rewrite Hu, Hs, Hst.
    split; [reflexivity | split; [reflexivity |]].
    destruct (lastBrowseReset s) as [lastReset |]; simpl;
      [destruct (30 <=? (now - lastReset) / JS.msPerDay); simpl |];
      rewrite ?Hs, ?Hst; reflexivity.
Qed.

Lemma persona_deny_inactive db uid u :
  findUser db uid = Some u -> inactive_record u ->
  Persona.allowed (Persona.checkVehicleListingAccess uid db) = false /\
  Persona.allowed (Persona.checkJobPostAccess uid db) = false /\
  Persona.allowed (Persona.checkJobApplicationAccess uid db) = false /\
  Persona.allowed (Persona.checkProductListingAccess uid db) = false.
Proof.
  intros Hu Hin.
  unfold Persona.checkVehicleListingAccess, Persona.checkJobPostAccess,
    Persona.checkJobApplicationAccess, Persona.checkProductListingAccess.
  rewrite Hu.
  destruct Hin as [Hnone | [s [Hs Hst]]].
  - rewrite Hnone. destruct (role u); repeat split; reflexivity.
  - apply status_not_active in Hst. rewrite Hs, Hst.
    destruct (role u); repeat split; reflexivity.
Qed.

(** X1. Suspension blocks every gated action whatever quota is left:
    once [suspendSubscription] has run on a subscription with a plan, the
    three limit checks deny with [remaining: 0], the three increments
    refuse, the four persona access checks deny, a listing is never
    visible and notifications are not permitted, at any time; the usage
    counters are kept as they were. *)
Theorem suspension_blocks_gated_actions now uid why db u s plan :
  findUser db uid = Some u -> subscription u = Some s ->
  populatedPlan db s = Some plan ->
  let db' := fst (suspendSubscription uid why db) in
  statusOf db' uid = Some suspended /\
  option_map usage (subscriptionOf db' uid) = Some (usage s) /\
  (outcome (snd (checkBrowseLimit now (Some uid) db')) = Some (false, 0) /\
   outcome (snd (checkListingLimit now (Some uid) db')) = Some (false, 0) /\
   outcome (snd (checkJobPostLimit now (Some uid) db')) = Some (false, 0)) /\
  (snd (incrementListingCount (Some uid) db') = Json 200 refusal /\
   snd (incrementJobPostCount (Some uid) db') = Json 200 refusal /\
   snd (incrementBrowseCount now (Some uid) db') = Json 200 refusal) /\
  (Persona.allowed (Persona.checkVehicleListingAccess uid db') = false /\
   Persona.allowed (Persona.checkJobPostAccess uid db') = false /\
   Persona.allowed (Persona.checkJobApplicationAccess uid db') = false /\
   Persona.allowed (Persona.checkProductListingAccess uid db') = false) /\
  (forall created, exists body,
     checkListingVisibility now (Some created) (Some uid) db' = Json 200 body /\
     visible body = false) /\
  (exists body, checkNotificationPermission (Some uid) db' = Json 200 body /\
                np_allowed body = false).
Proof.
  intros Hu Hs Hp db'.
  set (s' := set_notes (str_or why (notes s)) (set_status suspended s)).
  set (u' := set_subscription (Some s') u).
  assert (Hdb' : db' = saveUser uid u' db).
  { subst db'. unfold suspendSubscription, hydrated. rewrite Hu, Hs. reflexivity. }
  assert (Hu' : findUser db' uid = Some u') by (rewrite Hdb'; apply findUser_saveUser_eq).
  assert (Hs' : subscription u' = Some s') by reflexivity.
  assert (Hp' : populatedPlan db' s' = Some plan) by (rewrite Hdb'; exact Hp).
  assert (Hst : status s' <> active) by (simpl; discriminate).
  assert (Hin : inactive_record u') by (right; exists s'; split; assumption).
  split; [| split; [| split; [| split; [| split; [| split]]]]].
  - unfold statusOf, subscriptionOf. rewrite Hu'. reflexivity.
  - unfold subscriptionOf. rewrite Hu'. reflexivity.
  - exact (checks_deny_inactive now db' uid u' s' plan Hu' Hs' Hp' Hst).
  - exact (increments_refuse_inactive now db' uid u' Hu' Hin).
  - exact (persona_deny_inactive db' uid u' Hu' Hin).
  - intros created. unfold checkListingVisibility. rewrite Hu', Hs', Hp'. simpl.
    eexists. split; reflexivity.
  - unfold checkNotificationPermission, hydrated. rewrite Hu', Hs'. simpl.
    eexists. split; reflexivity.
Qed.

Lemma suspension_blocks_gated_actions_witness :
  let db := Fixtures.dbWith (Fixtures.sub 3%nat active 0 0 0) in
  let db' := fst (suspendSubscription 7%nat (Some "payment dispute") db) in
  outcome (snd (checkListingLimit Fixtures.day (Some 7%nat) db)) = Some (true, 100) /\
  outcome (snd (checkListingLimit Fixtures.day (Some 7%nat) db')) = Some (false, 0) /\
  snd (incrementBrowseCount Fixtures.day (Some 7%nat) db') = Json 200 refusal.
Proof.
  intros db db'.
  destruct (suspension_blocks_gated_actions Fixtures.day 7%nat (Some "payment dispute") db
              (mkUser institute (Some (Fixtures.sub 3%nat active 0 0 0)))
              (Fixtures.sub 3%nat active 0 0 0) Fixtures.instituteElite
              eq_refl eq_refl eq_refl)
    as [_ [_ [[_ [Hlist _]] [[_ [_ Hinc]] _]]]].
  split; [vm_compute; reflexivity |]. split; [exact Hlist | exact Hinc].
Defined.

(** The outcome of the three limit checks on a live subscription, read
    off the stored record and the plan. *)
Lemma live_outcomes now db uid u s plan :
  findUser db uid = Some u -> subscription u = Some s ->
  populatedPlan db s = Some plan -> status s = active -> unexpired now s ->
  let rl := JS.max0 (maxListings (features plan) - listingsUsed s) in
  let rj := JS.max0 (maxJobPosts (features plan) - jobPostsUsed s) in
  let rb := JS.max0 (maxBrowsesPerMonth (features plan) - browseCount (rolled now s)) in
  outcome (snd (checkListingLimit now (Some uid) db)) = Some (0 <? rl, rl) /\
  outcome (snd (checkJobPostLimit now (Some uid) db)) = Some (0 <? rj, rj) /\
  outcome (snd (checkBrowseLimit now (Some uid) db)) = Some (0 <? rb, rb).
Proof.
  intros Hu Hs Hp Hst He rl rj rb.
  destruct (checkListingLimit_metered now db uid u s plan Hu Hs Hp Hst He) as [ml Hl].
  destruct (checkJobPostLimit_metered now db uid u s plan Hu Hs Hp Hst He) as [mj Hj].
  destruct (checkBrowseLimit_metered now db uid u s plan Hu Hs Hp Hst He) as [mb Hb].
  rewrite Hl, Hj, Hb. repeat split.
Qed.

Lemma outcomes_metered now db uid u s plan :
  findUser db uid = Some u -> subscription u = Some s ->
  populatedPlan db s = Some plan -> status s = active -> unexpired now s ->
  outcomes now uid db = metered now plan s.
Proof.
  intros Hu Hs Hp Hst He.
  destruct (live_outcomes now db uid u s plan Hu Hs Hp Hst He) as [Hl [Hj Hb]].
  unfold outcomes, metered. rewrite Hl, Hj, Hb. reflexivity.
Qed.

Lemma metered_ext now plan s s' :
  usage s' = usage s -> lastBrowseReset s' = lastBrowseReset s ->
  metered now plan s' = metered now plan s.
Proof.
  unfold usage, metered, rolled. intros [= -> -> Hb] ->.
  destruct (lastBrowseReset s) as [l |]; [| rewrite Hb; reflexivity].
  destruct (30 <=? (now - l) / JS.msPerDay); [reflexivity | rewrite Hb; reflexivity].
Qed.

(** X2. Reactivation undoes a suspension: for a live subscription
    (plan, 'active', [endDate] not passed at [now]), suspending it and
    then calling [reactivateSubscription] at [now] succeeds, and the
    three limit checks give the outcomes they gave before the
    suspension. *)
Theorem reactivation_undoes_suspension now uid why db u s plan :
  findUser db uid = Some u -> subscription u = Some s ->
  populatedPlan db s = Some plan -> status s = active -> unexpired now s ->
  let db1 := fst (suspendSubscription uid why db) in
  let db2 := fst (reactivateSubscription now uid db1) in
  (exists s2, snd (reactivateSubscription now uid db1) = Json 200 s2 /\
              status s2 = active /\ usage s2 = usage s) /\
  outcomes now uid db2 = outcomes now uid db.
Proof.
  intros Hu Hs Hp Hst He db1 db2.
  set (s1 := set_notes (str_or why (notes s)) (set_status suspended s)).
  set (s2 := set_status active s1).
  assert (Hpast : pastEnd now s1 = false).
  { unfold pastEnd. simpl. destruct (endDate s) as [e |] eqn:Hend; [| reflexivity].
    apply Z.ltb_ge. apply He. exact Hend. }
  assert (Hre : reactivateSubscription now uid db1 =
                (saveUser uid (set_subscription (Some s2) (set_subscription (Some s1) u)) db1,
                 Json 200 s2)).
  { subst db1. unfold suspendSubscription, hydrated. rewrite Hu, Hs. simpl.
    unfold reactivateSubscription, hydrated. rewrite findUser_saveUser_eq. simpl.
    fold s1. rewrite Hpast. reflexivity. }
  split.
  - rewrite Hre. exists s2. repeat split.
  - subst db2. rewrite Hre. simpl.
    rewrite (outcomes_metered now db uid u s plan Hu Hs Hp Hst He).
    set (u2 := set_subscription (Some s2) (set_subscription (Some s1) u)).
    assert (Hp2 : populatedPlan (saveUser uid u2 db1) s2 = Some plan).
    { subst db1. unfold suspendSubscription, hydrated. rewrite Hu, Hs. exact Hp. }
    assert (He2 : unexpired now s2) by (intros e Hend; apply He; exact Hend).
    rewrite (outcomes_metered now (saveUser uid u2 db1) uid u2 s2 plan
               (findUser_saveUser_eq _ _ _) eq_refl Hp2 eq_refl He2).
    apply metered_ext; reflexivity.
Qed.

Lemma reactivation_undoes_suspension_witness :
  let db := Fixtures.dbWith (Fixtures.sub 2%nat active 3 1 4) in
  let db1 := fst (suspendSubscription 7%nat None db) in
  let db2 := fst (reactivateSubscription Fixtures.day 7%nat db1) in
  outcomes Fixtures.day 7%nat db2 = outcomes Fixtures.day 7%nat db /\
  outcomes Fixtures.day 7%nat db = (Some (true, 2), Some (true, 4), Some (true, 46)).
Proof.
  intros db db1 db2.
  assert (He : unexpired Fixtures.day (Fixtures.sub 2%nat active 3 1 4)).
  { intros e [= <-]. vm_compute. discriminate. }
  split.
  - exact (proj2 (reactivation_undoes_suspension Fixtures.day 7%nat None db
                    (mkUser institute (Some (Fixtures.sub 2%nat active 3 1 4)))
                    (Fixtures.sub 2%nat active 3 1 4) Fixtures.instituteSilver
                    eq_refl eq_refl eq_refl eq_refl He)).
  - vm_compute. reflexivity.
Defined.



Lemma unsubscribed_replies now db uid u :
  findUser db uid = Some u -> subscription u = None ->
  checkBrowseLimit now (Some uid) db =
    (db, Json 200 (mkLimitCheck true 10 false None (Some "Using free plan limits"))) /\
  outcome (snd (checkListingLimit now (Some uid) db)) = Some (false, 2) /\
  outcome (snd (checkJobPostLimit now (Some uid) db)) = Some (false, 0) /\
  decrementListingCount (Some uid) db =
    (db, Json 200 (mkCounterReply true (Some 0) "Listing count decremented")).
Proof.
  intros Hu Hnone. split; [| split; [| split]].
  - unfold checkBrowseLimit, checkAndResetBillingPeriod. rewrite Hu, Hnone. simpl.
    rewrite Hnone. reflexivity.
  - unfold checkListingLimit. rewrite Hu, Hnone. reflexivity.
  - unfold checkJobPostLimit. rewrite Hu, Hnone. reflexivity.
  - unfold decrementListingCount, hydrated. rewrite Hu, Hnone. reflexivity.
Qed.

(** X4. Cancelling unsets the record, and a user without stored
    subscription is read as the defaults of the schema: after
    [cancelSubscription] nothing is stored for the user, a second
    cancellation is answered like the first and stores nothing either,
    browsing falls back to the free quota of 10, listing and job-post
    checks deny, every increment refuses, the decrement answers
    [success: true] with [listingsUsed: 0] and changes nothing, and
    [getUsageStats] reports plan 'Unknown', status 'inactive', no usage,
    no limits, no days remaining, and [isExpired: false]. *)
Theorem cancellation_clears_record now uid db u :
  findUser db uid = Some u ->
  let db' := fst (cancelSubscription uid db) in
  snd (cancelSubscription uid db) = Json 200 "Subscription cancelled successfully" /\
  subscriptionOf db' uid = None /\
  (snd (cancelSubscription uid db') = Json 200 "Subscription cancelled successfully" /\
   subscriptionOf (fst (cancelSubscription uid db')) uid = None) /\
  checkBrowseLimit now (Some uid) db' =
    (db', Json 200 (mkLimitCheck true 10 false None (Some "Using free plan limits"))) /\
  outcome (snd (checkListingLimit now (Some uid) db')) = Some (false, 2) /\
  outcome (snd (checkJobPostLimit now (Some uid) db')) = Some (false, 0) /\
  (snd (incrementListingCount (Some uid) db') = Json 200 refusal /\
   snd (incrementJobPostCount (Some uid) db') = Json 200 refusal /\
   snd (incrementBrowseCount now (Some uid) db') = Json 200 refusal) /\
  decrementListingCount (Some uid) db' =
    (db', Json 200 (mkCounterReply true (Some 0) "Listing count decremented")) /\
  (exists stats, Stats.getUsageStats now uid db' = Json 200 stats /\
                 Stats.planName stats = "Unknown" /\ Stats.statusName stats = "inactive" /\
                 Stats.isExpired stats = false /\ Stats.isExpiringSoon stats = false /\
                 Stats.daysRemaining stats = 0 /\
                 Stats.u_listingCount stats = Stats.mkUsage 0 0 0 Stats.PctZero /\
                 Stats.u_jobPostsCount stats = Stats.mkUsage 0 0 0 Stats.PctZero /\
                 Stats.u_browseCount stats = Stats.mkUsage 0 0 0 Stats.PctZero).
Proof.
  intros Hu db'.
  assert (Hdb' : db' = saveUser uid (set_subscription None u) db).
  { subst db'. unfold cancelSubscription. rewrite Hu. reflexivity. }
  assert (Hu' : findUser db' uid = Some (set_subscription None u))
    by (rewrite Hdb'; apply findUser_saveUser_eq).
  destruct (unsubscribed_replies now db' uid _ Hu' eq_refl) as [Hb [Hl [Hj Hd]]].
  split; [| split; [| split; [| split; [| split; [| split; [| split; [| split]]]]]]];
    try assumption.
  - unfold cancelSubscription. rewrite Hu. reflexivity.
  - unfold subscriptionOf. rewrite Hu'. reflexivity.
  - unfold cancelSubscription. rewrite Hu'. simpl. split; [reflexivity |].
    rewrite subscriptionOf_saveUser. case_decide; [reflexivity | congruence].
  - apply (increments_refuse_inactive now db' uid _ Hu'). left. reflexivity.
  - unfold Stats.getUsageStats. rewrite Hu'. simpl. rewrite Z.sub_diag, Z.ltb_irrefl.
    eexists. repeat split.
Qed.

Lemma cancellation_clears_record_witness :
  let db := Fixtures.dbWith (Fixtures.sub 3%nat active 1 1 1) in
  let db' := fst (cancelSubscription 7%nat db) in
  subscriptionOf db' 7%nat = None /\
  snd (cancelSubscription 7%nat db') = Json 200 "Subscription cancelled successfully" /\
  outcome (snd (checkBrowseLimit Fixtures.day (Some 7%nat) db')) = Some (true, 10) /\
  outcome (snd (checkListingLimit Fixtures.day (Some 7%nat) db)) = Some (true, 99) /\
  outcome (snd (checkListingLimit Fixtures.day (Some 7%nat) db')) = Some (false, 2) /\
  snd (decrementListingCount (Some 7%nat) db') =
    Json 200 (mkCounterReply true (Some 0) "Listing count decremented").
Proof.
  intros db db'.
  destruct (cancellation_clears_record Fixtures.day 7%nat db
              (mkUser institute (Some (Fixtures.sub 3%nat active 1 1 1))) eq_refl)
    as [_ [Hnone [[Hagain _] [Hb [Hl [_ [_ [Hd _]]]]]]]].
  split; [exact Hnone |].
  split; [exact Hagain |].
  split; [exact (f_equal (fun x => outcome (snd x)) Hb) |].
  split; [vm_compute; reflexivity |].
  split; [exact Hl |].
  exact (f_equal snd Hd).
Defined.

(** X5. [resetBrowseCount] is idempotent and restores the full browse
    quota: resetting twice at the same time leaves the stored
    subscription exactly as one reset does, with [browseCount = 0] and
    [lastBrowseReset = now]; and on a live subscription the next [checkBrowseLimit] at that
    time has [remaining = max(0, maxBrowsesPerMonth)]. *)
Theorem resetBrowseCount_idempotent now uid db u s :
  findUser db uid = Some u -> subscription u = Some s ->
  let db' := fst (resetBrowseCount now uid db) in
  subscriptionOf (fst (resetBrowseCount now uid db')) uid = subscriptionOf db' uid /\
  (exists s', subscriptionOf db' uid = Some s' /\ browseCount s' = 0 /\
              lastBrowseReset s' = Some now /\
              listingsUsed s' = listingsUsed s /\ jobPostsUsed s' = jobPostsUsed s /\
              status s' = status s) /\
  (forall plan, populatedPlan db s = Some plan -> status s = active -> unexpired now s ->
     let r := JS.max0 (maxBrowsesPerMonth (features plan)) in
     outcome (snd (checkBrowseLimit now (Some uid) db')) = Some (0 <? r, r)).
Proof.
  intros Hu Hs db'.
  set (s' := set_lastBrowseReset now (set_browseCount 0 s)).
  assert (Hdb' : db' = saveUser uid (set_subscription (Some s') u) db).
  { subst db'. unfold resetBrowseCount, hydrated. rewrite Hu, Hs. reflexivity. }
  assert (Hu' : findUser db' uid = Some (set_subscription (Some s') u))
    by (rewrite Hdb'; apply findUser_saveUser_eq).
  split; [| split].
  - unfold resetBrowseCount, hydrated. rewrite Hu'. simpl.
    rewrite subscriptionOf_saveUser. case_decide; [| congruence].
    unfold subscriptionOf. rewrite Hu'. reflexivity.
  - exists s'. unfold subscriptionOf. rewrite Hu'. repeat split.
  - intros plan Hp Hst He r.
    assert (Hp' : populatedPlan db' s' = Some plan) by (rewrite Hdb'; exact Hp).
    assert (He' : unexpired now s') by (intros e Hend; apply He; exact Hend).
    destruct (checkBrowseLimit_metered now db' uid _ s' plan Hu' eq_refl Hp' Hst He')
      as [msg Hb].
    rewrite Hb. simpl. unfold rolled. simpl.
    rewrite Z.sub_diag. change (0 / JS.msPerDay) with 0. simpl.
    rewrite Z.sub_0_r. reflexivity.
Qed.

Lemma resetBrowseCount_idempotent_witness :
  let db := Fixtures.dbWith (Fixtures.sub 2%nat active 0 0 50) in
  let db' := fst (resetBrowseCount Fixtures.day 7%nat db) in
  subscriptionOf (fst (resetBrowseCount Fixtures.day 7%nat db')) 7%nat
  = subscriptionOf db' 7%nat /\
  outcome (snd (checkBrowseLimit Fixtures.day (Some 7%nat) db)) = Some (false, 0) /\
  outcome (snd (checkBrowseLimit Fixtures.day (Some 7%nat) db')) = Some (true, 50).
Proof.
  intros db db'.
  assert (He : unexpired Fixtures.day (Fixtures.sub 2%nat active 0 0 50)).
  { intros e [= <-]. vm_compute. discriminate. }
  destruct (resetBrowseCount_idempotent Fixtures.day 7%nat db
              (mkUser institute (Some (Fixtures.sub 2%nat active 0 0 50)))
              (Fixtures.sub 2%nat active 0 0 50) eq_refl eq_refl) as [Hid [_ Hfull]].
  split; [exact Hid |]. split; [vm_compute; reflexivity |].
  exact (Hfull Fixtures.instituteSilver eq_refl eq_refl He).
Defined.

Lemma stale_test now l :
  30 * JS.msPerDay <= now - l -> (30 <=? (now - l) / JS.msPerDay) = true.
Proof.
  intros H. apply Z.leb_le. apply Z.div_le_lower_bound; [reflexivity | lia].
Qed.

Lemma fresh_test now l :
  now - l < 30 * JS.msPerDay -> (30 <=? (now - l) / JS.msPerDay) = false.
Proof.
  intros H. apply Z.leb_gt. apply Z.div_lt_upper_bound; [reflexivity | lia].
Qed.

(** X6. A stale browse period does not survive a browse request: when 30
    days or more have passed since [lastBrowseReset], both
    [checkBrowseLimit] and [incrementBrowseCount] store [lastBrowseReset
    = now] and restart the counter (at 0 after the check, at 1 after an
    increment on an active subscription, at 0 after a refused one),
    whatever the status and whether or not the plan resolves; the other
    two counters are untouched.  Before 30 days the check leaves the
    counter and the reset date alone. *)
Theorem stale_browse_period_rolls_over now uid db u s l :
  findUser db uid = Some u -> subscription u = Some s -> lastBrowseReset s = Some l ->
  (30 * JS.msPerDay <= now - l ->
     (exists s', subscriptionOf (fst (checkBrowseLimit now (Some uid) db)) uid = Some s' /\
                 browseCount s' = 0 /\ lastBrowseReset s' = Some now /\
                 listingsUsed s' = listingsUsed s /\ jobPostsUsed s' = jobPostsUsed s) /\
     (exists s', subscriptionOf (fst (incrementBrowseCount now (Some uid) db)) uid = Some s' /\
                 browseCount s' = (if status_eqb (status s) active then 1 else 0) /\
                 lastBrowseReset s' = Some now /\
                 listingsUsed s' = listingsUsed s /\ jobPostsUsed s' = jobPostsUsed s)) /\
  (now - l < 30 * JS.msPerDay ->
     exists s', subscriptionOf (fst (checkBrowseLimit now (Some uid) db)) uid = Some s' /\
                browseCount s' = browseCount s /\ lastBrowseReset s' = Some l).
Proof.
  intros Hu Hs Hl. split.
  - intros Hstale. apply stale_test in Hstale. split.
    + unfold checkBrowseLimit, checkAndResetBillingPeriod.
      rewrite Hu, Hs, Hl, Hstale. simpl. rewrite populatedPlan_rollover.
      destruct (populatedPlan db s);
        [destruct (negb (status_eqb (status s) active));
         [| destruct (default now (endDate s) <? now)] |];
        simpl; rewrite !subscriptionOf_saveUser; (case_decide; [| congruence]);
        eexists; repeat split.
    + unfold incrementBrowseCount, checkAndResetBillingPeriod.
      rewrite Hu, Hs, Hl, Hstale. simpl.
      destruct (status_eqb (status s) active); simpl;
        rewrite !subscriptionOf_saveUser; (case_decide; [| congruence]);
        eexists; repeat split.
  - intros Hfresh. apply fresh_test in Hfresh.
    unfold checkBrowseLimit, checkAndResetBillingPeriod.
    rewrite Hu, Hs, Hl, Hfresh. simpl. rewrite Hs.
    destruct (populatedPlan db s);
      [destruct (negb (status_eqb (status s) active));
       [| destruct (default now (endDate s) <? now)] |];
      simpl; rewrite ?subscriptionOf_saveUser; try (case_decide; [| congruence]);
      try (unfold subscriptionOf; rewrite Hu, Hs);
      eexists; repeat split; simpl; assumption.
Qed.

Lemma stale_browse_period_rolls_over_witness :
  let db := Fixtures.dbWith (Fixtures.sub 2%nat suspended 0 0 50) in
  let now := 45 * Fixtures.day in
  (exists s', subscriptionOf (fst (checkBrowseLimit now (Some 7%nat) db)) 7%nat = Some s' /\
              browseCount s' = 0 /\ lastBrowseReset s' = Some now) /\
  (exists s', subscriptionOf (fst (checkBrowseLimit Fixtures.day (Some 7%nat) db)) 7%nat
              = Some s' /\ browseCount s' = 50 /\ lastBrowseReset s' = Some 0).
Proof.
  intros db now.
  destruct (stale_browse_period_rolls_over now 7%nat db
              (mkUser institute (Some (Fixtures.sub 2%nat suspended 0 0 50)))
              (Fixtures.sub 2%nat suspended 0 0 50) 0 eq_refl eq_refl eq_refl)
    as [Hstale _].
  destruct (stale_browse_period_rolls_over Fixtures.day 7%nat db
              (mkUser institute (Some (Fixtures.sub 2%nat suspended 0 0 50)))
              (Fixtures.sub 2%nat suspended 0 0 50) 0 eq_refl eq_refl eq_refl)
    as [_ Hfresh].
  split.
  - destruct Hstale as [[s' [H1 [H2 [H3 _]]]] _]; [vm_compute; discriminate |].
    exists s'. repeat split; assumption.
  - apply Hfresh. vm_compute. reflexivity.
Defined.



(** ** Usage ledger, continued *)

(** X8. Increment and decrement of the listing counter cancel out: on an
    active subscription with [listingsUsed >= 0], [incrementListingCount]
    followed by [decrementListingCount] leaves the stored subscription as
    it was; and with [listingsUsed > 0], decrement followed by increment
    does too. *)
Theorem listing_count_round_trip uid db u s :
  findUser db uid = Some u -> subscription u = Some s -> status s = active ->
  (0 <= listingsUsed s ->
     subscriptionOf
       (fst (decrementListingCount (Some uid) (fst (incrementListingCount (Some uid) db))))
       uid = Some s) /\
  (0 < listingsUsed s ->
     subscriptionOf
       (fst (incrementListingCount (Some uid) (fst (decrementListingCount (Some uid) db))))
       uid = Some s).
Proof.
  intros Hu Hs Hst. split; intros Hused.
  - unfold incrementListingCount. rewrite Hu, Hs, Hst. simpl.
    unfold decrementListingCount, hydrated. rewrite findUser_saveUser_eq. simpl.
    rewrite !or_zero_id.
    destruct (Z.ltb_spec 0 (listingsUsed s + 1)) as [_ | Hle]; [| lia]. simpl.
    rewrite subscriptionOf_saveUser. case_decide; [| congruence]. simpl. f_equal.
    unfold set_listingsUsed. simpl.
    replace (listingsUsed s + 1 - 1) with (listingsUsed s) by lia.
    destruct s; reflexivity.
  - unfold decrementListingCount, hydrated. rewrite Hu, Hs. simpl. rewrite or_zero_id.
    destruct (Z.ltb_spec 0 (listingsUsed s)) as [_ | Hle]; [| lia]. simpl.
    unfold incrementListingCount. rewrite findUser_saveUser_eq. simpl.
    rewrite Hst. simpl. rewrite !or_zero_id.
    rewrite subscriptionOf_saveUser. case_decide; [| congruence]. simpl. f_equal.
    unfold set_listingsUsed. simpl.
    replace (listingsUsed s - 1 + 1) with (listingsUsed s) by lia.
    destruct s; reflexivity.
Qed.

Lemma listing_count_round_trip_witness :
  let db := Fixtures.dbWith (Fixtures.sub 2%nat active 0 0 0) in
  subscriptionOf
    (fst (decrementListingCount (Some 7%nat) (fst (incrementListingCount (Some 7%nat) db))))
    7%nat = Some (Fixtures.sub 2%nat active 0 0 0).
Proof.
  intros db.
  apply (proj1 (listing_count_round_trip 7%nat db
                  (mkUser institute (Some (Fixtures.sub 2%nat active 0 0 0)))
                  (Fixtures.sub 2%nat active 0 0 0) eq_refl eq_refl eq_refl)).
  vm_compute. discriminate.
Defined.

(** X9. Deleting a listing frees a slot: on a live subscription with
    [listingsUsed > 0], the listing check that follows
    [decrementListingCount] has [remaining = max(0, maxListings -
    (listingsUsed - 1))]; in particular a user exactly at the limit is
    denied before the decrement and allowed with [remaining: 1] after
    it. *)
Theorem decrement_frees_a_slot now uid db u s plan :
  findUser db uid = Some u -> subscription u = Some s ->
  populatedPlan db s = Some plan -> status s = active -> unexpired now s ->
  0 < listingsUsed s ->
  let db' := fst (decrementListingCount (Some uid) db) in
  let r := JS.max0 (maxListings (features plan) - (listingsUsed s - 1)) in
  outcome (snd (checkListingLimit now (Some uid) db')) = Some (0 <? r, r) /\
  (listingsUsed s = maxListings (features plan) ->
     outcome (snd (checkListingLimit now (Some uid) db)) = Some (false, 0) /\
     outcome (snd (checkListingLimit now (Some uid) db')) = Some (true, 1)).
Proof.
  intros Hu Hs Hp Hst He Hused db' r.
  set (s' := set_listingsUsed (listingsUsed s - 1) s).
  assert (Hdb' : db' = saveUser uid (set_subscription (Some s') u) db).
  { subst db'. unfold decrementListingCount, hydrated. rewrite Hu, Hs. simpl.
    rewrite or_zero_id.
    destruct (Z.ltb_spec 0 (listingsUsed s)) as [_ | Hle]; [reflexivity | lia]. }
  assert (Hafter : outcome (snd (checkListingLimit now (Some uid) db')) = Some (0 <? r, r)).
  { destruct (checkListingLimit_metered now db' uid (set_subscription (Some s') u) s' plan)
      as [msg Hl]; try assumption; try reflexivity.
    - rewrite Hdb'. apply findUser_saveUser_eq.
    - rewrite Hdb'. exact Hp.
    - rewrite Hl. reflexivity. }
  split; [exact Hafter |].
  intros Hfull.
  destruct (checkListingLimit_metered now db uid u s plan Hu Hs Hp Hst He) as [msg Hl].
  rewrite Hl, Hafter. subst r. simpl. rewrite <- Hfull.
  replace (listingsUsed s - listingsUsed s) with 0 by lia.
  replace (listingsUsed s - (listingsUsed s - 1)) with 1 by lia.
  split; reflexivity.
Qed.

Lemma decrement_frees_a_slot_witness :
  let db := Fixtures.dbWith (Fixtures.sub 2%nat active 5 0 0) in
  outcome (snd (checkListingLimit Fixtures.day (Some 7%nat) db)) = Some (false, 0) /\
  outcome (snd (checkListingLimit Fixtures.day (Some 7%nat)
                  (fst (decrementListingCount (Some 7%nat) db)))) = Some (true, 1).
Proof.
  intros db.
  assert (He : unexpired Fixtures.day (Fixtures.sub 2%nat active 5 0 0)).
  { intros e [= <-]. vm_compute. discriminate. }
  assert (Hpos : 0 < listingsUsed (Fixtures.sub 2%nat active 5 0 0)) by reflexivity.
  exact (proj2 (decrement_frees_a_slot Fixtures.day 7%nat db
                  (mkUser institute (Some (Fixtures.sub 2%nat active 5 0 0)))
                  (Fixtures.sub 2%nat active 5 0 0) Fixtures.instituteSilver
                  eq_refl eq_refl eq_refl eq_refl He Hpos) eq_refl).
Defined.

(** ** Creation gates *)

(** X10. [createJob] and [checkJobPostLimit] agree on a live
    subscription whose plan has a limit of 0 or more: for a user who is
    not an admin, the check allows exactly when [createJob] accepts the
    job.  An accepted job adds exactly 1 to [jobPostsUsed]; a refused one
    (403) leaves the database as it is. *)
Theorem createJob_agrees_with_check now uid db u s plan :
  findUser db uid = Some u -> is_admin (role u) = false ->
  subscription u = Some s -> populatedPlan db s = Some plan ->
  status s = active -> unexpired now s -> 0 <= maxJobPosts (features plan) ->
  (outcome (snd (checkJobPostLimit now (Some uid) db)) =
     Some (true, maxJobPosts (features plan) - jobPostsUsed s) <->
   snd (createJob uid db) = Json 201 tt) /\
  (snd (createJob uid db) = Json 201 tt ->
     option_map jobPostsUsed (subscriptionOf (fst (createJob uid db)) uid)
     = Some (jobPostsUsed s + 1)) /\
  (snd (createJob uid db) <> Json 201 tt ->
     fst (createJob uid db) = db /\
     outcome (snd (checkJobPostLimit now (Some uid) db)) = Some (false, 0)).
Proof.
  intros Hu Hadm Hs Hp Hst He Hmax.
  destruct (checkJobPostLimit_metered now db uid u s plan Hu Hs Hp Hst He) as [msg Hc].
  rewrite Hc. simpl.
  unfold createJob. rewrite Hu. cbv beta iota zeta.
  rewrite (hydrated_Some u s Hs), Hp, Hadm. simpl.
  destruct (Z.eqb_spec (maxJobPosts (features plan)) (-1)) as [Hm1 | _]; [lia |]. simpl.
  unfold JS.max0.
  destruct (Z.leb_spec (maxJobPosts (features plan)) (jobPostsUsed s)) as [Hle | Hgt]; simpl.
  - rewrite Z.max_l by lia. split; [| split].
    + split; [intros [= H _]; discriminate H | discriminate].
    + discriminate.
    + intros _. split; reflexivity.
  - rewrite Z.max_r by lia. split; [| split].
    + split; [reflexivity |]. intros _.
      destruct (Z.ltb_spec 0 (maxJobPosts (features plan) - jobPostsUsed s)); [reflexivity | lia].
    + intros _. rewrite subscriptionOf_saveUser. case_decide; [| congruence].
      simpl. rewrite or_zero_id. reflexivity.
    + intros H. contradiction H. reflexivity.
Qed.

Lemma createJob_agrees_with_check_witness :
  let db := Fixtures.dbWith (Fixtures.sub 2%nat active 0 4 0) in
  outcome (snd (checkJobPostLimit Fixtures.day (Some 7%nat) db)) = Some (true, 1) /\
  snd (createJob 7%nat db) = Json 201 tt /\
  snd (createJob 7%nat (fst (createJob 7%nat db))) <> Json 201 tt.
Proof.
  intros db.
  assert (He : unexpired Fixtures.day (Fixtures.sub 2%nat active 0 4 0)).
  { intros e [= <-]. vm_compute. discriminate. }
  destruct (createJob_agrees_with_check Fixtures.day 7%nat db
              (mkUser institute (Some (Fixtures.sub 2%nat active 0 4 0)))
              (Fixtures.sub 2%nat active 0 4 0) Fixtures.instituteSilver
              eq_refl eq_refl eq_refl eq_refl eq_refl He) as [Hiff _];
    [vm_compute; discriminate |].
  split; [vm_compute; reflexivity |].
  split; [apply Hiff; vm_compute; reflexivity | vm_compute; discriminate].
Defined.

(** X11. The creation gates of [createJob] and [createVehicle]: an admin
    always passes both; a user who is not an admin and has no plan (no
    subscription, or one whose plan reference does not resolve, with
    counters at 0 or more) is refused by both with 403 and nothing
    changes; a plan without [canAdvertiseVehicles] is refused by
    [createVehicle] whatever its listing limit; and a limit of -1 on a
    plan is passed whatever the usage. *)
Theorem creation_gates uid db u :
  findUser db uid = Some u ->
  (is_admin (role u) = true ->
     snd (createJob uid db) = Json 201 tt /\
     snd (createVehicle (Some uid) db) = Json 201 tt) /\
  (is_admin (role u) = false ->
     (subscription u = None \/
      exists s, subscription u = Some s /\ populatedPlan db s = None /\
                0 <= listingsUsed s /\ 0 <= jobPostsUsed s) ->
     (exists msg, createJob uid db = (db, Fail 403 msg)) /\
     (exists msg, createVehicle (Some uid) db = (db, Fail 403 msg))) /\
  (forall s plan,
     is_admin (role u) = false -> subscription u = Some s ->
     populatedPlan db s = Some plan ->
     (canAdvertiseVehicles (features plan) = false ->
        exists msg, createVehicle (Some uid) db = (db, Fail 403 msg)) /\
     (canAdvertiseVehicles (features plan) = true -> maxListings (features plan) = -1 ->
        snd (createVehicle (Some uid) db) = Json 201 tt) /\
     (maxJobPosts (features plan) = -1 -> snd (createJob uid db) = Json 201 tt)).
Proof.
  intros Hu. split; [| split].
  - intros Hadm. unfold createJob, createVehicle, hydrated. rewrite Hu, Hadm. simpl.
    destruct (subscription u); split; reflexivity.
  - intros Hadm [Hnone | [s [Hs [Hp [Hl Hj]]]]];
      unfold createJob, createVehicle, hydrated; rewrite Hu, Hadm.
    + rewrite Hnone. simpl. split; eexists; reflexivity.
    + rewrite Hs. simpl. rewrite Hp. simpl.
      rewrite (proj2 (Z.leb_le 0 (jobPostsUsed s)) Hj).
      rewrite (proj2 (Z.leb_le 0 (listingsUsed s)) Hl).
      split; eexists; reflexivity.
  - intros s plan Hadm Hs Hp. unfold createJob, createVehicle, hydrated.
    rewrite Hu, Hadm, Hs. simpl. rewrite Hp. simpl. split; [| split].
    + intros ->. simpl. eexists. reflexivity.
    + intros -> ->. reflexivity.
    + intros ->. reflexivity.
Qed.

Lemma creation_gates_witness :
  let db := Fixtures.dbWith (Fixtures.sub 1%nat active 0 0 0) in
  snd (createVehicle (Some 9%nat) db) = Json 201 tt /\
  (exists msg, createJob 8%nat db = (db, Fail 403 msg)) /\
  (exists msg, createVehicle (Some 7%nat) db = (db, Fail 403 msg)) /\
  snd (createJob 7%nat (Fixtures.dbWith (Fixtures.sub 4%nat active 0 500 0))) = Json 201 tt.
Proof.
  intros db.
  destruct (creation_gates 9%nat db (mkUser admin None) eq_refl) as [Hadmin _].
  destruct (creation_gates 8%nat db (mkUser institute None) eq_refl) as [_ [Hnone _]].
  destruct (creation_gates 7%nat db (mkUser institute (Some (Fixtures.sub 1%nat active 0 0 0)))
              eq_refl) as [_ [_ Hplan]].
  destruct (creation_gates 7%nat (Fixtures.dbWith (Fixtures.sub 4%nat active 0 500 0))
              (mkUser institute (Some (Fixtures.sub 4%nat active 0 500 0))) eq_refl)
    as [_ [_ Hunl]].
  split; [exact (proj2 (Hadmin eq_refl)) |].
  split; [exact (proj1 (Hnone eq_refl (or_introl eq_refl))) |].
  split.
  - exact (proj1 (Hplan _ Fixtures.instituteFree eq_refl eq_refl eq_refl) eq_refl).
  - exact (proj2 (proj2 (Hunl _ Fixtures.unlimitedJobs eq_refl eq_refl eq_refl)) eq_refl).
Defined.

(** ** Persona access checks *)

(** X12. Persona gating does not depend on quota: a user whose role is
    not 'institute' is denied vehicle-listing and job-post access, one
    whose role is not 'teacher' is denied job-application access, and,
    'vendor' not being a role the user schema admits, product-listing
    access is denied to every stored user; each of these denials carries
    a reason, and no [requiresUpgrade] or [limitReached] flag. *)
Theorem persona_gating uid db u :
  findUser db uid = Some u ->
  let roleDenial (r : Persona.AccessResult) :=
    Persona.allowed r = false /\ Persona.reason r <> None /\
    Persona.requiresUpgrade r = None /\ Persona.limitReached r = None in
  (role u <> institute ->
     roleDenial (Persona.checkVehicleListingAccess uid db) /\
     roleDenial (Persona.checkJobPostAccess uid db)) /\
  (role u <> teacher -> roleDenial (Persona.checkJobApplicationAccess uid db)) /\
  roleDenial (Persona.checkProductListingAccess uid db).
Proof.
  intros Hu roleDenial. subst roleDenial.
  unfold Persona.checkVehicleListingAccess, Persona.checkJobPostAccess,
    Persona.checkJobApplicationAccess, Persona.checkProductListingAccess.
  rewrite Hu.
  destruct (role u); simpl; repeat split; try discriminate; try congruence;
    intros; try congruence.
Qed.

Lemma persona_gating_witness :
  let db := Fixtures.dbWith (Fixtures.sub 3%nat active 0 0 0) in
  Persona.checkJobApplicationAccess 7%nat db =
    Persona.mkAccessResult false (Some "Only teachers can apply to jobs") None None None
      (Some "Switch to a teacher account to apply for jobs") /\
  Persona.allowed (Persona.checkProductListingAccess 7%nat db) = false /\
  Persona.allowed (Persona.checkVehicleListingAccess 9%nat db) = false.
Proof.
  intros db.
  destruct (persona_gating 7%nat db (mkUser institute (Some (Fixtures.sub 3%nat active 0 0 0)))
              eq_refl) as [_ [Hteacher Hproduct]].
  destruct (persona_gating 9%nat db (mkUser admin None) eq_refl) as [Hinst _].
  split; [reflexivity |].
  split; [exact (proj1 Hproduct) |].
  assert (Hne : admin <> institute) by discriminate.
  exact (proj1 (proj1 (Hinst Hne))).
Defined.

Lemma vehicle_access_formula uid db u s :
  findUser db uid = Some u -> role u = institute -> subscription u = Some s ->
  Persona.checkVehicleListingAccess uid db =
    if negb (status_eqb (status s) active) then
      Persona.noActiveSubscription "Subscribe to a plan to create vehicle listings"
    else if listingsLimit s - listingsUsed s <=? 0 then
      Persona.mkAccessResult false (Some "Vehicle listing limit reached") (Some true) (Some 0)
        (Some true) (Some "Upgrade your plan to create more vehicle listings")
    else Persona.mkAccessResult true None None (Some (listingsLimit s - listingsUsed s))
           None None.
Proof.
  intros Hu Hr Hs. unfold Persona.checkVehicleListingAccess. rewrite Hu, Hr, Hs. simpl.
  destruct (negb (status_eqb (status s) active)); [reflexivity |].
  rewrite !or_zero_id. unfold JS.max0.
  destruct (Z.leb_spec (listingsLimit s - listingsUsed s) 0) as [Hle | Hgt].
  - rewrite Z.max_l by lia. reflexivity.
  - rewrite Z.max_r by lia.
    destruct (Z.leb_spec (listingsLimit s - listingsUsed s) 0); [lia | reflexivity].
Qed.

(** X13. [checkVehicleListingAccess] meters an institute against the
    snapshot stored in its subscription: access is granted exactly when
    the status is 'active' and [listingsUsed < listingsLimit], with
    [remaining = listingsLimit - listingsUsed]; [endDate] is not looked
    at, and no change to the plan catalog (an [updatePlan], a
    [togglePlanStatus]) changes the answer. *)
Theorem vehicle_access_uses_snapshot uid db u s :
  findUser db uid = Some u -> role u = institute -> subscription u = Some s ->
  (Persona.allowed (Persona.checkVehicleListingAccess uid db) = true <->
   status s = active /\ listingsUsed s < listingsLimit s) /\
  (Persona.allowed (Persona.checkVehicleListingAccess uid db) = true ->
   Persona.remaining (Persona.checkVehicleListingAccess uid db)
   = Some (listingsLimit s - listingsUsed s)) /\
  (forall db', users db' = users db ->
     Persona.checkVehicleListingAccess uid db' = Persona.checkVehicleListingAccess uid db).
Proof.
  intros Hu Hr Hs.
  rewrite (vehicle_access_formula uid db u s Hu Hr Hs).
  split; [| split].
  - destruct (status_eqb_spec (status s) active) as [Hst | Hst]; simpl.
    + destruct (Z.leb_spec (listingsLimit s - listingsUsed s) 0) as [Hle | Hgt]; simpl.
      * split; [discriminate | intros [_ Hlt]; lia].
      * split; [intros _; split; [exact Hst | lia] | reflexivity].
    + split; [discriminate | intros [Hact _]; contradiction].
  - destruct (negb (status_eqb (status s) active)); simpl; [discriminate |].
    destruct (listingsLimit s - listingsUsed s <=? 0); simpl; [discriminate | reflexivity].
  - intros db' Husers.
    assert (Hu' : findUser db' uid = Some u) by (unfold findUser; rewrite Husers; exact Hu).
    apply (vehicle_access_formula uid db' u s Hu' Hr Hs).
Qed.

Lemma vehicle_access_uses_snapshot_witness :
  let s := Fixtures.sub 2%nat active 4 0 0 in
  let db := Fixtures.dbWith s in
  let patch := mkPlanPatch None None None
                 (Some (mkFeatures 0 0 0 5 7 false false false false false)) None in
  Persona.checkVehicleListingAccess 7%nat db =
    Persona.mkAccessResult true None None (Some 1) None None /\
  Persona.checkVehicleListingAccess 7%nat (fst (updatePlan 2%nat patch db)) =
    Persona.checkVehicleListingAccess 7%nat db /\
  outcome (snd (checkListingLimit Fixtures.day (Some 7%nat) (fst (updatePlan 2%nat patch db))))
   = Some (false, 0).
Proof.
  intros s db patch.
  destruct (vehicle_access_uses_snapshot 7%nat db (mkUser institute (Some s)) s
              eq_refl eq_refl eq_refl) as [_ [_ Hframe]].
  split; [reflexivity |].
  split; [apply Hframe; reflexivity | vm_compute; reflexivity].
Defined.

(** X14. [checkJobApplicationAccess] depends on the role and the status
    only: it grants access exactly to a teacher whose subscription is
    'active', always with [remaining: 5], whatever plan the subscription
    refers to and whether or not [endDate] has passed. *)
Theorem job_application_access uid db u :
  findUser db uid = Some u ->
  (Persona.allowed (Persona.checkJobApplicationAccess uid db) = true <->
   role u = teacher /\ exists s, subscription u = Some s /\ status s = active) /\
  (Persona.allowed (Persona.checkJobApplicationAccess uid db) = true ->
   Persona.checkJobApplicationAccess uid db =
     Persona.mkAccessResult true None None (Some 5) None None).
Proof.
  intros Hu. unfold Persona.checkJobApplicationAccess. rewrite Hu.
  destruct (role u) eqn:Hr; simpl;
    try (split; [split; [discriminate | intros [H _]; discriminate H] | discriminate]).
  destruct (subscription u) as [s |]; simpl.
  - destruct (status_eqb_spec (status s) active) as [Hst | Hst]; simpl.
    + split; [| reflexivity]. split; [| reflexivity].
      intros _. split; [reflexivity | exists s; split; [reflexivity | exact Hst]].
    + split; [| discriminate]. split; [discriminate |].
      intros [_ [s' [[= <-] Hst']]]. contradiction.
  - split; [| discriminate]. split; [discriminate |].
    intros [_ [s' [Hs' _]]]. discriminate Hs'.
Qed.

Lemma job_application_access_witness :
  let db := mkDb Fixtures.catalog
              {[ 5%nat := mkUser teacher (Some (Fixtures.sub 1%nat active 0 0 0)) ]} [] in
  Persona.checkJobApplicationAccess 5%nat db =
    Persona.mkAccessResult true None None (Some 5) None None.
Proof.
  intros db.
  destruct (job_application_access 5%nat db
              (mkUser teacher (Some (Fixtures.sub 1%nat active 0 0 0))) eq_refl)
    as [Hiff Hres].
  apply Hres. apply Hiff. split; [reflexivity |].
  exists (Fixtures.sub 1%nat active 0 0 0). split; reflexivity.
Defined.

(** ** Change requests, continued *)

Lemma find_saved id r r' (l : list SubscriptionRequest) :
  find (fun x => Nat.eqb (req_id x) id) l = Some r -> req_id r' = id ->
  find (fun x => Nat.eqb (req_id x) id)
       (map (fun r0 => if Nat.eqb (req_id r0) (req_id r') then r' else r0) l) = Some r'.
Proof.
  intros Hfind Hid. subst id. induction l as [| x l IH]; simpl in *; [discriminate |].
  destruct (Nat.eqb_spec (req_id x) (req_id r')) as [Heq | Hne].
  - simpl. rewrite Nat.eqb_refl. reflexivity.
  - simpl. destruct (Nat.eqb_spec (req_id x) (req_id r')); [contradiction |].
    apply IH. exact Hfind.
Qed.

Lemma update_catalog_and_users now id st notes db :
  plans (fst (updateSubscriptionRequest now id st notes db)) = plans db /\
  (forall uid u, findUser db uid = Some u ->
     exists u', findUser (fst (updateSubscriptionRequest now id st notes db)) uid = Some u') /\
  (String.eqb st "approved" = false ->
     users (fst (updateSubscriptionRequest now id st notes db)) = users db).
Proof.
  destruct (findRequest db id) as [request |] eqn:Hfind;
    [| unfold updateSubscriptionRequest; rewrite Hfind; repeat split; eauto].
  destruct (is_pending request) eqn:Hpend;
    [| unfold updateSubscriptionRequest; rewrite Hfind, Hpend; repeat split; eauto].
  destruct (update_cases now id st notes db request Hfind Hpend)
    as [-> | [db1 [Hreqs [Hplans [Hdb1 ->]]]]]; [repeat split; eauto |].
  assert (Hkeep : forall uid u, findUser db uid = Some u ->
                    exists u', findUser db1 uid = Some u').
  { intros uid u Hfu. destruct Hdb1 as [-> | [user [s' [_ [_ ->]]]]]; [eauto |].
    unfold findUser in *. simpl. rewrite lookup_insert. case_decide; eauto. }
  assert (Hsame : String.eqb st "approved" = false -> users db1 = users db).
  { intros Hna. destruct Hdb1 as [-> | [user [s' [-> _]]]]; [reflexivity | discriminate Hna]. }
  destruct (requestStatus_of_string st); simpl; repeat split; assumption.
Qed.

(** An update of a pending request to a status of the schema succeeds
    when, for an approval, the end date can be stamped. *)
Lemma update_succeeds now id st notes db r rs :
  findRequest db id = Some r -> is_pending r = true ->
  requestStatus_of_string st = Some rs ->
  (st = "approved" -> approvable now db r) ->
  exists dbu,
    requests dbu = requests db /\
    updateSubscriptionRequest now id st notes db =
      (saveRequest (mkRequest (req_id r) (req_userId r) (currentPlanId r) (requestedPlanId r)
                      (requestType r) rs notes (userNotes r) (Some now)) dbu,
       Json 200 (mkRequest (req_id r) (req_userId r) (currentPlanId r) (requestedPlanId r)
                   (requestType r) rs notes (userNotes r) (Some now))).
Proof.
  intros Hfind Hpend Hrs Hfit. unfold updateSubscriptionRequest.
  rewrite Hfind, Hpend. simpl.
  destruct (String.eqb_spec st "approved") as [Happ | Happ];
    [| rewrite Hrs; eexists; split; reflexivity].
  destruct (findUser db (req_userId r)) as [user |];
    [| rewrite Hrs; eexists; split; reflexivity].
  destruct (findPlan db (requestedPlanId r)) as [plan |] eqn:Hp;
    [| rewrite Hrs; eexists; split; reflexivity].
  rewrite (Hfit Happ plan Hp). simpl. rewrite Hrs.
  eexists. split; [| reflexivity]. reflexivity.
Qed.



Lemma single_match {A} (f : A -> bool) (l : list A) x y :
  (length (List.filter f l) <= 1)%nat -> In x l -> f x = true -> In y l -> f y = true ->
  x = y.
Proof.
  induction l as [| z l IH]; simpl; intros Hlen Hx Hfx Hy Hfy; [contradiction |].
  destruct (f z) eqn:Hfz; simpl in Hlen.
  - assert (Hnil : List.filter f l = []).
    { destruct (List.filter f l); [reflexivity | simpl in Hlen; lia]. }
    assert (Hnone : forall w, In w l -> f w = true -> False).
    { intros w Hw Hfw.
      assert (Hin : In w (List.filter f l)) by (apply filter_In; split; assumption).
      rewrite Hnil in Hin. exact Hin. }
    destruct Hx as [-> | Hx]; [| exfalso; eauto].
    destruct Hy as [-> | Hy]; [reflexivity | exfalso; eauto].
  - destruct Hx as [-> | Hx]; [congruence |].
    destruct Hy as [-> | Hy]; [congruence |].
    apply IH; assumption.
Qed.

(** X16. Processing a request frees the user to file the next one: in a
    collection with unique ids and at most one pending request per user,
    once a user's pending request has been approved or rejected, a new
    [createSubscriptionRequest] by that user for an existing plan with a
    valid request type is accepted (201), and the new request is pending,
    names the requested plan, and names as current plan the plan of the
    user's subscription.  (An approval sets the request when it can
    stamp the end date of the subscription; otherwise the update fails
    and the request stays pending.) *)
Theorem processing_frees_the_requester now id st notes db r u requested plan ty userNote :
  one_pending db ->
  findRequest db id = Some r -> is_pending r = true ->
  st = "approved" \/ st = "rejected" ->
  (st = "approved" -> approvable now db r) ->
  findUser db (req_userId r) = Some u -> findPlan db requested = Some plan ->
  ty = "upgrade" \/ ty = "downgrade" \/ ty = "renewal" ->
  let db1 := fst (updateSubscriptionRequest now id st notes db) in
  exists r2 u1,
    findUser db1 (req_userId r) = Some u1 /\
    snd (createSubscriptionRequest (Some (req_userId r)) requested ty userNote db1)
    = Json 201 r2 /\
    req_status r2 = req_pending /\ req_userId r2 = req_userId r /\
    requestedPlanId r2 = requested /\
    currentPlanId r2 =
      default requested (match subscription u1 with Some s => planId s | None => None end).
Proof.
  intros [Hnd Hcnt] Hfind Hpend Hst Hfit Hu Hp Hty db1.
  destruct (update_catalog_and_users now id st notes db) as [Hplans [Hkeep _]].
  destruct (Hkeep _ _ Hu) as [u1 Hu1]. fold db1 in Hu1, Hplans.
  assert (Hin : In r (requests db) /\ req_id r = id).
  { unfold findRequest in Hfind. apply find_some in Hfind. destruct Hfind as [Hi H].
    apply Nat.eqb_eq in H. split; assumption. }
  destruct Hin as [Hin Hid].
  assert (Hparse : exists rs, requestStatus_of_string st = Some rs /\ rs <> req_pending).
  { destruct Hst as [-> | ->]; eexists; split; try reflexivity; discriminate. }
  destruct Hparse as [rs [Hrs Hnp]].
  set (r1 := mkRequest (req_id r) (req_userId r) (currentPlanId r) (requestedPlanId r)
               (requestType r) rs notes (userNotes r) (Some now)).
  assert (Hreqs1 : requests db1 =
            map (fun r0 => if Nat.eqb (req_id r0) (req_id r1) then r1 else r0) (requests db)).
  { subst db1.
    destruct (update_succeeds now id st notes db r rs Hfind Hpend Hrs Hfit)
      as [dbu [Hreqs Hupd]].
    rewrite Hupd. simpl. rewrite Hreqs. reflexivity. }
  assert (Hnone : findPending db1 (req_userId r) = None).
  { unfold findPending. rewrite Hreqs1.
    destruct (find _ _) as [y |] eqn:Hy; [| reflexivity]. exfalso.
    apply find_some in Hy. destruct Hy as [Hyin Hyp].
    apply in_map_iff in Hyin. destruct Hyin as [x [Hx Hxin]].
    destruct (Nat.eqb_spec (req_id x) (req_id r1)) as [Heq | Hne].
    - subst y. unfold is_pending in Hyp. simpl in Hyp.
      destruct rs; [contradiction | |]; rewrite andb_false_r in Hyp; discriminate.
    - subst y.
      assert (x = r).
      { apply (single_match
                 (fun r0 => Nat.eqb (req_userId r0) (req_userId r) && is_pending r0)
                 (requests db)); try assumption.
        - apply (Hcnt (req_userId r)).
        - rewrite Nat.eqb_refl, Hpend. reflexivity. }
      subst x. apply Hne. reflexivity. }
  assert (Hp1 : findPlan db1 requested = Some plan).
  { unfold findPlan. rewrite Hplans. exact Hp. }
  assert (Htype : exists t, requestType_of_string ty = Some t).
  { destruct Hty as [-> | [-> | ->]]; eexists; reflexivity. }
  destruct Htype as [t Ht].
  unfold createSubscriptionRequest. rewrite Hu1, Hp1, Hnone, Ht. simpl.
  eexists. exists u1. repeat split.
Qed.

Lemma processing_frees_the_requester_witness :
  let db1 := fst (updateSubscriptionRequest 5 1%nat "approved" None Fixtures.dbPending) in
  exists r2,
    snd (createSubscriptionRequest (Some 7%nat) 3%nat "upgrade" None db1) = Json 201 r2 /\
    currentPlanId r2 = 2%nat /\ req_id r2 = 2%nat.
Proof.
  intros db1.
  assert (Hinv : one_pending Fixtures.dbPending).
  { split.
    - apply NoDup_cons. split; [intros H; inversion H | apply NoDup_nil_2].
    - intros uid. unfold pendingCount. cbn [requests Fixtures.dbPending List.filter].
      match goal with
      | |- context [if ?c then _ else _] => destruct c
      end; simpl; lia. }
  destruct (processing_frees_the_requester 5 1%nat "approved" None Fixtures.dbPending
              Fixtures.pendingRequest
              (mkUser institute (Some (Fixtures.sub 1%nat active 0 0 0)))
              3%nat Fixtures.instituteElite "upgrade" None
              Hinv eq_refl eq_refl (or_introl eq_refl))
    as [r2 [u1 [_ [Hcreate _]]]];
    [intros _ plan [= <-]; reflexivity | reflexivity | reflexivity
    | left; reflexivity |].
  exists r2. split; [exact Hcreate |].
  vm_compute in Hcreate. injection Hcreate as <-. split; reflexivity.
Defined.

(** ** Plan catalog *)

(** The limit checks read nothing of a plan but its features. *)
Lemma outcomes_features_only now uid db db1 :
  users db1 = users db ->
  (forall s, option_map features (populatedPlan db1 s)
             = option_map features (populatedPlan db s)) ->
  outcomes now uid db1 = outcomes now uid db.
Proof.
  intros Husers Hfeat.
  assert (Hfind : findUser db1 uid = findUser db uid) by (unfold findUser; congruence).
  unfold outcomes. f_equal; [f_equal |].
  - unfold checkListingLimit. rewrite Hfind.
    destruct (findUser db uid) as [u |]; [| reflexivity].
    destruct (subscription u) as [s |]; [| reflexivity].
    specialize (Hfeat s).
    destruct (populatedPlan db1 s) as [p1 |], (populatedPlan db s) as [p |];
      simpl in Hfeat; try discriminate; [| reflexivity].
    injection Hfeat as ->.
    destruct (negb (status_eqb (status s) active)); [reflexivity |].
    destruct (default now (endDate s) <? now); reflexivity.
  - unfold checkJobPostLimit. rewrite Hfind.
    destruct (findUser db uid) as [u |]; [| reflexivity].
    destruct (subscription u) as [s |]; [| reflexivity].
    specialize (Hfeat s).
    destruct (populatedPlan db1 s) as [p1 |], (populatedPlan db s) as [p |];
      simpl in Hfeat; try discriminate; [| reflexivity].
    injection Hfeat as ->.
    destruct (negb (status_eqb (status s) active)); [reflexivity |].
    destruct (default now (endDate s) <? now); reflexivity.
  - unfold checkBrowseLimit. rewrite Hfind.
    destruct (findUser db uid) as [u |]; [| reflexivity].
    destruct (checkAndResetBillingPeriod_cases now uid u db) as [Hc | [s0 [Hs0 Hc]]];
      destruct (checkAndResetBillingPeriod_cases now uid u db1) as [Hc1 | [s1 [Hs1 Hc1]]];
      rewrite Hc, Hc1; simpl.
    + destruct (subscription u) as [s |]; [| reflexivity].
      specialize (Hfeat s).
      destruct (populatedPlan db1 s) as [p1 |], (populatedPlan db s) as [p |];
        simpl in Hfeat; try discriminate; [| reflexivity].
      injection Hfeat as ->.
      destruct (negb (status_eqb (status s) active)); [reflexivity |].
      destruct (default now (endDate s) <? now); reflexivity.
    + exfalso. unfold checkAndResetBillingPeriod in Hc, Hc1. rewrite Hs1 in Hc, Hc1.
      destruct (lastBrowseReset s1); [| discriminate].
      destruct (30 <=? _); discriminate.
    + exfalso. unfold checkAndResetBillingPeriod in Hc, Hc1. rewrite Hs0 in Hc, Hc1.
      destruct (lastBrowseReset s0); [| discriminate].
      destruct (30 <=? _); discriminate.
    + assert (s1 = s0) by congruence. subst s1.
      specialize (Hfeat (rollover now s0)).
      destruct (populatedPlan db1 (rollover now s0)) as [p1 |],
               (populatedPlan db (rollover now s0)) as [p |];
        simpl in Hfeat; try discriminate; [| reflexivity].
      injection Hfeat as ->.
      destruct (negb (status_eqb (status s0) active)); [reflexivity |].
      destruct (default now (endDate s0) <? now); reflexivity.
Qed.

(** X17. Deactivating a plan is soft: [togglePlanStatus] flips
    [isActive] and nothing else, so users and requests are untouched,
    every subscriber's three limit checks give the outcomes they gave
    before, and a second toggle brings [isActive] back. *)
Theorem togglePlanStatus_is_soft id db pl :
  findPlan db id = Some pl ->
  let db1 := fst (togglePlanStatus id db) in
  option_map isActive (findPlan db1 id) = Some (negb (isActive pl)) /\
  option_map features (findPlan db1 id) = Some (features pl) /\
  users db1 = users db /\ requests db1 = requests db /\
  (forall now uid, outcomes now uid db1 = outcomes now uid db) /\
  option_map isActive (findPlan (fst (togglePlanStatus id db1)) id) = Some (isActive pl).
Proof.
  intros Hp db1.
  set (pl' := mkPlan (name pl) (displayName pl) (planType pl) (price pl) (duration pl)
                (features pl) (negb (isActive pl))).
  assert (Hdb1 : db1 = mkDb (<[id := pl']> (plans db)) (users db) (requests db)).
  { subst db1. unfold togglePlanStatus. rewrite Hp. reflexivity. }
  assert (Hp1 : findPlan db1 id = Some pl').
  { rewrite Hdb1. unfold findPlan. simpl. apply lookup_insert_eq. }
  split; [rewrite Hp1; reflexivity |].
  split; [rewrite Hp1; reflexivity |].
  split; [rewrite Hdb1; reflexivity |].
  split; [rewrite Hdb1; reflexivity |].
  split.
  - intros now uid. apply outcomes_features_only; [rewrite Hdb1; reflexivity |].
    intros s. unfold populatedPlan. destruct (planId s) as [pid |]; [| reflexivity].
    rewrite Hdb1. unfold findPlan. simpl. rewrite lookup_insert.
    case_decide; [subst pid | reflexivity].
    unfold findPlan in Hp. rewrite Hp. reflexivity.
  - unfold togglePlanStatus. rewrite Hp1. simpl. unfold findPlan. simpl.
    rewrite lookup_insert_eq. simpl. rewrite negb_involutive. reflexivity.
Qed.

Lemma togglePlanStatus_is_soft_witness :
  let db := Fixtures.dbWith (Fixtures.sub 2%nat active 3 1 4) in
  let db1 := fst (togglePlanStatus 2%nat db) in
  option_map isActive (findPlan db1 2%nat) = Some false /\
  outcomes Fixtures.day 7%nat db1 = outcomes Fixtures.day 7%nat db /\
  option_map isActive (findPlan (fst (togglePlanStatus 2%nat db1)) 2%nat) = Some true.
Proof.
  intros db db1.
  destruct (togglePlanStatus_is_soft 2%nat db Fixtures.instituteSilver eq_refl)
    as [Hact [_ [_ [_ [Hout Hback]]]]].
  split; [exact Hact |]. split; [apply Hout | exact Hback].
Defined.

(** ** Lazy assignment of the free plan *)

Lemma findFreePlan_spec db pt pid plan :
  findFreePlan db pt = Some (pid, plan) ->
  findPlan db pid = Some plan /\ planType plan = pt /\ price plan = 0 /\ isActive plan = true.
Proof.
  unfold findFreePlan. intros H. apply find_some in H. destruct H as [Hin Hok].
  simpl in Hok. apply andb_true_iff in Hok. destruct Hok as [Hok Hact].
  apply andb_true_iff in Hok. destruct Hok as [Hty Hprice].
  split; [| split; [| split]].
  - unfold findPlan. apply elem_of_map_to_list. apply list_elem_of_In. exact Hin.
  - destruct (planType plan), pt; simpl in Hty; congruence.
  - apply Z.eqb_eq. exact Hprice.
  - exact Hact.
Qed.

Lemma metered_fresh now pid plan :
  metered now plan (freeSubscription now pid plan) = fullQuota plan.
Proof.
  unfold metered, fullQuota, rolled. simpl.
  rewrite Z.sub_diag. change (0 / JS.msPerDay) with 0. simpl.
  rewrite !Z.sub_0_r. reflexivity.
Qed.

(** X18. Lazy assignment in [getUserSubscription]: a user whose plan
    reference resolves is answered from the stored record and nothing is
    written; a user with no subscription (or no resolving plan
    reference) for whom a free plan is found, [now] plus the plan's
    duration being a valid [Date], is granted exactly that plan, which
    is active, costs 0 and has the plan type of the user's role, with
    status 'active', payment 'completed', counters at 0 and the plan's
    limits; a second call then writes nothing more, and the three limit
    checks meter the full quota of the free plan.  When the end date
    would not be a valid [Date] the save fails: the answer is 500 and
    nothing is written.  With no resolving plan reference and no free
    plan nothing is written either, and the answer is the subscription
    the handler reads (the defaults of the schema for a user without
    stored subscription) under the plan name 'Unknown Plan'. *)
Theorem lazy_assignment now uid db u :
  findUser db uid = Some u ->
  (forall s plan, subscription u = Some s -> populatedPlan db s = Some plan ->
     getUserSubscription now uid db
     = (db, Json 200 (mkSubscriptionView s (planNameOf (Some plan))))) /\
  (forall pid plan,
     unsubscribed db u -> findFreePlan db (planTypeFor (role u)) = Some (pid, plan) ->
     0 <= duration plan ->
     (JS.validTime (JS.addDays now (duration plan)) = true ->
      let db1 := fst (getUserSubscription now uid db) in
      let s1 := freeSubscription now pid plan in
      (findPlan db pid = Some plan /\ price plan = 0 /\ isActive plan = true /\
       planType plan = planTypeFor (role u)) /\
      subscriptionOf db1 uid = Some s1 /\
      snd (getUserSubscription now uid db)
      = Json 200 (mkSubscriptionView s1 (planNameOf (Some plan))) /\
      getUserSubscription now uid db1
      = (db1, Json 200 (mkSubscriptionView s1 (planNameOf (Some plan)))) /\
      outcomes now uid db1 = fullQuota plan) /\
     (JS.validTime (JS.addDays now (duration plan)) = false ->
      exists e, getUserSubscription now uid db = (db, Fail 500 e))) /\
  (unsubscribed db u -> findFreePlan db (planTypeFor (role u)) = None ->
     getUserSubscription now uid db
     = (db, Json 200 (mkSubscriptionView (hydrated u) "Unknown Plan"))).
Proof.
  intros Hu.
  assert (Hun : unsubscribed db u -> populatedPlan db (hydrated u) = None).
  { intros [Hnone | [s [Hs Hp]]]; unfold hydrated; [rewrite Hnone | rewrite Hs];
      [reflexivity | exact Hp]. }
  split; [| split].
  - intros s plan Hs Hp. unfold getUserSubscription. rewrite Hu. cbv beta iota zeta.
    rewrite (hydrated_Some u s Hs), Hp. cbv beta iota zeta.
    rewrite (hydrated_Some u s Hs), Hp. reflexivity.
  - intros pid plan Hnone Hfree Hdur.
    destruct (findFreePlan_spec _ _ _ _ Hfree) as [Hplan [Hty [Hprice Hact]]].
    split.
    + intros Hfit db1 s1.
      assert (Hget : getUserSubscription now uid db =
                     (saveUser uid (set_subscription (Some s1) u) db,
                      Json 200 (mkSubscriptionView s1 (planNameOf (Some plan))))).
      { unfold getUserSubscription. rewrite Hu. cbv beta iota zeta.
        rewrite (Hun Hnone), Hfree. cbv beta iota zeta. rewrite Hfit. simpl.
        unfold populatedPlan, findPlan in *. simpl. rewrite Hplan. reflexivity. }
      assert (Hdb1 : db1 = saveUser uid (set_subscription (Some s1) u) db)
        by (subst db1; rewrite Hget; reflexivity).
      assert (Hu1 : findUser db1 uid = Some (set_subscription (Some s1) u))
        by (rewrite Hdb1; apply findUser_saveUser_eq).
      assert (Hp1 : populatedPlan db1 s1 = Some plan) by (rewrite Hdb1; exact Hplan).
      split; [repeat split; assumption |].
      split; [unfold subscriptionOf; rewrite Hu1; reflexivity |].
      split; [rewrite Hget; reflexivity |].
      split.
      * unfold getUserSubscription. rewrite Hu1. cbv beta iota zeta.
        change (hydrated (set_subscription (Some s1) u)) with s1.
        rewrite Hp1. cbv beta iota zeta.
        change (hydrated (set_subscription (Some s1) u)) with s1.
        rewrite Hp1. reflexivity.
      * assert (He : unexpired now s1).
        { intros e [= <-]. unfold JS.addDays. unfold JS.msPerDay. lia. }
        rewrite (outcomes_metered now db1 uid _ s1 plan Hu1 eq_refl Hp1 eq_refl He).
        apply metered_fresh.
    + intros Hfit. unfold getUserSubscription. rewrite Hu. cbv beta iota zeta.
      rewrite (Hun Hnone), Hfree. cbv beta iota zeta. rewrite Hfit. simpl.
      eexists. reflexivity.
  - intros Hnone Hfree. unfold getUserSubscription. rewrite Hu. cbv beta iota zeta.
    rewrite (Hun Hnone), Hfree. cbv beta iota zeta. rewrite (Hun Hnone). reflexivity.
Qed.

Lemma lazy_assignment_witness :
  let db := Fixtures.dbWith (Fixtures.sub 2%nat active 0 0 0) in
  let db1 := fst (getUserSubscription Fixtures.day 8%nat db) in
  subscriptionOf db1 8%nat
  = Some (freeSubscription Fixtures.day 1%nat Fixtures.instituteFree) /\
  outcomes Fixtures.day 8%nat db1 = (Some (false, 0), Some (true, 1), Some (true, 10)) /\
  fst (getUserSubscription Fixtures.day 7%nat db) = db /\
  getUserSubscription Fixtures.day 5%nat staffDb =
    (staffDb, Json 200 (mkSubscriptionView defaults "Unknown Plan")).
Proof.
  intros db db1.
  destruct (lazy_assignment Fixtures.day 8%nat db (mkUser institute None) eq_refl)
    as [_ [Hlazy _]].
  destruct (lazy_assignment Fixtures.day 7%nat db
              (mkUser institute (Some (Fixtures.sub 2%nat active 0 0 0))) eq_refl)
    as [Hkeep _].
  destruct (lazy_assignment Fixtures.day 5%nat staffDb (mkUser teacher None) eq_refl)
    as [_ [_ Hnothing]].
  assert (Hfree : findFreePlan db (planTypeFor institute) = Some (1%nat, Fixtures.instituteFree))
    by (vm_compute; reflexivity).
  assert (Hdur : 0 <= duration Fixtures.instituteFree) by (vm_compute; discriminate).
  destruct (proj1 (Hlazy 1%nat Fixtures.instituteFree (or_introl eq_refl) Hfree Hdur) eq_refl)
    as [_ [Hsub [_ [_ Hout]]]].
  split; [exact Hsub |].
  split; [etransitivity; [exact Hout | vm_compute; reflexivity] |].
  split; [rewrite (Hkeep _ Fixtures.instituteSilver eq_refl eq_refl); reflexivity |].
  apply Hnothing; [left; reflexivity | vm_compute; reflexivity].
Defined.

(** ** Assignment and custom limits *)

(** X19. [assignSubscription] with a duration of 0 days or more for
    which [now] plus the duration is a valid [Date] replaces whatever
    record the user had by an active one with all three counters at 0; a
    custom listing or browse limit (when given and not 0) is what the
    snapshot fields store, the plan's limit otherwise.  The three limit
    checks that follow meter the plan's full quota, custom limits or
    not, whereas [checkVehicleListingAccess] of an institute grants the
    snapshot, that is the custom limit.  With a duration that takes the
    end date out of the range of a [Date] the save fails: the answer is
    400 and the database stays as it was. *)
Theorem assignment_and_custom_limits now uid pid days custL custB notes db u plan :
  findUser db uid = Some u -> findPlan db pid = Some plan -> 0 <= days ->
  (JS.validTime (JS.addDays now days) = true ->
   let db1 := fst (assignSubscription now uid pid days custL custB notes db) in
   exists s1,
     subscriptionOf db1 uid = Some s1 /\
     status s1 = active /\ usage s1 = (0, 0, 0) /\
     endDate s1 = Some (JS.addDays now days) /\
     limits s1 = (num_or custL (maxListings (features plan)),
                  maxJobPosts (features plan),
                  num_or custB (maxBrowsesPerMonth (features plan))) /\
     outcomes now uid db1 = fullQuota plan /\
     (role u = institute -> 0 < listingsLimit s1 ->
        Persona.checkVehicleListingAccess uid db1 =
          Persona.mkAccessResult true None None (Some (listingsLimit s1)) None None)) /\
  (JS.validTime (JS.addDays now days) = false ->
   exists e, assignSubscription now uid pid days custL custB notes db = (db, Fail 400 e)).
Proof.
  intros Hu Hp Hdays. split; intros Hfit.
  - intros db1. subst db1. unfold assignSubscription. rewrite Hu, Hp. cbv beta iota zeta.
    rewrite Hfit. cbn [negb fst].
    match goal with
    | |- context [saveUser uid (set_subscription (Some ?x) u) db] => set (s1 := x)
    end.
    set (u1 := set_subscription (Some s1) u).
    assert (Hu1 : findUser (saveUser uid u1 db) uid = Some u1) by apply findUser_saveUser_eq.
    exists s1. split; [unfold subscriptionOf; rewrite Hu1; reflexivity |].
    split; [reflexivity |]. split; [reflexivity |]. split; [reflexivity |].
    split; [reflexivity |]. split.
    + assert (He : unexpired now s1).
      { intros e [= <-]. unfold JS.addDays, JS.msPerDay. lia. }
      rewrite (outcomes_metered now _ uid u1 s1 plan Hu1 eq_refl Hp eq_refl He).
      unfold metered, fullQuota, rolled. simpl.
      rewrite Z.sub_diag. change (0 / JS.msPerDay) with 0. simpl.
      rewrite !Z.sub_0_r. reflexivity.
    + intros Hr Hpos.
      rewrite (vehicle_access_formula uid _ u1 s1 Hu1 Hr eq_refl).
      change (listingsUsed s1) with 0. rewrite Z.sub_0_r.
      change (negb (status_eqb (status s1) active)) with false. cbv iota.
      destruct (Z.leb_spec (listingsLimit s1) 0); [lia | reflexivity].
  - unfold assignSubscription. rewrite Hu, Hp. cbv beta iota zeta. rewrite Hfit.
    eexists. reflexivity.
Qed.

Lemma assignment_and_custom_limits_witness :
  let db := Fixtures.dbWith (Fixtures.sub 1%nat expired 9 9 9) in
  let db1 := fst (assignSubscription Fixtures.day 7%nat 2%nat 30 (Some 50) None None db) in
  option_map limits (subscriptionOf db1 7%nat) = Some (50, 5, 50) /\
  outcomes Fixtures.day 7%nat db1 = (Some (true, 5), Some (true, 5), Some (true, 50)) /\
  Persona.remaining (Persona.checkVehicleListingAccess 7%nat db1) = Some 50 /\
  fst (assignSubscription Fixtures.day 7%nat 2%nat 200000000 (Some 50) None None db) = db.
Proof.
  intros db db1.
  destruct (assignment_and_custom_limits Fixtures.day 7%nat 2%nat 30 (Some 50) None None db
              (mkUser institute (Some (Fixtures.sub 1%nat expired 9 9 9)))
              Fixtures.instituteSilver eq_refl eq_refl) as [Hok _];
    [vm_compute; discriminate |].
  destruct (assignment_and_custom_limits Fixtures.day 7%nat 2%nat 200000000 (Some 50) None
              None db (mkUser institute (Some (Fixtures.sub 1%nat expired 9 9 9)))
              Fixtures.instituteSilver eq_refl eq_refl) as [_ Hfail];
    [vm_compute; discriminate |].
  destruct (Hok eq_refl) as [s1 [Hsub [_ [_ [_ [Hlim [Hout Hveh]]]]]]].
  destruct (Hfail eq_refl) as [e He].
  subst db1. split; [| split; [| split]].
  - pose proof (f_equal (option_map limits) Hsub) as H. simpl in H.
    rewrite Hlim in H. exact H.
  - etransitivity; [exact Hout | vm_compute; reflexivity].
  - vm_compute. reflexivity.
  - exact (f_equal fst He).
Defined.

(** ** Usage statistics *)

Lemma ceilDiv_pos a b : 0 < b -> (0 < Stats.ceilDiv a b <-> 0 < a).
Proof.
  intros Hb. unfold Stats.ceilDiv. split; intros H.
  - destruct (Z.lt_ge_cases 0 a) as [Hpos | Hle]; [exact Hpos | exfalso].
    assert (0 <= (- a) / b) by (apply Z.div_pos; lia). lia.
  - assert ((- a) / b < 0) by (apply Z.div_lt_upper_bound; lia). lia.
Qed.

Lemma ceilDiv_le a b k : 0 < b -> (Stats.ceilDiv a b <= k <-> a <= k * b).
Proof.
  intros Hb. unfold Stats.ceilDiv. split; intros H.
  - assert (Hq : - k <= (- a) / b) by lia.
    assert (Hm : b * ((- a) / b) <= - a) by (apply Z.mul_div_le; exact Hb).
    nia.
  - assert (- k <= (- a) / b); [| lia].
    apply Z.div_le_lower_bound; [exact Hb | lia].
Qed.



(** ** Delay gate of the teacher profile *)

Lemma role_string_teacher r : String.eqb (role_string r) "teacher" = true <-> r = teacher.
Proof. destruct r; simpl; split; intros H; congruence. Qed.



(** * Properties of the application status handlers *)

Module ApplicationStoreFacts.
Import Applications.

Lemma stamp_keeps now st a :
  app_status (stamp now st a) = app_status a /\
  statusHistory (stamp now st a) = statusHistory a /\
  teacherId (stamp now st a) = teacherId a /\
  app_instituteId (stamp now st a) = app_instituteId a /\
  instituteName (stamp now st a) = instituteName a.
Proof.
  unfold stamp. repeat (destruct (String.eqb st _)); simpl; repeat split; reflexivity.
Qed.

Lemma valid_known cur new :
  Application.valid (Application.validateStatusTransition cur new) = true ->
  Application.includes Application.allStatuses new = true.
Proof.
  unfold Application.validateStatusTransition.
  destruct (Application.includes Application.allStatuses new); [reflexivity |].
  simpl. discriminate.
Qed.

Lemma valid_from_accepted new :
  Application.valid (Application.validateStatusTransition "accepted" new) = true ->
  new = "accepted" \/ new = "rejected".
Proof.
  intros H. pose proof (valid_known _ _ H) as Hk.
  apply ApplicationFacts.includes_In in Hk. simpl in Hk.
  repeat (destruct Hk as [<- | Hk];
          [first [left; reflexivity | right; reflexivity | vm_compute in H; discriminate H] |]).
  contradiction.
Qed.

Lemma valid_from_rejected new :
  Application.includes Application.allStatuses new = true ->
  Application.valid (Application.validateStatusTransition "rejected" new) = true.
Proof.
  intros Hk. apply ApplicationFacts.includes_In in Hk. simpl in Hk.
  repeat (destruct Hk as [<- | Hk]; [vm_compute; reflexivity |]).
  contradiction.
Qed.

Lemma truthy_Some st s : truthy st = Some s -> st = Some s /\ s <> EmptyString.
Proof.
  destruct st as [x |]; simpl; [| discriminate].
  destruct (String.eqb_spec x EmptyString); [discriminate |].
  intros [= <-]. split; [reflexivity | assumption].
Qed.

Lemma authorised_spec uid role a :
  negb (is_admin role) && negb (Nat.eqb (app_instituteId a) uid) = negb (authorised uid role a).
Proof. unfold authorised. destruct (is_admin role), (Nat.eqb _ _); reflexivity. Qed.

Lemma statusNotification_target a st :
  Forall (fun n => n_userId n = teacherId a) (statusNotification a st).
Proof.
  unfold statusNotification.
  match goal with |- context [if ?c then [] else _] => destruct c end;
    [constructor | constructor; [reflexivity | constructor]].
Qed.

(** The application after the status part of [updateApplicationStatus]. *)
Lemma changed_facts now uid st a a1 :
  match truthy st with
  | Some s =>
    if negb (String.eqb s (app_status a)) then
      if negb (Application.valid (Application.validateStatusTransition (app_status a) s))
      then None
      else Some (push_history (mkHistoryEntry s now uid) (stamp now s (set_app_status s a)))
    else Some a
  | None => Some a
  end = Some a1 ->
  a1 = a \/
  exists s, truthy st = Some s /\ s <> app_status a /\
    Application.valid (Application.validateStatusTransition (app_status a) s) = true /\
    a1 = push_history (mkHistoryEntry s now uid) (stamp now s (set_app_status s a)) /\
    app_status a1 = s /\
    statusHistory a1 = (statusHistory a ++ [mkHistoryEntry s now uid])%list /\
    teacherId a1 = teacherId a /\ app_instituteId a1 = app_instituteId a /\
    instituteName a1 = instituteName a.
Proof.
  destruct (truthy st) as [s |]; [| intros [= <-]; left; reflexivity].
  destruct (String.eqb_spec s (app_status a)) as [Heq | Hne]; simpl;
    [intros [= <-]; left; reflexivity |].
  destruct (Application.valid _) eqn:Hv; simpl; [| discriminate].
  intros [= <-]. right. exists s.
  destruct (stamp_keeps now s (set_app_status s a)) as [H1 [H2 [H3 [H4 H5]]]].
  simpl in H1, H2, H3, H4, H5.
  repeat split; try assumption; simpl; congruence.
Qed.

(** The application after the interview part of [updateApplicationStatus]. *)
Lemma scheduled_facts now uid i a1 a3 :
  match i with
  | Some d =>
    if Application.includes ["rejected"; "accepted"] (app_status a1) then None
    else
      if negb (String.eqb (app_status (set_interview (Some (mkInterview d now)) a1))
                 "interview_scheduled")
      then Some (push_history (mkHistoryEntry "interview_scheduled" now uid)
                   (set_app_status "interview_scheduled"
                      (set_interview (Some (mkInterview d now)) a1)))
      else Some (set_interview (Some (mkInterview d now)) a1)
  | None => Some a1
  end = Some a3 ->
  (i = None /\ a3 = a1) \/
  exists d, i = Some d /\
    Application.includes ["rejected"; "accepted"] (app_status a1) = false /\
    app_status a3 = "interview_scheduled" /\
    interviewScheduled a3 = Some (mkInterview d now) /\
    teacherId a3 = teacherId a1 /\ app_instituteId a3 = app_instituteId a1 /\
    instituteName a3 = instituteName a1 /\
    ((app_status a1 = "interview_scheduled" /\ statusHistory a3 = statusHistory a1) \/
     (app_status a1 <> "interview_scheduled" /\
      statusHistory a3 =
        (statusHistory a1 ++ [mkHistoryEntry "interview_scheduled" now uid])%list)).
Proof.
  destruct i as [d |]; [| intros [= <-]; left; split; reflexivity].
  destruct (Application.includes _ (app_status a1)) eqn:Hinc; [discriminate |].
  simpl. destruct (String.eqb_spec (app_status a1) "interview_scheduled") as [Heq | Hne]; simpl;
    intros [= <-]; right; exists d; simpl; repeat split; auto.
Qed.

(** What a successful [updateApplicationStatus] has done. *)
Lemma update_inv now uid role id st i db apps apps' a' sent :
  updateApplicationStatus now uid role id st i db apps = (apps', Updated a' sent) ->
  exists a a1,
    apps !! id = Some a /\ authorised uid role a = true /\ apps' = <[id := a']> apps /\
    Forall (fun n => n_userId n = teacherId a) sent /\
    match i with Some d => validMode (mode d) = true | None => True end /\
    (a1 = a \/
     exists s, truthy st = Some s /\ s <> app_status a /\
       Application.valid (Application.validateStatusTransition (app_status a) s) = true /\
       a1 = push_history (mkHistoryEntry s now uid) (stamp now s (set_app_status s a)) /\
       app_status a1 = s /\
       statusHistory a1 = (statusHistory a ++ [mkHistoryEntry s now uid])%list /\
       teacherId a1 = teacherId a /\ app_instituteId a1 = app_instituteId a /\
       instituteName a1 = instituteName a) /\
    ((i = None /\ a' = a1) \/
     exists d, i = Some d /\
       Application.includes ["rejected"; "accepted"] (app_status a1) = false /\
       app_status a' = "interview_scheduled" /\
       interviewScheduled a' = Some (mkInterview d now) /\
       teacherId a' = teacherId a1 /\ app_instituteId a' = app_instituteId a1 /\
       instituteName a' = instituteName a1 /\
       ((app_status a1 = "interview_scheduled" /\ statusHistory a' = statusHistory a1) \/
        (app_status a1 <> "interview_scheduled" /\
         statusHistory a' =
           (statusHistory a1 ++ [mkHistoryEntry "interview_scheduled" now uid])%list))).
Proof.
  unfold updateApplicationStatus. intros H.
  destruct (apps !! id) as [a |]; [| discriminate H].
  rewrite authorised_spec in H.
  destruct (authorised uid role a) eqn:Hauth; simpl in H; [| discriminate H].
  cbv zeta in H.
  match type of H with
  | match ?c with Some _ => _ | None => _ end = _ => destruct c as [a1 |] eqn:Hch
  end; [| discriminate H].
  match type of H with
  | match ?c with Some _ => _ | None => _ end = _ => destruct c as [a3 |] eqn:Hsch
  end; [| discriminate H].
  apply changed_facts in Hch. apply scheduled_facts in Hsch.
  match type of H with
  | (if negb ?c then _ else _) = _ => destruct c eqn:Hmode
  end; simpl in H; [| discriminate H].
  injection H as <- <- <-.
  assert (Hteacher : teacherId a3 = teacherId a).
  { destruct Hsch as [[_ ->] | [d [_ [_ [_ [_ [-> _]]]]]]];
      (destruct Hch as [-> | [s [_ [_ [_ [_ [_ [_ [-> _]]]]]]]]]; reflexivity). }
  exists a, a1. split; [reflexivity |]. split; [exact Hauth |]. split; [reflexivity |].
  split; [| split; [| split; assumption]].
  - apply Forall_app. split.
    + destruct (truthy st); [| constructor].
      destruct (findUser db (teacherId a3)); [| constructor].
      rewrite <- Hteacher. apply statusNotification_target.
    + destruct i; [| constructor].
      constructor; [simpl; exact Hteacher | constructor].
  - destruct i; [exact Hmode | exact I].
Qed.

(** What a successful [rescheduleInterview] has done. *)
Lemma reschedule_inv now uid role id i apps apps' a' sent :
  rescheduleInterview now uid role id i apps = (apps', Updated a' sent) ->
  exists a d,
    i = Some d /\ apps !! id = Some a /\ authorised uid role a = true /\
    apps' = <[id := a']> apps /\
    app_status a = "interview_scheduled" /\ validMode (mode d) = true /\
    a' = push_history (mkHistoryEntry "interview_rescheduled" now uid)
           (set_interview (Some (mkInterview d now)) a) /\
    sent = [mkNotification (teacherId a) "warning" "Interview Rescheduled"
              ("Your interview with " ++ instituteName a ++ " has been rescheduled")].
Proof.
  unfold rescheduleInterview. intros H.
  destruct i as [d |]; [| discriminate H].
  destruct (apps !! id) as [a |]; [| discriminate H].
  rewrite authorised_spec in H.
  destruct (authorised uid role a) eqn:Hauth; simpl in H; [| discriminate H].
  destruct (String.eqb_spec (app_status a) "interview_scheduled") as [Hst | Hst]; simpl in H;
    [| discriminate H].
  destruct (validMode (mode d)) eqn:Hmode; simpl in H; [| discriminate H].
  injection H as <- <- <-.
  exists a, d. repeat split; assumption.
Qed.

Lemma evolves_refl a : evolves a a.
Proof.
  repeat split; try reflexivity; [| tauto].
  exists []. rewrite app_nil_r. reflexivity.
Qed.

Lemma evolves_trans a b c : evolves a b -> evolves b c -> evolves a c.
Proof.
  intros [H1 [H2 [H3 [[m Hm] H5]]]] [K1 [K2 [K3 [[n Hn] K5]]]].
  repeat split; try congruence; [| tauto].
  exists (m ++ n)%list. rewrite Hn, Hm, <- app_assoc. reflexivity.
Qed.

Lemma update_evolves now uid role id st i db apps apps' a' sent a :
  updateApplicationStatus now uid role id st i db apps = (apps', Updated a' sent) ->
  apps !! id = Some a -> evolves a a'.
Proof.
  intros H Ha. apply update_inv in H.
  destruct H as [a0 [a1 [Ha0 [_ [_ [_ [_ [Hch Hsch]]]]]]]].
  rewrite Ha in Ha0. injection Ha0 as <-.
  assert (H1 : evolves a a1).
  { destruct Hch as [-> | [s [_ [_ [Hv [_ [Hs [Hh [Ht [Hi Hn]]]]]]]]]]; [apply evolves_refl |].
    repeat split; try assumption; [eexists; exact Hh |].
    intros _. unfold knownStatus. rewrite Hs. exact (valid_known _ _ Hv). }
  apply (evolves_trans a a1 a'); [exact H1 |].
  destruct Hsch as [[_ ->] | [d [_ [_ [Hs [_ [Ht [Hi [Hn Hh]]]]]]]]]; [apply evolves_refl |].
  repeat split; try assumption.
  - destruct Hh as [[_ Hh] | [_ Hh]]; [exists []; rewrite app_nil_r | eexists]; exact Hh.
  - intros _. unfold knownStatus. rewrite Hs. reflexivity.
Qed.

Lemma reschedule_evolves now uid role id i apps apps' a' sent a :
  rescheduleInterview now uid role id i apps = (apps', Updated a' sent) ->
  apps !! id = Some a -> evolves a a'.
Proof.
  intros H Ha. apply reschedule_inv in H.
  destruct H as [a0 [d [_ [Ha0 [_ [_ [_ [_ [-> _]]]]]]]]].
  rewrite Ha in Ha0. injection Ha0 as <-.
  repeat split; [eexists; reflexivity | intros H; exact H].
Qed.

Lemma update_refused now uid role id st i db apps apps' c e :
  updateApplicationStatus now uid role id st i db apps = (apps', Refused c e) -> apps' = apps.
Proof.
  unfold updateApplicationStatus. cbv zeta.
  repeat match goal with
         | |- context [match ?c with Some _ => _ | None => _ end = (_, _)] => destruct c
         | |- context [if ?c then _ else _] => destruct c
         end; intros [=]; congruence.
Qed.

Lemma reschedule_refused now uid role id i apps apps' c e :
  rescheduleInterview now uid role id i apps = (apps', Refused c e) -> apps' = apps.
Proof.
  unfold rescheduleInterview.
  destruct i; [| intros [=]; congruence].
  destruct (apps !! id); [| intros [=]; congruence].
  repeat match goal with
         | |- context [if ?c then _ else _] => destruct c
         end; intros [=]; congruence.
Qed.

(** One request, seen from one application id. *)
Lemma run_request_step db r apps id :
  match apps !! id with
  | Some a => exists a', run_request db r apps !! id = Some a' /\ evolves a a'
  | None => run_request db r apps !! id = None
  end.
Proof.
  assert (Hsame : forall apps', apps' = apps ->
            match apps !! id with
            | Some a => exists a', apps' !! id = Some a' /\ evolves a a'
            | None => apps' !! id = None
            end).
  { intros apps' ->. destruct (apps !! id) as [a |] eqn:Ha; [| reflexivity].
    exists a. split; [reflexivity | apply evolves_refl]. }
  assert (Hupd : forall j a a', apps !! j = Some a -> evolves a a' ->
            match apps !! id with
            | Some a => exists a'', <[j := a']> apps !! id = Some a'' /\ evolves a a''
            | None => <[j := a']> apps !! id = None
            end).
  { intros j a a' Hj Hev. destruct (decide (j = id)) as [-> | Hne].
    - rewrite Hj, lookup_insert_eq. exists a'. split; [reflexivity | exact Hev].
    - rewrite lookup_insert_ne by exact Hne.
      destruct (apps !! id) as [b |]; [| reflexivity].
      exists b. split; [reflexivity | apply evolves_refl]. }
  destruct r as [now uid role j st i | now uid role j i]; simpl.
  - destruct (updateApplicationStatus now uid role j st i db apps) as [apps' [a' sent | c e]] eqn:H;
      simpl.
    + pose proof (update_inv _ _ _ _ _ _ _ _ _ _ _ H) as [a [_ [Ha [_ [-> _]]]]].
      apply (Hupd j a a' Ha). exact (update_evolves _ _ _ _ _ _ _ _ _ _ _ _ H Ha).
    + apply Hsame. exact (update_refused _ _ _ _ _ _ _ _ _ _ _ H).
  - destruct (rescheduleInterview now uid role j i apps) as [apps' [a' sent | c e]] eqn:H; simpl.
    + pose proof (reschedule_inv _ _ _ _ _ _ _ _ _ H) as [a [d [_ [Ha [_ [-> _]]]]]].
      apply (Hupd j a a' Ha). exact (reschedule_evolves _ _ _ _ _ _ _ _ _ _ H Ha).
    + apply Hsame. exact (reschedule_refused _ _ _ _ _ _ _ _ _ H).
Qed.

Lemma update_status_only now uid role id s db apps a :
  apps !! id = Some a -> authorised uid role a = true ->
  s <> EmptyString -> s <> app_status a ->
  Application.valid (Application.validateStatusTransition (app_status a) s) = true ->
  fst (updateApplicationStatus now uid role id (Some s) None db apps) =
    <[id := push_history (mkHistoryEntry s now uid) (stamp now s (set_app_status s a))]> apps.
Proof.
  intros Ha Hauth Hs Hne Hv. unfold updateApplicationStatus.
  rewrite Ha, authorised_spec, Hauth. cbn [negb truthy].
  destruct (String.eqb_spec s EmptyString); [contradiction |].
  destruct (String.eqb_spec s (app_status a)); [contradiction |].
  cbn [negb]. cbv zeta. rewrite Hv. reflexivity.
Qed.

Lemma update_same_status now uid role id db apps a :
  apps !! id = Some a -> authorised uid role a = true ->
  fst (updateApplicationStatus now uid role id (Some (app_status a)) None db apps) =
    <[id := a]> apps.
Proof.
  intros Ha Hauth. unfold updateApplicationStatus.
  rewrite Ha, authorised_spec, Hauth. cbn [negb truthy].
  destruct (String.eqb_spec (app_status a) EmptyString); [reflexivity |].
  rewrite String.eqb_refl. reflexivity.
Qed.

Lemma known_not_empty t :
  Application.includes Application.allStatuses t = true -> t <> EmptyString.
Proof. intros H ->. vm_compute in H. discriminate H. Qed.

(** X22. Whatever requests reach [updateApplicationStatus] and
    [rescheduleInterview], from whatever callers and in whatever order,
    an application of the collection stays in it with the same teacher,
    institute and institute name, its status history is only ever
    extended at the end, and a status that is one of the six of the
    schema stays one of the six; no application is created either. *)
Theorem requests_preserve_applications db rs apps id :
  (forall a, apps !! id = Some a ->
     exists a', run_requests db rs apps !! id = Some a' /\ evolves a a') /\
  (apps !! id = None -> run_requests db rs apps !! id = None).
Proof.
  revert apps. induction rs as [| r rs IH]; intros apps.
  - split; [| trivial]. intros a Ha. exists a. split; [exact Ha | apply evolves_refl].
  - change (run_requests db (r :: rs) apps)
      with (run_requests db rs (run_request db r apps)).
    pose proof (run_request_step db r apps id) as Hstep.
    destruct (IH (run_request db r apps)) as [IH1 IH2]. split.
    + intros a Ha. rewrite Ha in Hstep. destruct Hstep as [a1 [H1 Hev1]].
      destruct (IH1 a1 H1) as [a' [H' Hev']]. exists a'.
      split; [exact H' | exact (evolves_trans _ _ _ Hev1 Hev')].
    + intros Hn. rewrite Hn in Hstep. apply IH2. exact Hstep.
Qed.

Lemma requests_preserve_applications_witness :
  let rs := [UpdateStatus 10 8%nat institute 1%nat (Some "shortlisted") None;
             UpdateStatus 20 5%nat teacher 1%nat (Some "accepted") None;
             UpdateStatus 30 8%nat institute 1%nat (Some "archived") None;
             UpdateStatus 40 9%nat admin 1%nat None (Some videoCall);
             Reschedule 50 8%nat institute 1%nat (Some videoCall)] in
  exists a', run_requests staffDb rs (applicationsWith "pending") !! 1%nat = Some a' /\
    evolves (applicationIn "pending") a' /\
    app_status a' = "interview_scheduled" /\
    List.map h_status (statusHistory a') =
      ["shortlisted"; "interview_scheduled"; "interview_rescheduled"].
Proof.
  intros rs.
  destruct (proj1 (requests_preserve_applications staffDb rs
                     (applicationsWith "pending") 1%nat)
              (applicationIn "pending") eq_refl) as [a' [H Hev]].
  exists a'. split; [exact H |]. split; [exact Hev |].
  vm_compute in H. injection H as <-. split; reflexivity.
Defined.

(** X23. Both status handlers are all-or-nothing and reserved to the
    admin and to the institute the application was sent to: a refused
    request leaves the collection exactly as it was, an accepted one
    rewrites only the application addressed and notifies nobody but that
    application's teacher, and a caller who is neither an admin nor that
    institute (the applying teacher included) is answered 403
    UNAUTHORIZED. *)
Theorem handlers_are_lawful now uid role id st i db apps :
  lawful uid role id apps (updateApplicationStatus now uid role id st i db apps) /\
  lawful uid role id apps (rescheduleInterview now uid role id i apps) /\
  (forall a, apps !! id = Some a -> authorised uid role a = false ->
     updateApplicationStatus now uid role id st i db apps = (apps, Refused 403 "UNAUTHORIZED") /\
     (i <> None ->
      rescheduleInterview now uid role id i apps = (apps, Refused 403 "UNAUTHORIZED"))).
Proof.
  split; [| split].
  - unfold lawful.
    destruct (updateApplicationStatus now uid role id st i db apps)
      as [apps' [a' sent | c e]] eqn:H; simpl.
    + apply update_inv in H. destruct H as [a [a1 [Ha [Hauth [Heq [Hsent _]]]]]].
      exists a. repeat split; assumption.
    + exact (update_refused _ _ _ _ _ _ _ _ _ _ _ H).
  - unfold lawful.
    destruct (rescheduleInterview now uid role id i apps) as [apps' [a' sent | c e]] eqn:H; simpl.
    + apply reschedule_inv in H.
      destruct H as [a [d [_ [Ha [Hauth [Heq [_ [_ [_ ->]]]]]]]]].
      exists a. repeat split; try assumption.
      constructor; [reflexivity | constructor].
    + exact (reschedule_refused _ _ _ _ _ _ _ _ _ H).
  - intros a Ha Hauth. split.
    + unfold updateApplicationStatus. rewrite Ha, authorised_spec, Hauth. reflexivity.
    + intros Hi. unfold rescheduleInterview. destruct i as [d |]; [| contradiction].
      rewrite Ha, authorised_spec, Hauth. reflexivity.
Qed.

Lemma handlers_are_lawful_witness :
  let apps := applicationsWith "pending" in
  updateApplicationStatus 10 5%nat teacher 1%nat (Some "accepted") None staffDb apps =
    (apps, Refused 403 "UNAUTHORIZED") /\
  lawful 8%nat institute 1%nat apps
    (updateApplicationStatus 10 8%nat institute 1%nat (Some "accepted") None staffDb apps) /\
  List.map n_userId
    (match snd (updateApplicationStatus 10 8%nat institute 1%nat (Some "accepted") None
                  staffDb apps) with
     | Updated _ sent => sent
     | Refused _ _ => []
     end) = [5%nat].
Proof.
  intros apps. split; [| split].
  - exact (proj1 (proj2 (proj2 (handlers_are_lawful 10 5%nat teacher 1%nat (Some "accepted")
                                  None staffDb apps))
                    (applicationIn "pending") eq_refl eq_refl)).
  - exact (proj1 (handlers_are_lawful 10 8%nat institute 1%nat (Some "accepted") None
                    staffDb apps)).
  - vm_compute. reflexivity.
Defined.

(** X24. An accepted application, in the hands of an authorised caller:
    whatever one request asks, the stored status afterwards is
    'accepted' or 'rejected'; asking directly for any of the four other
    statuses is refused with 400 INVALID_STATUS_TRANSITION, and any
    request carrying interview details is refused with 400.  The block
    is on the single step only: 'rejected' followed by any status [t] of
    the six leaves the application in status [t]. *)
Theorem accepted_application now uid role id db apps a :
  apps !! id = Some a -> app_status a = "accepted" -> authorised uid role a = true ->
  (forall st i, exists a',
     fst (updateApplicationStatus now uid role id st i db apps) !! id = Some a' /\
     (app_status a' = "accepted" \/ app_status a' = "rejected")) /\
  (forall t, Application.includes Application.allStatuses t = true ->
     t <> "accepted" -> t <> "rejected" ->
     updateApplicationStatus now uid role id (Some t) None db apps =
       (apps, Refused 400 "INVALID_STATUS_TRANSITION")) /\
  (forall st d, exists e,
     updateApplicationStatus now uid role id st (Some d) db apps = (apps, Refused 400 e)) /\
  (forall t later, Application.includes Application.allStatuses t = true ->
     let apps1 := fst (updateApplicationStatus now uid role id (Some "rejected") None db apps) in
     let apps2 := fst (updateApplicationStatus later uid role id (Some t) None db apps1) in
     exists a2, apps2 !! id = Some a2 /\ app_status a2 = t).
Proof.
  intros Ha Hst Hauth.
  assert (Hone : forall st i apps' a' sent,
            updateApplicationStatus now uid role id st i db apps = (apps', Updated a' sent) ->
            i = None /\ (app_status a' = "accepted" \/ app_status a' = "rejected")).
  { intros st i apps' a' sent H. apply update_inv in H.
    destruct H as [a0 [a1 [Ha0 [_ [_ [_ [_ [Hch Hsch]]]]]]]].
    rewrite Ha in Ha0. injection Ha0 as <-.
    assert (H1 : app_status a1 = "accepted" \/ app_status a1 = "rejected").
    { destruct Hch as [-> | [s [_ [_ [Hv [_ [Hs _]]]]]]]; [left; exact Hst |].
      rewrite Hs. rewrite Hst in Hv. exact (valid_from_accepted s Hv). }
    destruct Hsch as [[-> ->] | [d [_ [Hinc _]]]]; [split; [reflexivity | exact H1] |].
    exfalso. destruct H1 as [H1 | H1]; rewrite H1 in Hinc; vm_compute in Hinc; discriminate Hinc. }
  split; [| split; [| split]].
  - intros st i.
    destruct (updateApplicationStatus now uid role id st i db apps)
      as [apps' [a' sent | c e]] eqn:H; simpl.
    + destruct (Hone _ _ _ _ _ H) as [_ Hs].
      apply update_inv in H. destruct H as [_ [_ [_ [_ [-> _]]]]].
      exists a'. split; [apply lookup_insert_eq | exact Hs].
    + rewrite (update_refused _ _ _ _ _ _ _ _ _ _ _ H). exists a.
      split; [exact Ha | left; exact Hst].
  - intros t Hk Hna Hnr. unfold updateApplicationStatus.
    rewrite Ha, authorised_spec, Hauth. cbn [negb truthy andb].
    destruct (String.eqb_spec t EmptyString) as [He | _];
      [exfalso; exact (known_not_empty t Hk He) |].
    rewrite Hst. destruct (String.eqb_spec t "accepted"); [contradiction |].
    cbn [negb]. cbv zeta.
    destruct (Application.valid (Application.validateStatusTransition "accepted" t)) eqn:Hv;
      [| reflexivity].
    destruct (valid_from_accepted t Hv); contradiction.
  - intros st d. unfold updateApplicationStatus.
    rewrite Ha, authorised_spec, Hauth. cbn [negb andb]. cbv zeta.
    match goal with
    | |- exists _, match ?c with Some _ => _ | None => _ end = _ =>
      destruct c as [a1 |] eqn:Hch
    end; [| eexists; reflexivity].
    apply changed_facts in Hch.
    assert (Hinc : Application.includes ["rejected"; "accepted"] (app_status a1) = true).
    { destruct Hch as [-> | [s [_ [_ [Hv [_ [Hs _]]]]]]]; [rewrite Hst; reflexivity |].
      rewrite Hs. rewrite Hst in Hv.
      destruct (valid_from_accepted s Hv) as [-> | ->]; reflexivity. }
    cbv beta iota. rewrite Hinc. eexists. reflexivity.
  - intros t later Hk apps1 apps2.
    assert (Hv : Application.valid
                   (Application.validateStatusTransition (app_status a) "rejected") = true)
      by (rewrite Hst; vm_compute; reflexivity).
    assert (Hne : "rejected" <> app_status a) by (rewrite Hst; discriminate).
    assert (H1 : apps1 = <[id := push_history (mkHistoryEntry "rejected" now uid)
                                   (stamp now "rejected" (set_app_status "rejected" a))]> apps).
    { subst apps1. apply (update_status_only now uid role id "rejected" db apps a Ha Hauth);
        [discriminate | exact Hne | exact Hv]. }
    set (a1 := push_history (mkHistoryEntry "rejected" now uid)
                 (stamp now "rejected" (set_app_status "rejected" a))) in H1.
    assert (Hs1 : app_status a1 = "rejected") by reflexivity.
    assert (Ha1 : apps1 !! id = Some a1) by (rewrite H1; apply lookup_insert_eq).
    assert (Hauth1 : authorised uid role a1 = true) by exact Hauth.
    destruct (String.eqb_spec t "rejected") as [-> | Hnr].
    + exists a1. split; [| exact Hs1]. subst apps2.
      rewrite <- Hs1 at 1. rewrite (update_same_status later uid role id db apps1 a1 Ha1 Hauth1).
      apply lookup_insert_eq.
    + subst apps2.
      rewrite (update_status_only later uid role id t db apps1 a1 Ha1 Hauth1
                 (known_not_empty t Hk)).
      * eexists. split; [apply lookup_insert_eq |].
        simpl. apply (stamp_keeps later t (set_app_status t a1)).
      * rewrite Hs1. exact Hnr.
      * rewrite Hs1. exact (valid_from_rejected t Hk).
Qed.

Lemma accepted_application_witness :
  let apps := applicationsWith "accepted" in
  updateApplicationStatus 10 8%nat institute 1%nat (Some "pending") None staffDb apps =
    (apps, Refused 400 "INVALID_STATUS_TRANSITION") /\
  (exists e, updateApplicationStatus 10 8%nat institute 1%nat None (Some videoCall) staffDb apps =
               (apps, Refused 400 e)) /\
  option_map app_status
    (run_requests staffDb
       [UpdateStatus 10 8%nat institute 1%nat (Some "rejected") None;
        UpdateStatus 20 8%nat institute 1%nat (Some "pending") None] apps !! 1%nat) =
    Some "pending".
Proof.
  intros apps.
  pose proof (accepted_application 10 8%nat institute 1%nat staffDb apps
                (applicationIn "accepted") eq_refl eq_refl eq_refl) as [_ [Hdirect [Hint Htwo]]].
  split; [| split].
  - apply Hdirect; [reflexivity | discriminate | discriminate].
  - apply Hint.
  - destruct (Htwo "pending" 20 eq_refl) as [a2 [H2 Hs2]].
    change (run_requests staffDb _ apps !! 1%nat) with
      (fst (updateApplicationStatus 20 8%nat institute 1%nat (Some "pending") None staffDb
              (fst (updateApplicationStatus 10 8%nat institute 1%nat (Some "rejected") None
                      staffDb apps))) !! 1%nat).
    exact (eq_trans (f_equal (option_map app_status) H2) (f_equal Some Hs2)).
Defined.

(** X25. The status history is an audit trail of the two handlers: a
    successful [updateApplicationStatus] appends at most two entries,
    each stamped with the time of the request and the caller's id, and
    whenever the stored status has changed the last entry names the new
    status; a successful [rescheduleInterview] leaves the status as it
    is and appends exactly one entry, 'interview_rescheduled'. *)
Theorem status_changes_are_recorded now uid role id db apps apps' a a' sent :
  apps !! id = Some a ->
  (forall st i,
     updateApplicationStatus now uid role id st i db apps = (apps', Updated a' sent) ->
     exists more,
       statusHistory a' = (statusHistory a ++ more)%list /\
       (length more <= 2)%nat /\ Forall (entryOf now uid) more /\
       (app_status a' <> app_status a ->
        last more = Some (mkHistoryEntry (app_status a') now uid))) /\
  (forall i,
     rescheduleInterview now uid role id i apps = (apps', Updated a' sent) ->
     statusHistory a' =
       (statusHistory a ++ [mkHistoryEntry "interview_rescheduled" now uid])%list /\
     app_status a' = app_status a).
Proof.
  intros Ha. split.
  - intros st i H. apply update_inv in H.
    destruct H as [a0 [a1 [Ha0 [_ [_ [_ [_ [Hch Hsch]]]]]]]].
    rewrite Ha in Ha0. injection Ha0 as <-.
    assert (Hentry : forall s, entryOf now uid (mkHistoryEntry s now uid))
      by (intros s; split; reflexivity).
    destruct Hch as [-> | [s [_ [_ [_ [_ [Hs [Hh _]]]]]]]];
      destruct Hsch as [[_ ->] | [d [_ [_ [Hs' [_ [_ [_ [_ [[Hsame Hh'] | [Hdiff Hh']]]]]]]]]]].
    + exists []. rewrite app_nil_r. repeat split; [simpl; lia | constructor | congruence].
    + exists []. rewrite app_nil_r. repeat split; [exact Hh' | simpl; lia | constructor | congruence].
    + exists [mkHistoryEntry "interview_scheduled" now uid].
      repeat split; [exact Hh' | simpl; lia | constructor; [apply Hentry | constructor] |].
      intros _. rewrite Hs'. reflexivity.
    + exists [mkHistoryEntry s now uid].
      repeat split; [exact Hh | simpl; lia | constructor; [apply Hentry | constructor] |].
      intros _. rewrite Hs. reflexivity.
    + exists [mkHistoryEntry s now uid].
      repeat split; [congruence | simpl; lia | constructor; [apply Hentry | constructor] |].
      intros _. rewrite Hs'. simpl. congruence.
    + exists [mkHistoryEntry s now uid; mkHistoryEntry "interview_scheduled" now uid].
      repeat split.
      * rewrite Hh', Hh, <- app_assoc. reflexivity.
      * simpl. lia.
      * constructor; [apply Hentry | constructor; [apply Hentry | constructor]].
      * intros _. rewrite Hs'. reflexivity.
  - intros i H. apply reschedule_inv in H.
    destruct H as [a0 [d [_ [Ha0 [_ [_ [_ [_ [-> _]]]]]]]]].
    rewrite Ha in Ha0. injection Ha0 as <-. split; reflexivity.
Qed.

Lemma status_changes_are_recorded_witness :
  let apps := applicationsWith "pending" in
  exists apps' a' sent,
    updateApplicationStatus 10 8%nat institute 1%nat (Some "reviewed") (Some videoCall)
      staffDb apps = (apps', Updated a' sent) /\
    statusHistory a' = [mkHistoryEntry "reviewed" 10 8%nat;
                        mkHistoryEntry "interview_scheduled" 10 8%nat] /\
    app_status a' = "interview_scheduled" /\ reviewedAt a' = Some 10.
Proof.
  intros apps.
  destruct (updateApplicationStatus 10 8%nat institute 1%nat (Some "reviewed") (Some videoCall)
              staffDb apps) as [apps' out] eqn:H.
  assert (Hout : exists a' sent, out = Updated a' sent)
    by (vm_compute in H; injection H as _ <-; eexists; eexists; reflexivity).
  destruct Hout as [a' [sent ->]].
  exists apps', a', sent. split; [reflexivity |].
  destruct (proj1 (status_changes_are_recorded 10 8%nat institute 1%nat staffDb apps apps'
                     (applicationIn "pending") a' sent eq_refl)
              (Some "reviewed") (Some videoCall) H) as [more [Hh _]].
  vm_compute in H. injection H as _ <- _. repeat split.
Defined.

(** X26. Scheduling an interview, by an authorised caller on an
    application that is neither rejected nor accepted and with no status
    in the request: details whose [mode] is not 'video', 'phone' or
    'in-person' make the save fail, so the request is answered 500 and
    nothing is stored; otherwise the application moves to
    'interview_scheduled', stores the details stamped with the time of
    the request, and the teacher gets the one 'Interview Scheduled'
    notification.  From there [rescheduleInterview] succeeds with any
    valid details and replaces them, whereas on an application whose
    status is not 'interview_scheduled' it is refused with 400
    INTERVIEW_NOT_SCHEDULED. *)
Theorem interview_scheduling now uid role id db apps a d :
  apps !! id = Some a -> authorised uid role a = true ->
  Application.includes ["rejected"; "accepted"] (app_status a) = false ->
  (validMode (mode d) = false ->
     updateApplicationStatus now uid role id None (Some d) db apps =
       (apps, Refused 500 "UPDATE_APPLICATION_FAILED")) /\
  (validMode (mode d) = true ->
     exists a',
       updateApplicationStatus now uid role id None (Some d) db apps =
         (<[id := a']> apps,
          Updated a' [mkNotification (teacherId a) "info" "Interview Scheduled"
                        ("Interview scheduled for " ++ instituteName a)]) /\
       app_status a' = "interview_scheduled" /\
       interviewScheduled a' = Some (mkInterview d now) /\
       forall later d2, validMode (mode d2) = true ->
         exists a2 sent2,
           rescheduleInterview later uid role id (Some d2) (<[id := a']> apps) =
             (<[id := a2]> (<[id := a']> apps), Updated a2 sent2) /\
           app_status a2 = "interview_scheduled" /\
           interviewScheduled a2 = Some (mkInterview d2 later)) /\
  (app_status a <> "interview_scheduled" ->
     rescheduleInterview now uid role id (Some d) apps =
       (apps, Refused 400 "INTERVIEW_NOT_SCHEDULED")).
Proof.
  intros Ha Hauth Hinc. split; [| split].
  - intros Hmode. unfold updateApplicationStatus.
    rewrite Ha, authorised_spec, Hauth. cbn [negb andb truthy]. cbv zeta beta iota.
    rewrite Hinc, Hmode.
    destruct (negb (String.eqb _ "interview_scheduled")); reflexivity.
  - intros Hmode.
    assert (Hre : forall a', app_status a' = "interview_scheduled" ->
              interviewScheduled a' = Some (mkInterview d now) ->
              app_instituteId a' = app_instituteId a ->
              forall later d2, validMode (mode d2) = true ->
              exists a2 sent2,
                rescheduleInterview later uid role id (Some d2) (<[id := a']> apps) =
                  (<[id := a2]> (<[id := a']> apps), Updated a2 sent2) /\
                app_status a2 = "interview_scheduled" /\
                interviewScheduled a2 = Some (mkInterview d2 later)).
    { intros a' Hs Hi Hinst later d2 Hm2. unfold rescheduleInterview.
      rewrite lookup_insert_eq, authorised_spec.
      assert (Hauth' : authorised uid role a' = true)
        by (unfold authorised in *; rewrite Hinst; exact Hauth).
      rewrite Hauth', Hs, Hm2, String.eqb_refl. cbn [negb orb].
      eexists. eexists. split; [reflexivity |]. split; [exact Hs | reflexivity]. }
    unfold updateApplicationStatus.
    rewrite Ha, authorised_spec, Hauth. cbn [negb andb truthy]. cbv zeta beta iota.
    rewrite Hinc, Hmode.
    destruct (String.eqb_spec (app_status (set_interview (Some (mkInterview d now)) a))
                "interview_scheduled") as [Heq | Hne]; cbn [negb app].
    + eexists. split; [reflexivity |]. split; [exact Heq |]. split; [reflexivity |].
      apply Hre; [exact Heq | reflexivity | reflexivity].
    + eexists. split; [reflexivity |]. split; [reflexivity |]. split; [reflexivity |].
      apply Hre; reflexivity.
  - intros Hne. unfold rescheduleInterview.
    rewrite Ha, authorised_spec, Hauth.
    destruct (String.eqb_spec (app_status a) "interview_scheduled"); [contradiction |].
    reflexivity.
Qed.

Lemma interview_scheduling_witness :
  let apps := applicationsWith "shortlisted" in
  let badCall := mkInterviewDetails (Some "2026-01-10") (Some "10:00") (Some "30 min")
                   (Some "carrier pigeon") None None None in
  updateApplicationStatus 10 8%nat institute 1%nat None (Some badCall) staffDb apps =
    (apps, Refused 500 "UPDATE_APPLICATION_FAILED") /\
  rescheduleInterview 10 8%nat institute 1%nat (Some videoCall) apps =
    (apps, Refused 400 "INTERVIEW_NOT_SCHEDULED") /\
  exists a', fst (updateApplicationStatus 10 8%nat institute 1%nat None (Some videoCall)
                    staffDb apps) !! 1%nat = Some a' /\
             app_status a' = "interview_scheduled".
Proof.
  intros apps badCall.
  pose proof (interview_scheduling 10 8%nat institute 1%nat staffDb apps
                (applicationIn "shortlisted") badCall eq_refl eq_refl eq_refl)
    as [Hbad _].
  pose proof (interview_scheduling 10 8%nat institute 1%nat staffDb apps
                (applicationIn "shortlisted") videoCall eq_refl eq_refl eq_refl)
    as [_ [Hgood Hre]].
  split; [exact (Hbad eq_refl) |]. split; [apply Hre; discriminate |].
  destruct (Hgood eq_refl) as [a' [Hup [Hs _]]].
  exists a'. split; [| exact Hs].
  exact (eq_trans (f_equal (fun r => fst r !! 1%nat) Hup) (lookup_insert_eq apps 1%nat a')).
Defined.

End ApplicationStoreFacts.
